(** * The system logger (src/backend/postmaster/syslogger.c)

    A shallow embedding of the log collector process: the main worker
    loop of [SysLoggerMain] (the [select]-based build, i.e. the branches
    taken when [WIN32] is not defined), [write_syslogger_file],
    [logfile_rotate], [logfile_getname] and [sigHupHandler].

    The C globals become one record that is threaded through the code;
    every call that leaves the file (system calls, the configuration
    reader, [ereport]) is recorded as an event, and its result is read
    from an oracle, so that statements about "what the code did" are
    statements about the produced event list. *)

From Stdlib Require Import ZArith NArith Nnat Lia Bool List String Ascii.
From Stdlib Require Import DecimalString Decimal DecimalN.
From Stdlib Require DecimalFacts DecimalPos.
Import ListNotations.

Local Open Scope string_scope.
Local Open Scope Z_scope.

(** ** C integers *)

Module CInt.

(** Two's complement wrap-around of a signed integer of [bits] bits. *)
Definition wrap (bits : Z) (z : Z) : Z :=
  (z + 2 ^ (bits - 1)) mod 2 ^ bits - 2 ^ (bits - 1).

Definition in_range (bits : Z) (z : Z) : Prop :=
  - 2 ^ (bits - 1) <= z < 2 ^ (bits - 1).

(** [int] is 32 bits wide on every platform the server runs on. *)
Definition INT_BITS : Z := 32.
Definition to_int (z : Z) : Z := wrap INT_BITS z.
Definition int_range (z : Z) : Prop := in_range INT_BITS z.

(** [(unsigned int) x] *)
Definition to_uint (z : Z) : Z := z mod 2 ^ INT_BITS.

End CInt.

(** ** C strings *)

Module CStr.

(** The first [n] characters of [s]. *)
Fixpoint take (n : nat) (s : string) : string :=
  match n, s with
  | S n', String c r => String c (take n' r)
  | _, _ => EmptyString
  end.

(** [strncpy(dst, src, n)] into a buffer of [n] bytes, read back as the
    string the buffer holds when at most [n] bytes of it are looked at. *)
Definition strncpy (src : string) (n : nat) : string := take n src.

(** [strncmp(s1, s2, n)]: only the sign of the result is specified. *)
Fixpoint strncmp (s1 s2 : string) (n : nat) : Z :=
  match n with
  | O => 0
  | S n' =>
      match s1, s2 with
      | EmptyString, EmptyString => 0
      | EmptyString, String _ _ => -1
      | String _ _, EmptyString => 1
      | String c1 r1, String c2 r2 =>
          if Ascii.eqb c1 c2 then strncmp r1 r2 n'
          else if (N_of_ascii c1 <? N_of_ascii c2)%N then -1 else 1
      end
  end.

(** [snprintf(buf, size, ...)]: at most [size - 1] characters of the
    formatted text are stored, followed by the terminating NUL. *)
Definition snprintf (size : nat) (formatted : string) : string :=
  take (size - 1) formatted.

Fixpoint zeros (n : nat) : string :=
  match n with
  | O => EmptyString
  | S n' => String "0" (zeros n')
  end.

(** The conversion [%u]. *)
Definition fmt_u (n : Z) : string :=
  NilZero.string_of_uint (N.to_uint (Z.to_N n)).

(** The conversion [%05u]: minimum field width 5, padded with zeros on
    the left; a longer number is printed in full. *)
Definition fmt_05u (n : Z) : string :=
  let digits := fmt_u n in
  zeros (5 - String.length digits) ++ digits.

(** [%u] prints each of the [count] numbers from [from] on with at
    most [width] digits. *)
Fixpoint width_at_most (width : nat) (count : nat) (from : Z) : bool :=
  match count with
  | O => true
  | S count' =>
      Nat.leb (String.length (fmt_u from)) width
      && width_at_most width count' (from + 1)
  end.

(** The number a string of decimal digits denotes; [None] when a
    character is not a digit. *)
Definition decimal_value (text : string) : option Z :=
  option_map (fun d => Z.of_N (N.of_uint d)) (NilEmpty.uint_of_string text).

End CStr.

Import CInt CStr.

(** ** What the file takes from headers and libraries

    Constants, macros and library routines that syslogger.c uses and
    that are declared elsewhere: [MAXPGPATH] (pg_config_manual.h),
    [is_absolute_path] (port.h), [pg_localtime] and [pg_strftime] with
    their [struct pg_tm] (pgtime.h), the width of [long], and the three
    [errno] values the file tests for. *)

Class Platform : Type := {
  MAXPGPATH : nat;
  LONG_BITS : Z;
  is_absolute_path : string -> bool;
  pg_tm : Type;
  pg_localtime : Z -> pg_tm;
  pg_strftime : nat -> string -> pg_tm -> string;
  EINTR : Z;
  ENFILE : Z;
  EMFILE : Z
}.

(** ** Data model *)

(** A stdio stream ([FILE *]) together with the path it was opened on. *)
Record FILE : Type := mkFILE {
  stream : Z;
  path : string
}.

(** The variables of syslogger.c that the worker loop reads or writes:
    the GUC parameters, [DataDir] and [PostmasterPid] (miscadmin.h), the
    private state of the file, and [currentLogDir], the local buffer of
    [SysLoggerMain] that lives as long as the loop.  [syslogFile] is not
    NULL while the loop runs: [SysLogger_Start] opens the first logfile
    before it forks and fails with FATAL otherwise. *)
Record State : Type := mkState {
  Log_RotationAge : Z;
  Log_RotationSize : Z;
  Log_directory : string;
  Log_filename_prefix : string;
  DataDir : string;
  PostmasterPid : Z;
  last_rotation_time : Z;
  pipe_eof_seen : bool;
  syslogFile : FILE;
  got_SIGHUP : bool;
  currentLogDir : string
}.

Definition set_Log_RotationAge (v : Z) (s : State) : State :=
  mkState v (Log_RotationSize s) (Log_directory s) (Log_filename_prefix s)
    (DataDir s) (PostmasterPid s) (last_rotation_time s) (pipe_eof_seen s)
    (syslogFile s) (got_SIGHUP s) (currentLogDir s).

Definition set_Log_RotationSize (v : Z) (s : State) : State :=
  mkState (Log_RotationAge s) v (Log_directory s) (Log_filename_prefix s)
    (DataDir s) (PostmasterPid s) (last_rotation_time s) (pipe_eof_seen s)
    (syslogFile s) (got_SIGHUP s) (currentLogDir s).

Definition set_last_rotation_time (v : Z) (s : State) : State :=
  mkState (Log_RotationAge s) (Log_RotationSize s) (Log_directory s)
    (Log_filename_prefix s) (DataDir s) (PostmasterPid s) v (pipe_eof_seen s)
    (syslogFile s) (got_SIGHUP s) (currentLogDir s).

Definition set_pipe_eof_seen (v : bool) (s : State) : State :=
  mkState (Log_RotationAge s) (Log_RotationSize s) (Log_directory s)
    (Log_filename_prefix s) (DataDir s) (PostmasterPid s)
    (last_rotation_time s) v (syslogFile s) (got_SIGHUP s) (currentLogDir s).

Definition set_syslogFile (v : FILE) (s : State) : State :=
  mkState (Log_RotationAge s) (Log_RotationSize s) (Log_directory s)
    (Log_filename_prefix s) (DataDir s) (PostmasterPid s)
    (last_rotation_time s) (pipe_eof_seen s) v (got_SIGHUP s) (currentLogDir s).

Definition set_got_SIGHUP (v : bool) (s : State) : State :=
  mkState (Log_RotationAge s) (Log_RotationSize s) (Log_directory s)
    (Log_filename_prefix s) (DataDir s) (PostmasterPid s)
    (last_rotation_time s) (pipe_eof_seen s) (syslogFile s) v (currentLogDir s).

Definition set_currentLogDir (v : string) (s : State) : State :=
  mkState (Log_RotationAge s) (Log_RotationSize s) (Log_directory s)
    (Log_filename_prefix s) (DataDir s) (PostmasterPid s)
    (last_rotation_time s) (pipe_eof_seen s) (syslogFile s) (got_SIGHUP s) v.

(** The values of the four reloadable parameters as the configuration
    file gives them. *)
Record GucValues : Type := mkGuc {
  guc_log_rotation_age : Z;
  guc_log_rotation_size : Z;
  guc_log_directory : string;
  guc_log_filename_prefix : string
}.

Definition set_guc (g : GucValues) (s : State) : State :=
  mkState (guc_log_rotation_age g) (guc_log_rotation_size g)
    (guc_log_directory g) (guc_log_filename_prefix g)
    (DataDir s) (PostmasterPid s) (last_rotation_time s) (pipe_eof_seen s)
    (syslogFile s) (got_SIGHUP s) (currentLogDir s).

(** The messages the file hands to [ereport(LOG, ...)]. *)
Inductive Diag : Type :=
| could_not_open_new_logfile (filename : string) (saveerrno : Z)
| disabling_auto_rotation
| select_failed (errno : Z)
| could_not_read_from_logger_pipe (errno : Z)
| could_not_write_to_logfile (errno : Z)
| logger_shutting_down.

Definition errmsg (d : Diag) : string :=
  match d with
  | could_not_open_new_logfile _ _ =>
      "could not open new logfile " ++ String "034" "%s" ++ String "034" ": %m"
  | disabling_auto_rotation => "disabling auto rotation (use SIGHUP to reenable)"
  | select_failed _ => "select() failed in logger process: %m"
  | could_not_read_from_logger_pipe _ => "could not read from logger pipe: %m"
  | could_not_write_to_logfile _ => "could not write to logfile: %m"
  | logger_shutting_down => "logger shutting down"
  end.

(** Result of [fopen(filename, "a")]. *)
Inductive fopen_result : Type :=
| fopen_ok (new_stream : Z)
| fopen_NULL (errno : Z).

(** Everything the code does outside its own variables. *)
Inductive Event : Type :=
| EvProcessConfigFile (g : GucValues)
| EvTime (t : Z)
| EvFtell (f : FILE) (pos : Z)
| EvFopen (filename : string) (r : fopen_result)
| EvSetvbuf (f : FILE)
| EvFclose (f : FILE)
| EvSelect (rc : Z)
| EvPipeRead (bytesRead : Z)
| EvFwrite (f : FILE) (bytes : list Byte.byte) (count : Z) (written : Z)
| EvReport (d : Diag)
| EvProcExit (code : Z).

(** What the environment answers during one pass through the loop. *)
Record Oracle : Type := mkOracle {
  o_config : GucValues;          (* ProcessConfigFile(PGC_SIGHUP) *)
  o_time_check : Z;              (* time(NULL) of the age test *)
  o_ftell : Z;                   (* ftell(syslogFile) *)
  o_time_rotate : Z;             (* time(NULL) in logfile_rotate *)
  o_fopen : fopen_result;        (* fopen in logfile_rotate *)
  o_sighup_in_select : bool;     (* SIGHUP delivered while waiting *)
  o_select_rc : Z;               (* select(): return value, *)
  o_select_errno : Z;            (*   errno, *)
  o_select_isset : bool;         (*   FD_ISSET(syslogPipe[0], &rfds) *)
  o_bytesRead : Z;               (* piperead(): return value, *)
  o_read_errno : Z;              (*   errno, *)
  o_logbuffer : list Byte.byte;  (*   contents of logbuffer *)
  o_fwrite : Z;                  (* fwrite(): items written, *)
  o_fwrite_errno : Z             (*   errno *)
}.

(** How one pass through the loop body ends: at the bottom or at
    [continue] (the loop goes on), or in [proc_exit]. *)
Inductive Outcome : Type :=
| Continue
| ProcExit (code : Z).

(** ** State and event monad *)

Definition M (A : Type) : Type := State -> A * State * list Event.

Definition ret {A} (a : A) : M A := fun s => (a, s, []).

Definition bind {A B} (m : M A) (k : A -> M B) : M B :=
  fun s =>
    let '(a, s1, e1) := m s in
    let '(b, s2, e2) := k a s1 in
    (b, s2, (e1 ++ e2)%list).

Definition get : M State := fun s => (s, s, []).
Definition gets {A} (f : State -> A) : M A := fun s => (f s, s, []).
Definition modify (f : State -> State) : M unit := fun s => (tt, f s, []).
Definition emit (e : Event) : M unit := fun s => (tt, s, [e]).
Definition when (b : bool) (m : M unit) : M unit := if b then m else ret tt.

Definition value_of {A} (r : A * State * list Event) : A := fst (fst r).
Definition state_of {A} (r : A * State * list Event) : State := snd (fst r).
Definition events_of {A} (r : A * State * list Event) : list Event := snd r.

Declare Scope sysl_scope.
Delimit Scope sysl_scope with sysl.
Notation "x <- m ;; k" := (bind m (fun x => k))
  (at level 61, m at next level, right associativity) : sysl_scope.
Notation "m ;; k" := (bind m (fun _ => k))
  (at level 61, right associativity) : sysl_scope.
Local Open Scope sysl_scope.

(** [ereport(LOG, ...)]: a call into elog.c, which is not under src/.
    The event stands for the call.  What elog.c does with the message in
    this process, where it hands it to [write_syslogger_file] (lines
    611-617), is added to a trace by [collector_trace] below. *)
Definition ereport (d : Diag) : M unit := emit (EvReport d).

(** ** The code *)

Section Syslogger.

Context `{P : Platform}.

(** construct logfile name using timestamp information (lines 741-762) *)
Definition logfile_getname (s : State) (timestamp : Z) : string :=
  let stamptext :=
    pg_strftime 128 "%Y-%m-%d_%H%M%S" (pg_localtime timestamp) in
  if is_absolute_path (Log_directory s) then
    snprintf MAXPGPATH
      (Log_directory s ++ "/" ++ Log_filename_prefix s ++
       fmt_05u (to_uint (PostmasterPid s)) ++ "_" ++ stamptext ++ ".log")
  else
    snprintf MAXPGPATH
      (DataDir s ++ "/" ++ Log_directory s ++ "/" ++ Log_filename_prefix s ++
       fmt_05u (to_uint (PostmasterPid s)) ++ "_" ++ stamptext ++ ".log").

(** Write to the currently open logfile (lines 618-635).  [written] and
    [errno] are what [fwrite] answers; [rc] is its result stored in an
    [int]. *)
Definition write_syslogger_file
    (buffer : list Byte.byte) (count : Z) (written errno : Z) : M unit :=
  f <- gets syslogFile ;;
  emit (EvFwrite f (firstn (Z.to_nat count) buffer) count written) ;;
  let rc := to_int written in
  when (negb (rc =? count))
    (ereport (could_not_write_to_logfile errno)).

(** perform logfile rotation (lines 681-733).  [now] is what
    [time(NULL)] answers and [r] what [fopen] answers. *)
Definition logfile_rotate (now : Z) (r : fopen_result) : M unit :=
  emit (EvTime now) ;;
  s <- get ;;
  let filename := logfile_getname s now in
  emit (EvFopen filename r) ;;
  match r with
  | fopen_NULL saveerrno =>
      ereport (could_not_open_new_logfile filename saveerrno) ;;
      when (negb (saveerrno =? ENFILE) && negb (saveerrno =? EMFILE))
        (ereport disabling_auto_rotation ;;
         modify (set_Log_RotationAge 0) ;;
         modify (set_Log_RotationSize 0))
  | fopen_ok new_stream =>
      let fh := mkFILE new_stream filename in
      emit (EvSetvbuf fh) ;;
      old <- gets syslogFile ;;
      emit (EvFclose old) ;;
      modify (set_syslogFile fh) ;;
      modify (set_last_rotation_time now)
  end.

(** SIGHUP: set flag to reload config file (lines 770-774) *)
Definition sigHupHandler (s : State) : State := set_got_SIGHUP true s.

(** [SysLoggerMain], lines 216-219: what is set up before the loop. *)
Definition SysLoggerMain_init (t : Z) : M unit :=
  emit (EvTime t) ;;
  modify (set_last_rotation_time t) ;;
  s <- get ;;
  modify (set_currentLogDir (strncpy (Log_directory s) MAXPGPATH)).

(** [SysLoggerMain], lines 233-251: service a pending SIGHUP.  The
    result is the value of [rotation_requested] after the block. *)
Definition SysLoggerMain_reload (o : Oracle) : M bool :=
  sighup <- gets got_SIGHUP ;;
  if sighup : bool then
    modify (set_got_SIGHUP false) ;;
    emit (EvProcessConfigFile (o_config o)) ;;
    modify (set_guc (o_config o)) ;;
    s <- get ;;
    if negb (strncmp (Log_directory s) (currentLogDir s) MAXPGPATH =? 0) then
      modify (set_currentLogDir (strncpy (Log_directory s) MAXPGPATH)) ;;
      ret true
    else ret false
  else ret false.

(** [SysLoggerMain], lines 253-266: rotation by age. *)
Definition SysLoggerMain_age_check
    (o : Oracle) (rotation_requested : bool) : M bool :=
  s <- get ;;
  if negb rotation_requested
     && negb (last_rotation_time s =? 0)
     && (Log_RotationAge s >? 0)
  then
    let now := o_time_check o in
    emit (EvTime now) ;;
    let elapsed_secs := to_int (now - last_rotation_time s) in
    if elapsed_secs >=? to_int (Log_RotationAge s * 60)
    then ret true
    else ret rotation_requested
  else ret rotation_requested.

(** [SysLoggerMain], lines 268-275: rotation by size. *)
Definition SysLoggerMain_size_check
    (o : Oracle) (rotation_requested : bool) : M bool :=
  s <- get ;;
  if negb rotation_requested && (Log_RotationSize s >? 0) then
    emit (EvFtell (syslogFile s) (o_ftell o)) ;;
    if o_ftell o >=? wrap LONG_BITS (Log_RotationSize s * 1024)
    then ret true
    else ret rotation_requested
  else ret rotation_requested.

(** [SysLoggerMain], lines 224-275: the value of [rotation_requested]
    when line 277 tests it. *)
Definition SysLoggerMain_rotation_requested (o : Oracle) : M bool :=
  r1 <- SysLoggerMain_reload o ;;
  r2 <- SysLoggerMain_age_check o r1 ;;
  SysLoggerMain_size_check o r2.

(** [SysLoggerMain], lines 336-348. *)
Definition SysLoggerMain_eof_check : M Outcome :=
  eof <- gets pipe_eof_seen ;;
  if eof : bool then
    ereport logger_shutting_down ;;
    emit (EvProcExit 0) ;;
    ret (ProcExit 0)
  else ret Continue.

(** [SysLoggerMain], lines 280-326 followed by 336-348: wait for data,
    read once, and leave on EOF. *)
Definition SysLoggerMain_wait (o : Oracle) : M Outcome :=
  when (o_sighup_in_select o) (modify sigHupHandler) ;;
  let rc := o_select_rc o in
  emit (EvSelect rc) ;;
  if rc <? 0 then
    when (negb (o_select_errno o =? EINTR))
      (ereport (select_failed (o_select_errno o))) ;;
    SysLoggerMain_eof_check
  else if (rc >? 0) && o_select_isset o then
    let bytesRead := o_bytesRead o in
    emit (EvPipeRead bytesRead) ;;
    if bytesRead <? 0 then
      when (negb (o_read_errno o =? EINTR))
        (ereport (could_not_read_from_logger_pipe (o_read_errno o))) ;;
      SysLoggerMain_eof_check
    else if bytesRead >? 0 then
      write_syslogger_file (o_logbuffer o) bytesRead
        (o_fwrite o) (o_fwrite_errno o) ;;
      ret Continue
    else
      modify (set_pipe_eof_seen true) ;;
      SysLoggerMain_eof_check
  else SysLoggerMain_eof_check.

(** One pass through the body of the main worker loop (lines 224-348). *)
Definition SysLoggerMain_body (o : Oracle) : M Outcome :=
  rotation_requested <- SysLoggerMain_rotation_requested o ;;
  when rotation_requested (logfile_rotate (o_time_rotate o) (o_fopen o)) ;;
  SysLoggerMain_wait o.

(** The main worker loop, [for (;;)], run for as many passes as there
    are oracles, or until [proc_exit]. *)
Fixpoint SysLoggerMain_loop (os : list Oracle) : M Outcome :=
  match os with
  | [] => ret Continue
  | o :: os' =>
      r <- SysLoggerMain_body o ;;
      match r with
      | Continue => SysLoggerMain_loop os'
      | ProcExit code => ret (ProcExit code)
      end
  end.

(** The process as the rest of the system sees it: passes through the
    loop, and deliveries of SIGHUP between them. *)
Inductive Step : Type :=
| Pass (o : Oracle)
| Sighup.

Fixpoint run (steps : list Step) (s : State) : State :=
  match steps with
  | [] => s
  | Sighup :: rest => run rest (sigHupHandler s)
  | Pass o :: rest =>
      let r := SysLoggerMain_body o s in
      match value_of r with
      | Continue => run rest (state_of r)
      | ProcExit _ => state_of r
      end
  end.

(** No pass of the history finds [got_SIGHUP] set, that is, none of
    them calls [ProcessConfigFile]. *)
Fixpoint reload_free (steps : list Step) (s : State) : bool :=
  match steps with
  | [] => true
  | Sighup :: rest => reload_free rest (sigHupHandler s)
  | Pass o :: rest =>
      negb (got_SIGHUP s) &&
      let r := SysLoggerMain_body o s in
      match value_of r with
      | Continue => reload_free rest (state_of r)
      | ProcExit _ => true
      end
  end.

(** The logfile name in the words of the specification (section 4.3):
    directory, prefix, the pid as five decimal digits, an underscore,
    the timestamp and the suffix. *)
Definition spec_logfile_name
    (s : State) (timestamp : Z) (name : string) : Prop :=
  exists pid5 : string,
    String.length pid5 = 5%nat /\
    decimal_value pid5 = Some (PostmasterPid s) /\
    name =
      (if is_absolute_path (Log_directory s)
       then Log_directory s
       else DataDir s ++ "/" ++ Log_directory s) ++
      "/" ++ Log_filename_prefix s ++ pid5 ++ "_" ++
      pg_strftime 128 "%Y-%m-%d_%H%M%S" (pg_localtime timestamp) ++ ".log".

(** The decision policy in the words of the specification (section
    4.3), to be compared with [SysLoggerMain_rotation_requested]:
    [dir_changed] is condition 1, as the reload found it, and [s] holds
    the configuration in force after the reload. *)
Definition spec_rotation_requested
    (dir_changed : bool) (now position : Z) (s : State) : bool :=
  dir_changed
  || ((Log_RotationAge s >? 0)
      && (now - last_rotation_time s >=? Log_RotationAge s * 60))
  || ((Log_RotationSize s >? 0)
      && (position >=? Log_RotationSize s * 1024)).

(** The open logfile carries the name that [logfile_getname] builds
    for [last_rotation_time], under the directory and prefix that were
    configured when it was opened. *)
Definition named_after_rotation_time (s : State) : Prop :=
  exists g : GucValues,
    path (syslogFile s) =
    logfile_getname (set_guc g s) (last_rotation_time s).

End Syslogger.

(** ** A concrete platform for the examples

    A POSIX system: paths are absolute when they start with a slash,
    [long] has 64 bits, [MAXPGPATH] is 1024, the time zone is UTC and the
    [errno] numbers are those of Linux.  Nothing below is taken from
    syslogger.c; the theorems hold for every [Platform], and this one
    serves to run the code on concrete inputs. *)

Module Posix.

Record tm : Type := mkTm {
  tm_sec : Z;
  tm_min : Z;
  tm_hour : Z;
  tm_mday : Z;
  tm_mon : Z;    (* months since January *)
  tm_year : Z    (* years since 1900 *)
}.

(** Days since 1970-01-01 to a proleptic Gregorian date. *)
Definition civil_from_days (days : Z) : Z * Z * Z :=
  let z := days + 719468 in
  let era := z / 146097 in
  let doe := z - era * 146097 in
  let yoe := (doe - doe / 1460 + doe / 36524 - doe / 146096) / 365 in
  let doy := doe - (365 * yoe + yoe / 4 - yoe / 100) in
  let mp := (5 * doy + 2) / 153 in
  let d := doy - (153 * mp + 2) / 5 + 1 in
  let m := if mp <? 10 then mp + 3 else mp - 9 in
  let y := yoe + era * 400 + (if m <=? 2 then 1 else 0) in
  (y, m, d).

Definition gmtime (t : Z) : tm :=
  let '(y, m, d) := civil_from_days (t / 86400) in
  let r := t mod 86400 in
  mkTm (r mod 60) (r / 60 mod 60) (r / 3600) d (m - 1) (y - 1900).

Definition two_digits (n : Z) : string :=
  let digits := fmt_u n in
  zeros (2 - String.length digits) ++ digits.

Definition conversion (c : ascii) (t : tm) : string :=
  if Ascii.eqb c "Y" then fmt_u (tm_year t + 1900)
  else if Ascii.eqb c "m" then two_digits (tm_mon t + 1)
  else if Ascii.eqb c "d" then two_digits (tm_mday t)
  else if Ascii.eqb c "H" then two_digits (tm_hour t)
  else if Ascii.eqb c "M" then two_digits (tm_min t)
  else if Ascii.eqb c "S" then two_digits (tm_sec t)
  else String c EmptyString.

Fixpoint format (fmt : string) (t : tm) : string :=
  match fmt with
  | EmptyString => EmptyString
  | String c EmptyString => String c EmptyString
  | String c (String d r as rest) =>
      if Ascii.eqb c "%" then conversion d t ++ format r t
      else String c (format rest t)
  end.

Definition strftime (size : nat) (fmt : string) (t : tm) : string :=
  take (size - 1) (format fmt t).

Definition absolute (filename : string) : bool :=
  match filename with
  | String c _ => Ascii.eqb c "/"
  | EmptyString => false
  end.

Definition platform : Platform := {|
  MAXPGPATH := 1024;
  LONG_BITS := 64;
  is_absolute_path := absolute;
  pg_tm := tm;
  pg_localtime := gmtime;
  pg_strftime := strftime;
  EINTR := 4;
  ENFILE := 23;
  EMFILE := 24
|}.

(** The state a collector starts its loop in with the default
    configuration of the file (lines 60-64 and 74-97), as child of a
    postmaster with the given pid and data directory, writing to [f]. *)
Definition default_state (pid : Z) (datadir : string) (f : FILE) : State :=
  {| Log_RotationAge := 24 * 60;
     Log_RotationSize := 10 * 1024;
     Log_directory := "pg_log";
     Log_filename_prefix := "postgresql-";
     DataDir := datadir;
     PostmasterPid := pid;
     last_rotation_time := 0;
     pipe_eof_seen := false;
     syslogFile := f;
     got_SIGHUP := false;
     currentLogDir := "" |}.

(** An oracle under which nothing happens: no reload, the clock at
    [t], an empty file, and [select] timing out. *)
Definition idle (t : Z) : Oracle :=
  {| o_config := mkGuc (24 * 60) (10 * 1024) "pg_log" "postgresql-";
     o_time_check := t;
     o_ftell := 0;
     o_time_rotate := t;
     o_fopen := fopen_NULL 2;
     o_sighup_in_select := false;
     o_select_rc := 0;
     o_select_errno := 0;
     o_select_isset := false;
     o_bytesRead := 0;
     o_read_errno := 0;
     o_logbuffer := [];
     o_fwrite := 0;
     o_fwrite_errno := 0 |}.

Definition with_config (g : GucValues) (o : Oracle) : Oracle :=
  mkOracle g (o_time_check o) (o_ftell o) (o_time_rotate o) (o_fopen o)
    (o_sighup_in_select o) (o_select_rc o) (o_select_errno o)
    (o_select_isset o) (o_bytesRead o) (o_read_errno o) (o_logbuffer o)
    (o_fwrite o) (o_fwrite_errno o).

Definition with_ftell (pos : Z) (o : Oracle) : Oracle :=
  mkOracle (o_config o) (o_time_check o) pos (o_time_rotate o) (o_fopen o)
    (o_sighup_in_select o) (o_select_rc o) (o_select_errno o)
    (o_select_isset o) (o_bytesRead o) (o_read_errno o) (o_logbuffer o)
    (o_fwrite o) (o_fwrite_errno o).

Definition with_fopen (r : fopen_result) (o : Oracle) : Oracle :=
  mkOracle (o_config o) (o_time_check o) (o_ftell o) (o_time_rotate o) r
    (o_sighup_in_select o) (o_select_rc o) (o_select_errno o)
    (o_select_isset o) (o_bytesRead o) (o_read_errno o) (o_logbuffer o)
    (o_fwrite o) (o_fwrite_errno o).

Definition with_select (rc errno : Z) (isset : bool) (o : Oracle) : Oracle :=
  mkOracle (o_config o) (o_time_check o) (o_ftell o) (o_time_rotate o)
    (o_fopen o) (o_sighup_in_select o) rc errno isset
    (o_bytesRead o) (o_read_errno o) (o_logbuffer o)
    (o_fwrite o) (o_fwrite_errno o).

Definition with_read
    (n errno : Z) (buffer : list Byte.byte) (written : Z) (o : Oracle)
    : Oracle :=
  mkOracle (o_config o) (o_time_check o) (o_ftell o) (o_time_rotate o)
    (o_fopen o) (o_sighup_in_select o) (o_select_rc o) (o_select_errno o)
    (o_select_isset o) n errno buffer written (o_fwrite_errno o).

(** A pass in which [select] announces data and the read returns
    [buffer], all of which [fwrite] takes. *)
Definition data (t : Z) (buffer : list Byte.byte) : Oracle :=
  with_read (Z.of_nat (List.length buffer)) 0 buffer
    (Z.of_nat (List.length buffer)) (with_select 1 0 true (idle t)).

(** A pass in which [select] announces data and the read returns 0. *)
Definition eof (t : Z) : Oracle :=
  with_read 0 0 [] 0 (with_select 1 0 true (idle t)).

(** 2004-08-05 12:00:00 UTC *)
Definition t0 : Z := 1091707200.

Definition first_file : FILE :=
  mkFILE 3 "/usr/local/pgsql/data/pg_log/postgresql-04711_2004-08-05_120000.log".

(** The collector of postmaster 4711 when it enters its loop the
    moment the postmaster has opened the first logfile. *)
Definition collector : State :=
  state_of
    (@SysLoggerMain_init platform t0
       (default_state 4711 "/usr/local/pgsql/data" first_file)).

Definition hello : list Byte.byte :=
  list_byte_of_string ("hello" ++ String "010" EmptyString).

End Posix.

(** ** What a run of the loop does to the pipe and to the files

    Readings of an event list and of the answers of the environment,
    used to state what the worker loop does over a whole run. *)

(** The chunks a run hands to [fwrite], in order. *)
Fixpoint written (ev : list Event) : list (list Byte.byte) :=
  match ev with
  | [] => []
  | EvFwrite _ bytes _ _ :: rest => bytes :: written rest
  | _ :: rest => written rest
  end.

(** What the pipe gives in one pass: nothing when [select] fails, times
    out or does not name the pipe, or when the read fails; the end of
    the stream when the read returns 0; else the bytes read. *)
Inductive Delivery : Type :=
| NoData
| Chunk (bytes : list Byte.byte)
| EndOfPipe.

Definition delivery (o : Oracle) : Delivery :=
  if o_select_rc o <? 0 then NoData
  else if (o_select_rc o >? 0) && o_select_isset o then
    if o_bytesRead o <? 0 then NoData
    else if o_bytesRead o >? 0
    then Chunk (firstn (Z.to_nat (o_bytesRead o)) (o_logbuffer o))
    else EndOfPipe
  else NoData.

(** The chunks the pipe gives up to its end. *)
Fixpoint delivered (os : list Oracle) : list (list Byte.byte) :=
  match os with
  | [] => []
  | o :: rest =>
      match delivery o with
      | NoData => delivered rest
      | Chunk bytes => bytes :: delivered rest
      | EndOfPipe => []
      end
  end.

Definition FILE_eqb (f g : FILE) : bool :=
  (stream f =? stream g) && String.eqb (path f) (path g).

(** How the stdio calls of a run may follow one another.  [Steady cur]:
    [cur] is the open logfile.  [Opened cur new]: [fopen] has returned
    [new] and [cur] is still installed.  [Buffered cur new]: [setvbuf]
    has been applied to [new].  [Astray]: a call was made that does not
    fit, such as a write to a file that is not the open one. *)
Inductive Discipline : Type :=
| Steady (cur : FILE)
| Opened (cur new : FILE)
| Buffered (cur new : FILE)
| Astray.

Definition discipline_step (d : Discipline) (e : Event) : Discipline :=
  match d, e with
  | Steady cur, EvFopen filename (fopen_ok n) => Opened cur (mkFILE n filename)
  | Steady cur, EvFwrite f _ _ _ => if FILE_eqb f cur then Steady cur else Astray
  | Steady cur, EvFtell f _ => if FILE_eqb f cur then Steady cur else Astray
  | Steady cur, EvSetvbuf _ => Astray
  | Steady cur, EvFclose _ => Astray
  | Steady cur, _ => Steady cur
  | Opened cur new, EvSetvbuf f =>
      if FILE_eqb f new then Buffered cur new else Astray
  | Buffered cur new, EvFclose f =>
      if FILE_eqb f cur then Steady new else Astray
  | _, _ => Astray
  end.

Definition discipline (d : Discipline) (ev : list Event) : Discipline :=
  fold_left discipline_step ev d.

(** Counting the events of a kind. *)
Definition is_select (e : Event) : bool :=
  match e with EvSelect _ => true | _ => false end.
Definition is_pipe_read (e : Event) : bool :=
  match e with EvPipeRead _ => true | _ => false end.
Definition is_fwrite (e : Event) : bool :=
  match e with EvFwrite _ _ _ _ => true | _ => false end.
Definition is_fopen (e : Event) : bool :=
  match e with EvFopen _ _ => true | _ => false end.
Definition is_rotation_work (e : Event) : bool :=
  match e with
  | EvTime _ | EvFtell _ _ | EvFopen _ _ | EvSetvbuf _ | EvFclose _
  | EvProcessConfigFile _ => true
  | _ => false
  end.

Definition count (p : Event -> bool) (ev : list Event) : nat :=
  List.length (filter p ev).

Definition is_report (e : Event) : bool :=
  match e with EvReport _ => true | _ => false end.

(** ** The collector's own messages

    Modelled from the spec: "Diagnostics emitted by the collector itself
    are written through the File Sink (not the pipe)" (section 6).  In
    the code [write_syslogger_file] "is exported so that elog.c can call
    it when am_syslogger is true" (lines 611-617, and 139-143); elog.c
    itself is not under src/.  So in the collector a call of [ereport]
    leads to calls of [fwrite] on [syslogFile] that the events above do
    not show.  Which buffers elog.c formats, what [fwrite] answers, and
    how many calls there are (none for a message that is filtered out,
    more than one when a short write is reported in turn) is for the
    environment to say: one list of calls for each report. *)
Definition ElogWrites : Type := list (list Byte.byte * Z).

(** The calls of [fwrite] one report leads to, on the open logfile. *)
Definition elog_calls (f : FILE) (ws : ElogWrites) : list Event :=
  map (fun w => EvFwrite f (fst w) (Z.of_nat (List.length (fst w))) (snd w))
    ws.

(** The events of a run of the collector with the writes of its own
    messages put in: after each report, in the order of the reports,
    the calls [elog] gives for it, made on the logfile that is open at
    that moment.  (The code reports nothing between the [fopen] and the
    [fclose] of a rotation, where two files are open.) *)
Fixpoint collector_trace
    (elog : list ElogWrites) (d : Discipline) (ev : list Event) : list Event :=
  match ev with
  | [] => []
  | e :: rest =>
      let d' := discipline_step d e in
      if is_report e then
        (e :: match d' with
              | Steady cur => elog_calls cur (hd [] elog)
              | _ => []
              end ++ collector_trace (tl elog) d' rest)%list
      else e :: collector_trace elog d' rest
  end.

(** The buffers of the collector's own messages in a run whose events,
    without them, are [ev]. *)
Definition own_messages
    (elog : list ElogWrites) (ev : list Event) : list (list Byte.byte) :=
  map fst (List.concat (firstn (count is_report ev) elog)).

(** [c] is made of the elements of [a] and of [b], each in its order. *)
Inductive Interleaved {A : Type} : list A -> list A -> list A -> Prop :=
| interleaved_nil : Interleaved [] [] []
| interleaved_left x a b c :
    Interleaved a b c -> Interleaved (x :: a) b (x :: c)
| interleaved_right x a b c :
    Interleaved a b c -> Interleaved a (x :: b) (x :: c).

(** ** Starting the collector

    [SysLogger_Start], which runs in the postmaster, and the entry of
    [SysLoggerMain] up to the loop, as they are compiled when neither
    [EXEC_BACKEND] nor [WIN32] nor [__BEOS__] is defined; and the
    passing of the open logfile through an argument list
    ([syslogger_forkexec], [syslogger_parseArgs]) of the [EXEC_BACKEND]
    build. *)

(** The variables of a server process that this code reads or writes.
    [syslogFile] is a pointer here: [None] is NULL.  The four reloadable
    parameters are kept as [GucValues]. *)
Record Process : Type := mkProcess {
  Redirect_stderr : bool;
  am_syslogger : bool;
  redirection_done : bool;
  syslogPipe0 : Z;                  (* syslogPipe[0] *)
  syslogPipe1 : Z;                  (* syslogPipe[1] *)
  proc_syslogFile : option FILE;    (* syslogFile *)
  proc_guc : GucValues;
  proc_DataDir : string;
  proc_PostmasterPid : Z;
  IsUnderPostmaster : bool;
  MyProcPid : Z
}.

Definition set_syslogPipe (r w : Z) (p : Process) : Process :=
  mkProcess (Redirect_stderr p) (am_syslogger p) (redirection_done p) r w
    (proc_syslogFile p) (proc_guc p) (proc_DataDir p) (proc_PostmasterPid p)
    (IsUnderPostmaster p) (MyProcPid p).

Definition set_syslogPipe1 (w : Z) (p : Process) : Process :=
  set_syslogPipe (syslogPipe0 p) w p.

Definition set_proc_syslogFile (f : option FILE) (p : Process) : Process :=
  mkProcess (Redirect_stderr p) (am_syslogger p) (redirection_done p)
    (syslogPipe0 p) (syslogPipe1 p) f (proc_guc p) (proc_DataDir p)
    (proc_PostmasterPid p) (IsUnderPostmaster p) (MyProcPid p).

Definition set_redirection_done (b : bool) (p : Process) : Process :=
  mkProcess (Redirect_stderr p) (am_syslogger p) b
    (syslogPipe0 p) (syslogPipe1 p) (proc_syslogFile p) (proc_guc p)
    (proc_DataDir p) (proc_PostmasterPid p) (IsUnderPostmaster p) (MyProcPid p).

Definition set_am_syslogger (b : bool) (p : Process) : Process :=
  mkProcess (Redirect_stderr p) b (redirection_done p)
    (syslogPipe0 p) (syslogPipe1 p) (proc_syslogFile p) (proc_guc p)
    (proc_DataDir p) (proc_PostmasterPid p) (IsUnderPostmaster p) (MyProcPid p).

Definition set_process_identity (pid : Z) (p : Process) : Process :=
  mkProcess (Redirect_stderr p) (am_syslogger p) (redirection_done p)
    (syslogPipe0 p) (syslogPipe1 p) (proc_syslogFile p) (proc_guc p)
    (proc_DataDir p) (proc_PostmasterPid p) true pid.

(** The variables the worker loop finds when it is entered in a process
    whose [syslogFile] points to [f]: the statics [last_rotation_time],
    [pipe_eof_seen] and [got_SIGHUP] still have their initial values
    (lines 74-97; nothing outside the collector writes them), and
    [currentLogDir] is not yet filled. *)
Definition loop_state (p : Process) (f : FILE) : State :=
  mkState (guc_log_rotation_age (proc_guc p)) (guc_log_rotation_size (proc_guc p))
    (guc_log_directory (proc_guc p)) (guc_log_filename_prefix (proc_guc p))
    (proc_DataDir p) (proc_PostmasterPid p) 0 false f false EmptyString.

Inductive Level : Type := LOG | FATAL.

Inductive StartDiag : Type :=
| could_not_create_pipe (errno : Z)
| could_not_create_logfile (filename : string) (errno : Z)
| could_not_fork (errno : Z)
| could_not_redirect_stdout (errno : Z)
| could_not_redirect_stderr (errno : Z).

Definition start_errmsg (d : StartDiag) : string :=
  match d with
  | could_not_create_pipe _ => "could not create pipe for syslogging: %m"
  | could_not_create_logfile _ _ =>
      "could not create logfile " ++ String "034" "%s" ++ String "034" ": %m"
  | could_not_fork _ => "could not fork system logger: %m"
  | could_not_redirect_stdout _ => "could not redirect stdout: %m"
  | could_not_redirect_stderr _ => "could not redirect stderr: %m"
  end.

Inductive Signal : Type :=
| SIGHUP | SIGINT | SIGTERM | SIGQUIT | SIGALRM | SIGPIPE | SIGUSR1 | SIGUSR2
| SIGCHLD | SIGTTIN | SIGTTOU | SIGCONT | SIGWINCH.

Inductive Disposition : Type :=
| SIG_IGN
| SIG_DFL
| handled_by_sigHupHandler.

(** What the start-up code does outside its own variables. *)
Inductive SysEvent : Type :=
| SePgpipe (rc : Z) (fds : Z * Z)
| SeMkdir (pathname : string) (mode : Z)
| SeLoop (e : Event)                (* a call the loop makes too *)
| SeFflush (fd : Z)
| SeFork (r : Z)
| SeClosePostmasterPorts
| SePGSharedMemoryDetach
| SeDup2 (oldfd newfd : Z)
| SeClose (fd : Z)
| SeOpenNullDev (fd : Z)
| SeOnExitReset
| SeInitPsDisplay
| SeSetPsDisplay
| SePqsignal (sig : Signal) (d : Disposition)
| SeSetmask
| SeFdopen (fd : Z)
| SeStartReport (level : Level) (d : StartDiag).

(** [fileno(stdout)] and [fileno(stderr)] *)
Definition STDOUT_FILENO : Z := 1.
Definition STDERR_FILENO : Z := 2.

(** Streams are told apart by their descriptor. *)
Definition fileno (f : FILE) : Z := stream f.

(** What the environment answers to [SysLogger_Start]. *)
Record StartOracle : Type := mkStartOracle {
  so_pgpipe_rc : Z;            (* pgpipe(): return value, *)
  so_pgpipe_fds : Z * Z;       (*   the two descriptors, *)
  so_pgpipe_errno : Z;         (*   errno *)
  so_time : Z;                 (* time(NULL) *)
  so_fopen : fopen_result;     (* fopen(filename, "a") *)
  so_fork : Z;                 (* fork(): return value, *)
  so_fork_errno : Z;           (*   errno *)
  so_dup2_stdout : Z;          (* dup2(syslogPipe[1], fileno(stdout)) *)
  so_dup2_stderr : Z;          (* dup2(syslogPipe[1], fileno(stderr)) *)
  so_dup2_errno : Z
}.

(** How a call of [SysLogger_Start] ends: it returns a value to the
    postmaster; or [ereport(FATAL)] ends the process; or, in the child of
    the fork, [SysLoggerMain] is entered, which does not return. *)
Inductive Started : Type :=
| Returns (v : Z)
| Aborts
| EntersSysLoggerMain.

(** State, events, and leaving early. *)
Definition PM (A : Type) : Type :=
  Process -> (A + Started) * Process * list SysEvent.

Definition retS {A} (a : A) : PM A := fun p => (inl a, p, []).

Definition bindS {A B} (m : PM A) (k : A -> PM B) : PM B :=
  fun p =>
    match m p with
    | (inl a, p1, e1) =>
        let '(b, p2, e2) := k a p1 in (b, p2, (e1 ++ e2)%list)
    | (inr stop, p1, e1) => (inr stop, p1, e1)
    end.

Definition getsS {A} (f : Process -> A) : PM A := fun p => (inl (f p), p, []).
Definition modifyS (f : Process -> Process) : PM unit :=
  fun p => (inl tt, f p, []).
Definition emitS (e : SysEvent) : PM unit := fun p => (inl tt, p, [e]).
Definition leave {A} (r : Started) : PM A := fun p => (inr r, p, []).
Definition whenS (b : bool) (m : PM unit) : PM unit := if b then m else retS tt.

(** Modelled from the spec: [ereport] at level FATAL does not return to
    its caller, the process ends (section 7 of the specification: pipe
    creation and the initial file open are "fatal; abort supervisor
    startup"); at level LOG it returns.  The macro and its levels are
    declared in elog.h, which is not under src/. *)
Definition ereport_at {A} (level : Level) (d : StartDiag) (next : PM A) : PM A :=
  bindS (emitS (SeStartReport level d))
    (fun _ => match level with FATAL => leave Aborts | LOG => next end).

Definition finish (r : Started + Started) : Started :=
  match r with inl v => v | inr v => v end.

Declare Scope proc_scope.
Delimit Scope proc_scope with proc.
Notation "x <- m ;; k" := (bindS m (fun x => k))
  (at level 61, m at next level, right associativity) : proc_scope.
Notation "m ;; k" := (bindS m (fun _ => k))
  (at level 61, right associativity) : proc_scope.

Section Startup.

Context `{P : Platform}.

Local Open Scope proc_scope.

(** [logfile_getname], with the four variables it reads as arguments:
    in the postmaster the name is built while [syslogFile] is NULL. *)
Definition logfile_getname_for
    (directory prefix datadir : string) (pid : Z) (timestamp : Z) : string :=
  let stamptext :=
    pg_strftime 128 "%Y-%m-%d_%H%M%S" (pg_localtime timestamp) in
  if is_absolute_path directory then
    snprintf MAXPGPATH
      (directory ++ "/" ++ prefix ++
       fmt_05u (to_uint pid) ++ "_" ++ stamptext ++ ".log")
  else
    snprintf MAXPGPATH
      (datadir ++ "/" ++ directory ++ "/" ++ prefix ++
       fmt_05u (to_uint pid) ++ "_" ++ stamptext ++ ".log").

Definition proc_logfile_getname (p : Process) (timestamp : Z) : string :=
  logfile_getname_for (guc_log_directory (proc_guc p))
    (guc_log_filename_prefix (proc_guc p)) (proc_DataDir p)
    (proc_PostmasterPid p) timestamp.

(** The directory [SysLogger_Start] creates (lines 403-411). *)
Definition log_directory_path (p : Process) : string :=
  if is_absolute_path (guc_log_directory (proc_guc p))
  then guc_log_directory (proc_guc p)
  else snprintf MAXPGPATH
         (proc_DataDir p ++ "/" ++ guc_log_directory (proc_guc p)).

(** Postmaster subroutine to start a syslogger subprocess
    (lines 355-519). *)
Definition SysLogger_Start_steps (o : StartOracle) : PM Started :=
  redirect <- getsS Redirect_stderr ;;
  (if redirect : bool then retS tt else leave (Returns 0)) ;;
  pipe0 <- getsS syslogPipe0 ;;
  (if pipe0 <? 0 then
     emitS (SePgpipe (so_pgpipe_rc o) (so_pgpipe_fds o)) ;;
     if so_pgpipe_rc o <? 0
     then ereport_at FATAL (could_not_create_pipe (so_pgpipe_errno o)) (retS tt)
     else modifyS (set_syslogPipe (fst (so_pgpipe_fds o))
                     (snd (so_pgpipe_fds o)))
   else retS tt) ;;
  p <- getsS (fun p => p) ;;
  emitS (SeMkdir (log_directory_path p) 448) ;;
  let now := so_time o in
  emitS (SeLoop (EvTime now)) ;;
  let filename := proc_logfile_getname p now in
  emitS (SeLoop (EvFopen filename (so_fopen o))) ;;
  match so_fopen o with
  | fopen_NULL errno =>
      modifyS (set_proc_syslogFile None) ;;
      ereport_at FATAL (could_not_create_logfile filename errno)
        (retS (Returns 0))
  | fopen_ok n =>
      let f := mkFILE n filename in
      modifyS (set_proc_syslogFile (Some f)) ;;
      emitS (SeLoop (EvSetvbuf f)) ;;
      emitS (SeFflush STDOUT_FILENO) ;;
      emitS (SeFflush STDERR_FILENO) ;;
      let sysloggerPid := so_fork o in
      emitS (SeFork sysloggerPid) ;;
      if sysloggerPid =? -1 then
        ereport_at LOG (could_not_fork (so_fork_errno o)) (retS (Returns 0))
      else if sysloggerPid =? 0 then
        emitS SeClosePostmasterPorts ;;
        emitS SePGSharedMemoryDetach ;;
        leave EntersSysLoggerMain
      else
        done <- getsS redirection_done ;;
        (if done : bool then retS tt else
           pipe1 <- getsS syslogPipe1 ;;
           emitS (SeFflush STDOUT_FILENO) ;;
           emitS (SeDup2 pipe1 STDOUT_FILENO) ;;
           (if so_dup2_stdout o <? 0
            then ereport_at FATAL (could_not_redirect_stdout (so_dup2_errno o))
                   (retS tt)
            else retS tt) ;;
           emitS (SeFflush STDERR_FILENO) ;;
           emitS (SeDup2 pipe1 STDERR_FILENO) ;;
           (if so_dup2_stderr o <? 0
            then ereport_at FATAL (could_not_redirect_stderr (so_dup2_errno o))
                   (retS tt)
            else retS tt) ;;
           emitS (SeClose pipe1) ;;
           modifyS (set_syslogPipe1 (-1)) ;;
           modifyS (set_redirection_done true)) ;;
        emitS (SeLoop (EvFclose f)) ;;
        modifyS (set_proc_syslogFile None) ;;
        retS (Returns (to_int sysloggerPid))
  end.

Definition SysLogger_Start (o : StartOracle) (p : Process)
    : Started * Process * list SysEvent :=
  let '(r, p', ev) := SysLogger_Start_steps o p in (finish r, p', ev).

(** The signal dispositions [SysLoggerMain] installs (lines 185-201). *)
Definition SysLoggerMain_signals : list (Signal * Disposition) :=
  [(SIGHUP, handled_by_sigHupHandler);
   (SIGINT, SIG_IGN); (SIGTERM, SIG_IGN); (SIGQUIT, SIG_IGN);
   (SIGALRM, SIG_IGN); (SIGPIPE, SIG_IGN); (SIGUSR1, SIG_IGN);
   (SIGUSR2, SIG_IGN);
   (SIGCHLD, SIG_DFL); (SIGTTIN, SIG_DFL); (SIGTTOU, SIG_DFL);
   (SIGCONT, SIG_DFL); (SIGWINCH, SIG_DFL)].

(** [SysLoggerMain] from its entry to the loop (lines 120-203).
    [mypid] is what [getpid] answers and [nullfd] what
    [open(NULL_DEV, O_WRONLY)] answers. *)
Definition SysLoggerMain_entry (mypid nullfd : Z) (p : Process)
    : Process * list SysEvent :=
  let p1 := set_am_syslogger true (set_process_identity mypid p) in
  let redirect :=
    if redirection_done p1 then
      [SeOpenNullDev nullfd;
       SeClose STDOUT_FILENO; SeClose STDERR_FILENO;
       SeDup2 nullfd STDOUT_FILENO; SeDup2 nullfd STDERR_FILENO;
       SeClose nullfd]
    else [] in
  let close_write_end :=
    if syslogPipe1 p1 >=? 0 then [SeClose (syslogPipe1 p1)] else [] in
  (set_syslogPipe1 (-1) p1,
   ([SeOnExitReset; SeInitPsDisplay; SeSetPsDisplay] ++ redirect ++ close_write_end ++
    map (fun sd => SePqsignal (fst sd) (snd sd)) SysLoggerMain_signals ++
    [SeSetmask])%list).

(** [SysLoggerMain] as a whole: the entry, lines 216-219, and the loop.
    [None] when [syslogFile] is NULL, which the loop does not expect. *)
Definition SysLoggerMain (mypid nullfd t : Z) (os : list Oracle) (p : Process)
    : option (Outcome * State * list SysEvent) :=
  let '(p1, ev1) := SysLoggerMain_entry mypid nullfd p in
  match proc_syslogFile p1 with
  | None => None
  | Some f =>
      let '(r, s, ev2) :=
        bind (SysLoggerMain_init t) (fun _ => SysLoggerMain_loop os)
          (loop_state p1 f) in
      Some (r, s, (ev1 ++ map SeLoop ev2)%list)
  end.

End Startup.

(** The pipe exists, the output of the postmaster goes into it, and the
    postmaster holds the write end under no other descriptor. *)
Definition settled (p : Process) : Prop :=
  redirection_done p = true /\ 0 <= syslogPipe0 p /\ syslogPipe1 p = -1.

(** The descriptors under which a process holds the write end of the
    pipe: [syslogPipe[1]] while it is not -1, and standard output and
    standard error once [SysLogger_Start] has duplicated the write end
    onto them, which is what [redirection_done] records. *)
Definition write_end_holders (p : Process) : list Z :=
  ((if redirection_done p then [STDOUT_FILENO; STDERR_FILENO] else []) ++
   (if syslogPipe1 p >=? 0 then [syslogPipe1 p] else []))%list.

Definition is_descriptor_work (e : SysEvent) : bool :=
  match e with
  | SePgpipe _ _ | SeDup2 _ _ | SeClose _ => true
  | _ => false
  end.

Definition is_redirect_work (e : SysEvent) : bool :=
  match e with
  | SeDup2 _ _ | SeClose _ => true
  | _ => false
  end.

Definition is_fork (e : SysEvent) : bool :=
  match e with SeFork _ => true | _ => false end.

Definition is_fclose (e : SysEvent) : bool :=
  match e with SeLoop (EvFclose _) => true | _ => false end.

(** ** Passing the logfile through an argument list (EXEC_BACKEND) *)

(** The conversion [%d]. *)
Definition fmt_d (n : Z) : string :=
  if n <? 0 then String "-" (fmt_u (- n)) else fmt_u n.

Definition char_code (c : ascii) : Z := Z.of_N (N_of_ascii c).

Definition is_digit (c : ascii) : bool :=
  (48 <=? char_code c) && (char_code c <=? 57).

(** [isspace] in the C locale: space, and the controls 9 to 13. *)
Definition is_space (c : ascii) : bool :=
  (char_code c =? 32) || ((9 <=? char_code c) && (char_code c <=? 13)).

Fixpoint skip_spaces (s : string) : string :=
  match s with
  | String c r => if is_space c then skip_spaces r else s
  | EmptyString => s
  end.

Fixpoint digits_value (s : string) (acc : Z) : Z :=
  match s with
  | String c r =>
      if is_digit c then digits_value r (10 * acc + (char_code c - 48))
      else acc
  | EmptyString => acc
  end.

(** [atoi]: white space, an optional sign, then digits up to the first
    character that is none.  C leaves the result open when the number
    does not fit in an [int]; here it wraps. *)
Definition atoi (s : string) : Z :=
  match skip_spaces s with
  | String c r =>
      if Ascii.eqb c "-" then to_int (- digits_value r 0)
      else if Ascii.eqb c "+" then to_int (digits_value r 0)
      else to_int (digits_value (String c r) 0)
  | EmptyString => 0
  end.

(** [(bool) x]: [bool] is a [char] (c.h), the cast keeps the low eight
    bits. *)
Definition to_bool (z : Z) : bool := negb (wrap 8 z =? 0).

(** [(int) b] *)
Definition of_bool (b : bool) : Z := if b then 1 else 0.

(** [syslogger_forkexec] (lines 529-565): the array [av] it hands to
    [postmaster_forkexec], of [ac] = 5 entries; [None] is the NULL in
    the slot that [postmaster_forkexec] fills in. *)
Definition syslogger_forkexec_av (p : Process) : list (option string) :=
  let numbuf0 :=
    match proc_syslogFile p with
    | Some f => snprintf 32 (fmt_d (fileno f))
    | None => "-1"
    end in
  let numbuf1 := snprintf 32 (fmt_d (of_bool (redirection_done p))) in
  [Some "postgres"; Some "-forklog"; None; Some numbuf0; Some numbuf1].

(** The [argv] of the exec'ed process, [slot] being what
    [postmaster_forkexec] has put in the place of the NULL. *)
Definition exec_argv (slot : string) (av : list (option string)) : list string :=
  map (fun a => match a with Some s => s | None => slot end) av.

(** [syslogger_parseArgs] (lines 572-601).  [open_paths] tells which
    descriptors the process holds and on which path each was opened;
    [fdopen] makes a stream of one of them and fails on any other.  The
    result is [None] where the code leaves defined behaviour: the
    assertion on [argc], or [setvbuf] applied to NULL. *)
Definition syslogger_parseArgs
    (open_paths : Z -> option string) (argv : list string) (p : Process)
    : option (Process * list SysEvent) :=
  match argv with
  | [_; _; _; arg3; arg4] =>
      let fd := atoi arg3 in
      let after_fd :=
        if fd =? -1 then Some (p, [])
        else
          match open_paths fd with
          | Some name =>
              Some (set_proc_syslogFile (Some (mkFILE fd name)) p,
                    [SeFdopen fd; SeLoop (EvSetvbuf (mkFILE fd name))])
          | None => None
          end in
      match after_fd with
      | Some (p1, ev) =>
          Some (set_redirection_done (to_bool (atoi arg4)) p1, ev)
      | None => None
      end
  | _ => None
  end.


(** ** A postmaster for the examples *)

Module PosixStart.

(** A postmaster with pid 4711 that has not started a collector yet. *)
Definition postmaster : Process :=
  {| Redirect_stderr := true;
     am_syslogger := false;
     redirection_done := false;
     syslogPipe0 := -1;
     syslogPipe1 := -1;
     proc_syslogFile := None;
     proc_guc := mkGuc (24 * 60) (10 * 1024) "pg_log" "postgresql-";
     proc_DataDir := "/usr/local/pgsql/data";
     proc_PostmasterPid := 4711;
     IsUnderPostmaster := false;
     MyProcPid := 4711 |}.

(** Everything works: the pipe gets descriptors 5 and 6, the logfile
    descriptor 7, and [fork] answers [pid]. *)
Definition forks (pid : Z) : StartOracle :=
  {| so_pgpipe_rc := 0;
     so_pgpipe_fds := (5, 6);
     so_pgpipe_errno := 0;
     so_time := Posix.t0;
     so_fopen := fopen_ok 7;
     so_fork := pid;
     so_fork_errno := 11;
     so_dup2_stdout := 1;
     so_dup2_stderr := 2;
     so_dup2_errno := 0 |}.

(** The postmaster after it has started its first collector. *)
Definition running : Process :=
  snd (fst (@SysLogger_Start Posix.platform (forks 4712) postmaster)).

(** The descriptors an exec'ed collector inherits. *)
Definition inherited (fd : Z) : option string :=
  if fd =? fileno Posix.first_file then Some (path Posix.first_file)
  else None.

(** What elog.c writes for a report: one line, taken whole. *)
Definition one_line (text : string) : ElogWrites :=
  [(list_byte_of_string text, Z.of_nat (String.length text))].

End PosixStart.

(** ** Facts about the C layer *)

Module CFacts.

Lemma wrap_small bits z : 0 < bits -> in_range bits z -> wrap bits z = z.
Proof.
  unfold wrap, in_range. intros Hb Hz.
  assert (E : 2 ^ bits = 2 * 2 ^ (bits - 1)).
  { replace bits with (Z.succ (bits - 1)) at 1 by lia.
    rewrite Z.pow_succ_r by lia. reflexivity. }
  rewrite Z.mod_small by lia. lia.
Qed.

Lemma to_int_small z : int_range z -> to_int z = z.
Proof. apply wrap_small. reflexivity. Qed.

Lemma to_uint_small z : 0 <= z < 2 ^ 32 -> to_uint z = z.
Proof. intros H. unfold to_uint, INT_BITS. now apply Z.mod_small. Qed.

Lemma take_all n s : (String.length s <= n)%nat -> take n s = s.
Proof.
  revert n. induction s as [|c r IH]; intros [|n] H; simpl in *;
    try reflexivity; try lia.
  f_equal. apply IH. lia.
Qed.

Lemma take_length n s : (String.length (take n s) <= n)%nat.
Proof.
  revert s. induction n as [|n IH]; intros [|c r]; simpl; try lia.
  specialize (IH r). lia.
Qed.

Lemma strncmp_take s1 s2 n :
  strncmp s1 s2 n = 0 <-> take n s1 = take n s2.
Proof.
  revert s1 s2. induction n as [|n IH]; intros s1 s2; simpl.
  - destruct s1, s2; tauto.
  - destruct s1 as [|c1 r1], s2 as [|c2 r2]; simpl.
    + tauto.
    + split; [intros H; lia | discriminate].
    + split; [intros H; lia | discriminate].
    + destruct (Ascii.eqb_spec c1 c2) as [->|Hne].
      * rewrite IH. split; [intros ->; reflexivity | now intros [= ->]].
      * split.
        -- destruct (_ <? _)%N; intros H; lia.
        -- intros [= E _]. contradiction.
Qed.

Lemma strncmp_fit s1 s2 n :
  (String.length s1 <= n)%nat -> (String.length s2 <= n)%nat ->
  (strncmp s1 s2 n = 0 <-> s1 = s2).
Proof.
  intros H1 H2. rewrite strncmp_take, !take_all by assumption. tauto.
Qed.

Lemma zeros_length n : String.length (zeros n) = n.
Proof. induction n; simpl; congruence. Qed.

Lemma append_length s t :
  String.length (s ++ t) = (String.length s + String.length t)%nat.
Proof. induction s; simpl; congruence. Qed.

Lemma fmt_05u_length n :
  String.length (fmt_05u n) = Nat.max 5 (String.length (fmt_u n)).
Proof.
  unfold fmt_05u. rewrite append_length, zeros_length. lia.
Qed.

End CFacts.

(** ** Running the monad in proofs *)

Ltac run_in H :=
  cbv [bind ret get gets modify emit when ereport
       value_of state_of events_of] in H; cbn [fst snd app] in H.

Ltac run :=
  cbv [bind ret get gets modify emit when ereport
       value_of state_of events_of]; cbn [fst snd app].

(** Refute membership of an event in an explicit list. *)
Ltac not_in :=
  let H := fresh "Hin" in
  intros H; cbn in H;
  repeat (destruct H as [H|H];
          [ first [discriminate H | inversion H; lia ] |]);
  exact H.

(** ** write_syslogger_file *)

Section WriteFacts.

Context `{P : Platform}.

(** The function body, symbolically executed. *)
Lemma write_syslogger_file_eq buffer count written errno s :
  write_syslogger_file buffer count written errno s =
  (tt, s,
   EvFwrite (syslogFile s) (firstn (Z.to_nat count) buffer) count written
   :: (if to_int written =? count then []
       else [EvReport (could_not_write_to_logfile errno)])).
Proof.
  unfold write_syslogger_file. run.
  destruct (to_int written =? count); reflexivity.
Qed.

Lemma write_syslogger_file_state buffer count written errno s :
  state_of (write_syslogger_file buffer count written errno s) = s.
Proof. rewrite write_syslogger_file_eq. reflexivity. Qed.

(** C8: a short write is reported exactly once; the call issues one
    [fwrite] and nothing else (no second attempt, no [proc_exit]) and
    keeps nothing back in the state; a complete write is not reported. *)
Theorem write_syslogger_file_short_write buffer count written errno s :
  int_range count ->
  0 <= written <= count ->
  let r := write_syslogger_file buffer count written errno s in
  let fw := EvFwrite (syslogFile s) (firstn (Z.to_nat count) buffer)
              count written in
  state_of r = s /\
  (written < count ->
     events_of r = [fw; EvReport (could_not_write_to_logfile errno)]) /\
  (written = count -> events_of r = [fw]).
Proof.
  intros Hc Hw r fw. subst r fw.
  rewrite write_syslogger_file_eq. run.
  assert (E : to_int written = written).
  { apply CFacts.to_int_small. unfold int_range, in_range in *.
    unfold INT_BITS in *. simpl in *. lia. }
  rewrite E. repeat split.
  - intros Hlt. destruct (Z.eqb_spec written count); [lia | reflexivity].
  - intros ->. rewrite Z.eqb_refl. reflexivity.
Qed.

End WriteFacts.

(** ** logfile_rotate *)

Section RotateFacts.

Context `{P : Platform}.

Lemma logfile_rotate_ok now n s :
  logfile_rotate now (fopen_ok n) s =
  (tt,
   set_last_rotation_time now
     (set_syslogFile (mkFILE n (logfile_getname s now)) s),
   [EvTime now;
    EvFopen (logfile_getname s now) (fopen_ok n);
    EvSetvbuf (mkFILE n (logfile_getname s now));
    EvFclose (syslogFile s)]).
Proof. reflexivity. Qed.

Lemma logfile_rotate_disable now e s :
  e <> ENFILE -> e <> EMFILE ->
  logfile_rotate now (fopen_NULL e) s =
  (tt,
   set_Log_RotationSize 0 (set_Log_RotationAge 0 s),
   [EvTime now;
    EvFopen (logfile_getname s now) (fopen_NULL e);
    EvReport (could_not_open_new_logfile (logfile_getname s now) e);
    EvReport disabling_auto_rotation]).
Proof.
  intros H1 H2. unfold logfile_rotate. run.
  destruct (Z.eqb_spec e ENFILE); [contradiction|].
  destruct (Z.eqb_spec e EMFILE); [contradiction|].
  reflexivity.
Qed.

Lemma logfile_rotate_keep now e s :
  e = ENFILE \/ e = EMFILE ->
  logfile_rotate now (fopen_NULL e) s =
  (tt, s,
   [EvTime now;
    EvFopen (logfile_getname s now) (fopen_NULL e);
    EvReport (could_not_open_new_logfile (logfile_getname s now) e)]).
Proof.
  intros H. unfold logfile_rotate. run.
  destruct (Z.eqb_spec e ENFILE); [reflexivity|].
  destruct (Z.eqb_spec e EMFILE); [reflexivity|].
  tauto.
Qed.

(** The name of the new file depends on the directory, the prefix, the
    data directory and the pid only. *)
Lemma logfile_getname_ext s s' t :
  Log_directory s = Log_directory s' ->
  Log_filename_prefix s = Log_filename_prefix s' ->
  DataDir s = DataDir s' ->
  PostmasterPid s = PostmasterPid s' ->
  logfile_getname s t = logfile_getname s' t.
Proof.
  intros H1 H2 H3 H4. unfold logfile_getname.
  rewrite H1, H2, H3, H4. reflexivity.
Qed.

(** A failed rotation changes neither the file nor the time. *)
Lemma logfile_rotate_fail_frame now e s :
  let s' := state_of (logfile_rotate now (fopen_NULL e) s) in
  syslogFile s' = syslogFile s /\
  last_rotation_time s' = last_rotation_time s /\
  Log_directory s' = Log_directory s /\
  Log_filename_prefix s' = Log_filename_prefix s /\
  DataDir s' = DataDir s /\
  PostmasterPid s' = PostmasterPid s /\
  got_SIGHUP s' = got_SIGHUP s /\
  pipe_eof_seen s' = pipe_eof_seen s /\
  currentLogDir s' = currentLogDir s.
Proof.
  unfold logfile_rotate. run.
  destruct (negb (e =? ENFILE) && negb (e =? EMFILE)); simpl; tauto.
Qed.

End RotateFacts.

(** ** The pieces of the loop body *)

Section LoopFacts.

Context `{P : Platform}.

Lemma reload_idle o s :
  got_SIGHUP s = false -> SysLoggerMain_reload o s = (false, s, []).
Proof. intros H. unfold SysLoggerMain_reload. run. rewrite H. reflexivity. Qed.

Lemma reload_serviced o s :
  got_SIGHUP s = true ->
  let s1 := set_guc (o_config o) (set_got_SIGHUP false s) in
  SysLoggerMain_reload o s =
  if strncmp (Log_directory s1) (currentLogDir s1) MAXPGPATH =? 0
  then (false, s1, [EvProcessConfigFile (o_config o)])
  else (true,
        set_currentLogDir (strncpy (Log_directory s1) MAXPGPATH) s1,
        [EvProcessConfigFile (o_config o)]).
Proof.
  intros H s1. unfold SysLoggerMain_reload. run. rewrite H. fold s1.
  destruct (strncmp _ _ _ =? 0); reflexivity.
Qed.

Lemma reload_frame o s :
  let s' := state_of (SysLoggerMain_reload o s) in
  syslogFile s' = syslogFile s /\
  last_rotation_time s' = last_rotation_time s /\
  pipe_eof_seen s' = pipe_eof_seen s /\
  DataDir s' = DataDir s /\
  PostmasterPid s' = PostmasterPid s /\
  got_SIGHUP s' = false.
Proof.
  destruct (got_SIGHUP s) eqn:H.
  - rewrite reload_serviced by assumption.
    destruct (strncmp _ _ _ =? 0); simpl; tauto.
  - rewrite reload_idle by assumption. simpl. tauto.
Qed.

Lemma age_check_state o rq s :
  state_of (SysLoggerMain_age_check o rq s) = s.
Proof.
  unfold SysLoggerMain_age_check. run.
  destruct (negb rq && _ && _); [|reflexivity].
  destruct (_ >=? _); reflexivity.
Qed.

Lemma size_check_state o rq s :
  state_of (SysLoggerMain_size_check o rq s) = s.
Proof.
  unfold SysLoggerMain_size_check. run.
  destruct (negb rq && _); [|reflexivity].
  destruct (_ >=? _); reflexivity.
Qed.

(** [bind], seen through the three projections. *)
Lemma bind_value {A B} (m : M A) (k : A -> M B) s :
  value_of (bind m k s) = value_of (k (value_of (m s)) (state_of (m s))).
Proof.
  unfold bind, value_of, state_of.
  destruct (m s) as [[a s1] e1]. simpl.
  destruct (k a s1) as [[b s2] e2]. reflexivity.
Qed.

Lemma bind_state {A B} (m : M A) (k : A -> M B) s :
  state_of (bind m k s) = state_of (k (value_of (m s)) (state_of (m s))).
Proof.
  unfold bind, value_of, state_of.
  destruct (m s) as [[a s1] e1]. simpl.
  destruct (k a s1) as [[b s2] e2]. reflexivity.
Qed.

Lemma bind_events {A B} (m : M A) (k : A -> M B) s :
  events_of (bind m k s) =
  (events_of (m s) ++ events_of (k (value_of (m s)) (state_of (m s))))%list.
Proof.
  unfold bind, value_of, state_of, events_of.
  destruct (m s) as [[a s1] e1]. simpl.
  destruct (k a s1) as [[b s2] e2]. reflexivity.
Qed.

Lemma rotation_requested_state o s :
  state_of (SysLoggerMain_rotation_requested o s) =
  state_of (SysLoggerMain_reload o s).
Proof.
  unfold SysLoggerMain_rotation_requested.
  rewrite !bind_state, size_check_state, age_check_state. reflexivity.
Qed.

Lemma eof_check_eq s :
  SysLoggerMain_eof_check s =
  if pipe_eof_seen s
  then (ProcExit 0, s, [EvReport logger_shutting_down; EvProcExit 0])
  else (Continue, s, []).
Proof.
  unfold SysLoggerMain_eof_check. run.
  destruct (pipe_eof_seen s); reflexivity.
Qed.

End LoopFacts.

(** ** Waiting and reading (lines 280-348) *)

Section WaitFacts.

Context `{P : Platform}.

(** The state in which [select] returns. *)
Lemma wait_eq o s :
  let s' := if o_sighup_in_select o then sigHupHandler s else s in
  let rc := o_select_rc o in
  let n := o_bytesRead o in
  let leave (ev : list Event) :=
    if pipe_eof_seen s'
    then (ProcExit 0, s',
          (ev ++ [EvReport logger_shutting_down; EvProcExit 0])%list)
    else (Continue, s', ev) in
  SysLoggerMain_wait o s =
  if rc <? 0 then
    leave (EvSelect rc ::
           if o_select_errno o =? EINTR then []
           else [EvReport (select_failed (o_select_errno o))])
  else if (rc >? 0) && o_select_isset o then
    if n <? 0 then
      leave (EvSelect rc :: EvPipeRead n ::
             if o_read_errno o =? EINTR then []
             else [EvReport (could_not_read_from_logger_pipe
                               (o_read_errno o))])
    else if n >? 0 then
      (Continue, s',
       EvSelect rc :: EvPipeRead n ::
       events_of (write_syslogger_file (o_logbuffer o) n
                    (o_fwrite o) (o_fwrite_errno o) s'))
    else
      (ProcExit 0, set_pipe_eof_seen true s',
       [EvSelect rc; EvPipeRead n;
        EvReport logger_shutting_down; EvProcExit 0])
  else leave [EvSelect rc].
Proof.
  intros s' rc n leave. subst leave rc n.
  unfold SysLoggerMain_wait, SysLoggerMain_eof_check. run.
  destruct (o_sighup_in_select o); cbn [fst snd app]; subst s';
    (destruct (o_select_rc o <? 0);
     [ destruct (o_select_errno o =? EINTR); cbn [negb fst snd app];
       match goal with |- context [pipe_eof_seen ?x] =>
         destruct (pipe_eof_seen x) end; reflexivity
     | destruct ((o_select_rc o >? 0) && o_select_isset o);
       [ destruct (o_bytesRead o <? 0);
         [ destruct (o_read_errno o =? EINTR); cbn [negb fst snd app];
           match goal with |- context [pipe_eof_seen ?x] =>
             destruct (pipe_eof_seen x) end; reflexivity
         | destruct (o_bytesRead o >? 0);
           [ rewrite write_syslogger_file_eq; cbn [fst snd app];
             rewrite ?app_nil_r; reflexivity
           | reflexivity ] ]
       | match goal with |- context [pipe_eof_seen ?x] =>
           destruct (pipe_eof_seen x) end; reflexivity ] ]).
Qed.

Lemma wait_frame o s :
  let s' := state_of (SysLoggerMain_wait o s) in
  Log_RotationAge s' = Log_RotationAge s /\
  Log_RotationSize s' = Log_RotationSize s /\
  Log_directory s' = Log_directory s /\
  Log_filename_prefix s' = Log_filename_prefix s /\
  DataDir s' = DataDir s /\
  PostmasterPid s' = PostmasterPid s /\
  last_rotation_time s' = last_rotation_time s /\
  syslogFile s' = syslogFile s /\
  currentLogDir s' = currentLogDir s.
Proof.
  rewrite wait_eq. cbv zeta.
  destruct (o_sighup_in_select o); cbn [sigHupHandler set_got_SIGHUP pipe_eof_seen];
    destruct (o_select_rc o <? 0),
      ((o_select_rc o >? 0) && o_select_isset o),
      (o_bytesRead o <? 0), (o_bytesRead o >? 0), (pipe_eof_seen s);
    cbn; tauto.
Qed.

(** With the latch clear on entry, either the pass goes on with the
    latch still clear and without a zero-length read, or it made a
    zero-length read, set the latch, said goodbye and left. *)
Lemma wait_eof o s :
  pipe_eof_seen s = false ->
  let r := SysLoggerMain_wait o s in
  (value_of r = Continue /\ pipe_eof_seen (state_of r) = false /\
   ~ In (EvPipeRead 0) (events_of r))
  \/
  (value_of r = ProcExit 0 /\ pipe_eof_seen (state_of r) = true /\
   events_of r = [EvSelect (o_select_rc o); EvPipeRead 0;
                  EvReport logger_shutting_down; EvProcExit 0]).
Proof.
  intros Hs. cbv zeta. rewrite wait_eq. cbv zeta.
  assert (E : pipe_eof_seen
                (if o_sighup_in_select o then sigHupHandler s else s)
              = false) by (destruct (o_sighup_in_select o); exact Hs).
  rewrite E. rewrite write_syslogger_file_eq.
  destruct (o_select_rc o <? 0).
  { left. cbn. repeat split; try assumption.
    destruct (_ =? EINTR); not_in. }
  destruct ((o_select_rc o >? 0) && o_select_isset o).
  2:{ left. cbn. repeat split; try assumption. not_in. }
  destruct (Z.ltb_spec (o_bytesRead o) 0) as [Hn|Hn].
  { left. cbn. repeat split; try assumption.
    destruct (_ =? EINTR); not_in. }
  destruct (Z.gtb_spec (o_bytesRead o) 0) as [Hp|Hp].
  { left. cbn. repeat split; try assumption.
    destruct (_ =? o_bytesRead o); not_in. }
  right. assert (o_bytesRead o = 0) as -> by lia.
  cbn. repeat split.
Qed.

End WaitFacts.

(** ** One pass through the loop body *)

Section BodyFacts.

Context `{P : Platform}.

(** The pass, cut into its three stages: decide, rotate, wait. *)
Lemma body_eq o s :
  let r1 := SysLoggerMain_rotation_requested o s in
  let r2 := logfile_rotate (o_time_rotate o) (o_fopen o) (state_of r1) in
  let s2 := if value_of r1 then state_of r2 else state_of r1 in
  let r3 := SysLoggerMain_wait o s2 in
  SysLoggerMain_body o s =
  (value_of r3, state_of r3,
   (events_of r1 ++ (if value_of r1 then events_of r2 else []) ++
    events_of r3)%list).
Proof.
  cbv zeta. unfold SysLoggerMain_body, bind, when, ret.
  destruct (SysLoggerMain_rotation_requested o s) as [[rq s1] e1].
  cbn [value_of state_of events_of fst snd].
  destruct rq.
  - destruct (logfile_rotate _ _ s1) as [[[] s2] e2].
    cbn [value_of state_of events_of fst snd].
    destruct (SysLoggerMain_wait o s2) as [[v s3] e3].
    reflexivity.
  - destruct (SysLoggerMain_wait o s1) as [[v s3] e3]. reflexivity.
Qed.

Lemma body_state o s :
  let r1 := SysLoggerMain_rotation_requested o s in
  let r2 := logfile_rotate (o_time_rotate o) (o_fopen o) (state_of r1) in
  state_of (SysLoggerMain_body o s) =
  state_of (SysLoggerMain_wait o
              (if value_of r1 then state_of r2 else state_of r1)).
Proof. cbv zeta. rewrite body_eq. reflexivity. Qed.

Lemma body_value o s :
  let r1 := SysLoggerMain_rotation_requested o s in
  let r2 := logfile_rotate (o_time_rotate o) (o_fopen o) (state_of r1) in
  value_of (SysLoggerMain_body o s) =
  value_of (SysLoggerMain_wait o
              (if value_of r1 then state_of r2 else state_of r1)).
Proof. cbv zeta. rewrite body_eq. reflexivity. Qed.

Lemma body_events o s :
  let r1 := SysLoggerMain_rotation_requested o s in
  let r2 := logfile_rotate (o_time_rotate o) (o_fopen o) (state_of r1) in
  events_of (SysLoggerMain_body o s) =
  (events_of r1 ++ (if value_of r1 then events_of r2 else []) ++
   events_of (SysLoggerMain_wait o
                (if value_of r1 then state_of r2 else state_of r1)))%list.
Proof. cbv zeta. rewrite body_eq. reflexivity. Qed.

Lemma age_check_off o s :
  Log_RotationAge s = 0 -> SysLoggerMain_age_check o false s = (false, s, []).
Proof.
  intros Ha. unfold SysLoggerMain_age_check. run. rewrite Ha.
  change (0 >? 0) with false. rewrite andb_false_r. reflexivity.
Qed.

Lemma size_check_off o s :
  Log_RotationSize s = 0 ->
  SysLoggerMain_size_check o false s = (false, s, []).
Proof.
  intros Hs. unfold SysLoggerMain_size_check. run. rewrite Hs.
  reflexivity.
Qed.

(** A pass that starts without a pending SIGHUP and with both limits
    at zero requests no rotation and changes no limit. *)
Lemma rotation_requested_disabled o s :
  got_SIGHUP s = false ->
  Log_RotationAge s = 0 -> Log_RotationSize s = 0 ->
  SysLoggerMain_rotation_requested o s = (false, s, []).
Proof.
  intros Hh Ha Hs. unfold SysLoggerMain_rotation_requested.
  unfold bind. rewrite reload_idle by assumption.
  rewrite age_check_off, size_check_off by assumption. reflexivity.
Qed.

Lemma body_disabled o s :
  got_SIGHUP s = false ->
  Log_RotationAge s = 0 -> Log_RotationSize s = 0 ->
  let s' := state_of (SysLoggerMain_body o s) in
  Log_RotationAge s' = 0 /\ Log_RotationSize s' = 0.
Proof.
  intros Hh Ha Hs. cbv zeta. rewrite body_state. cbv zeta.
  rewrite rotation_requested_disabled by assumption.
  cbn [value_of state_of fst snd].
  pose proof (wait_frame o s) as F. cbv zeta in F.
  destruct F as (-> & -> & _). auto.
Qed.

Lemma run_disabled steps : forall s,
  Log_RotationAge s = 0 -> Log_RotationSize s = 0 ->
  reload_free steps s = true ->
  Log_RotationAge (run steps s) = 0 /\ Log_RotationSize (run steps s) = 0.
Proof.
  induction steps as [|[o|] rest IH]; intros s Ha Hs Hf; simpl in *.
  - auto.
  - apply andb_prop in Hf. destruct Hf as [Hh Hf].
    apply negb_true_iff in Hh.
    destruct (body_disabled o s Hh Ha Hs) as [Ha' Hs'].
    destruct (value_of (SysLoggerMain_body o s)); auto.
  - apply IH; auto.
Qed.

(** C1: a rotation whose open fails for a reason other than ENFILE and
    EMFILE sets both limits to zero, reports the failure and that
    rotation is disabled, and returns with the open file, the rotation
    time and every other variable as they were; the limits then stay
    zero through every later pass and signal, up to the first pass
    that finds [got_SIGHUP] set and rereads the configuration. *)
Theorem logfile_rotate_failure_disables_rotation now e s :
  e <> ENFILE -> e <> EMFILE ->
  let r := logfile_rotate now (fopen_NULL e) s in
  let filename := logfile_getname s now in
  Log_RotationAge (state_of r) = 0 /\
  Log_RotationSize (state_of r) = 0 /\
  syslogFile (state_of r) = syslogFile s /\
  state_of r = set_Log_RotationSize 0 (set_Log_RotationAge 0 s) /\
  events_of r =
    [EvTime now; EvFopen filename (fopen_NULL e);
     EvReport (could_not_open_new_logfile filename e);
     EvReport disabling_auto_rotation] /\
  (forall steps,
     reload_free steps (state_of r) = true ->
     Log_RotationAge (run steps (state_of r)) = 0 /\
     Log_RotationSize (run steps (state_of r)) = 0).
Proof.
  intros H1 H2. cbv zeta.
  rewrite (logfile_rotate_disable now e s H1 H2).
  cbn [state_of events_of fst snd]. repeat split.
  - apply run_disabled; [reflexivity | reflexivity | assumption].
  - apply run_disabled; [reflexivity | reflexivity | assumption].
Qed.

End BodyFacts.

(** ** The open file and the rotation time *)

Section FileFacts.

Context `{P : Platform}.

Lemma named_ext s s' :
  syslogFile s' = syslogFile s ->
  last_rotation_time s' = last_rotation_time s ->
  DataDir s' = DataDir s ->
  PostmasterPid s' = PostmasterPid s ->
  named_after_rotation_time s -> named_after_rotation_time s'.
Proof.
  intros Hf Ht Hd Hp [g Hg]. exists g. rewrite Hf, Ht, Hg.
  apply logfile_getname_ext; simpl; congruence.
Qed.

Lemma logfile_rotate_named now n s :
  named_after_rotation_time (state_of (logfile_rotate now (fopen_ok n) s)).
Proof.
  rewrite logfile_rotate_ok.
  exists (mkGuc (Log_RotationAge s) (Log_RotationSize s)
            (Log_directory s) (Log_filename_prefix s)).
  cbn. apply logfile_getname_ext; reflexivity.
Qed.

Lemma logfile_rotate_keeps_named now r s :
  named_after_rotation_time s ->
  named_after_rotation_time (state_of (logfile_rotate now r s)).
Proof.
  intros H. destruct r as [n|e].
  - apply logfile_rotate_named.
  - pose proof (logfile_rotate_fail_frame now e s) as F. cbv zeta in F.
    apply (named_ext s); tauto.
Qed.

(** What a pass leaves of the file and the time: either both as they
    were, or those of a rotation that was requested and whose open
    succeeded. *)
Lemma body_file o s :
  let r1 := SysLoggerMain_rotation_requested o s in
  let s' := state_of (SysLoggerMain_body o s) in
  (syslogFile s' = syslogFile s /\
   last_rotation_time s' = last_rotation_time s)
  \/
  (value_of r1 = true /\
   exists n, o_fopen o = fopen_ok n /\
     syslogFile s' =
       mkFILE n (logfile_getname (state_of r1) (o_time_rotate o)) /\
     last_rotation_time s' = o_time_rotate o).
Proof.
  cbv zeta. rewrite body_state. cbv zeta.
  match goal with |- context [SysLoggerMain_wait o ?x] =>
    pose proof (wait_frame o x) as W end.
  cbv zeta in W.
  destruct W as (_ & _ & _ & _ & _ & _ & Wt & Wf & _).
  rewrite Wt, Wf. clear Wt Wf.
  pose proof (reload_frame o s) as R. cbv zeta in R.
  rewrite <- rotation_requested_state in R.
  destruct R as (Rf & Rt & _).
  destruct (value_of (SysLoggerMain_rotation_requested o s)).
  - destruct (o_fopen o) as [n|e] eqn:Ho.
    + right. split; [reflexivity|]. exists n. split; [reflexivity|].
      rewrite logfile_rotate_ok. cbn. auto.
    + left.
      pose proof (logfile_rotate_fail_frame (o_time_rotate o) e
                    (state_of (SysLoggerMain_rotation_requested o s))) as F.
      cbv zeta in F. destruct F as (-> & -> & _). auto.
  - left. auto.
Qed.

Lemma body_consts o s :
  let s' := state_of (SysLoggerMain_body o s) in
  DataDir s' = DataDir s /\ PostmasterPid s' = PostmasterPid s.
Proof.
  cbv zeta. rewrite body_state. cbv zeta.
  match goal with |- context [SysLoggerMain_wait o ?x] =>
    pose proof (wait_frame o x) as W end.
  cbv zeta in W.
  destruct W as (_ & _ & _ & _ & Wd & Wp & _).
  rewrite Wd, Wp. clear Wd Wp.
  pose proof (reload_frame o s) as R. cbv zeta in R.
  rewrite <- rotation_requested_state in R.
  destruct R as (_ & _ & _ & Rd & Rp & _).
  destruct (value_of (SysLoggerMain_rotation_requested o s)); [|auto].
  destruct (o_fopen o) as [n|e].
  - rewrite logfile_rotate_ok. cbn. auto.
  - pose proof (logfile_rotate_fail_frame (o_time_rotate o) e
                  (state_of (SysLoggerMain_rotation_requested o s))) as F.
    cbv zeta in F. destruct F as (_ & _ & _ & _ & -> & -> & _). auto.
Qed.

Lemma body_named o s :
  named_after_rotation_time s ->
  named_after_rotation_time (state_of (SysLoggerMain_body o s)).
Proof.
  intros H. destruct (body_consts o s) as [Hd Hp].
  destruct (body_file o s) as [[Hf Ht] | (Hrq & n & Ho & Hf & Ht)].
  - now apply (named_ext s).
  - pose proof (reload_frame o s) as R. cbv zeta in R.
    rewrite <- rotation_requested_state in R.
    destruct R as (_ & _ & _ & Rd & Rp & _).
    exists (mkGuc 0 0
              (Log_directory (state_of (SysLoggerMain_rotation_requested o s)))
              (Log_filename_prefix
                 (state_of (SysLoggerMain_rotation_requested o s)))).
    rewrite Hf, Ht. cbn [path].
    apply logfile_getname_ext; cbn; congruence.
Qed.

Lemma run_named steps : forall s,
  named_after_rotation_time s ->
  named_after_rotation_time (run steps s).
Proof.
  induction steps as [|[o|] rest IH]; intros s H; simpl.
  - assumption.
  - pose proof (body_named o s H) as H'.
    destruct (value_of (SysLoggerMain_body o s)); auto.
  - apply IH. apply (named_ext s); auto.
Qed.

(** C9: a successful rotation records as [last_rotation_time] the very
    [now] that was sampled first and given to [logfile_getname] for
    the name of the file it installs, so the open file is named after
    the recorded time, and stays so through all later passes and
    signals; a failed rotation leaves [last_rotation_time] alone. *)
Theorem logfile_rotate_time_matches_name :
  (forall now n s,
     let r := logfile_rotate now (fopen_ok n) s in
     events_of r =
       [EvTime now; EvFopen (logfile_getname s now) (fopen_ok n);
        EvSetvbuf (mkFILE n (logfile_getname s now));
        EvFclose (syslogFile s)] /\
     last_rotation_time (state_of r) = now /\
     syslogFile (state_of r) = mkFILE n (logfile_getname s now) /\
     path (syslogFile (state_of r)) =
       logfile_getname (state_of r) (last_rotation_time (state_of r)) /\
     forall steps, named_after_rotation_time (run steps (state_of r)))
  /\
  (forall now e s,
     last_rotation_time (state_of (logfile_rotate now (fopen_NULL e) s)) =
     last_rotation_time s).
Proof.
  split.
  - intros now n s r. subst r. split; [|split; [|split; [|split]]].
    + rewrite logfile_rotate_ok. reflexivity.
    + rewrite logfile_rotate_ok. reflexivity.
    + rewrite logfile_rotate_ok. reflexivity.
    + rewrite logfile_rotate_ok. cbn.
      apply logfile_getname_ext; reflexivity.
    + intros steps. apply run_named, logfile_rotate_named.
  - intros now e s.
    pose proof (logfile_rotate_fail_frame now e s) as F. cbv zeta in F.
    tauto.
Qed.

(** C10: [write_syslogger_file] returns the state it was given, so the
    open file, the rotation time and both limits are untouched; the
    signal handler and the stages of the loop body other than the
    rotation keep the open file, and a pass ends with another file
    only if a rotation was requested and its open succeeded. *)
Theorem write_syslogger_file_frame :
  (forall buffer count written errno s,
     let s' := state_of (write_syslogger_file buffer count written errno s) in
     s' = s /\
     syslogFile s' = syslogFile s /\
     last_rotation_time s' = last_rotation_time s /\
     Log_RotationAge s' = Log_RotationAge s /\
     Log_RotationSize s' = Log_RotationSize s)
  /\
  (forall s, syslogFile (sigHupHandler s) = syslogFile s)
  /\
  (forall o s,
     syslogFile (state_of (SysLoggerMain_rotation_requested o s)) =
     syslogFile s)
  /\
  (forall o s,
     syslogFile (state_of (SysLoggerMain_wait o s)) = syslogFile s)
  /\
  (forall o s,
     let s' := state_of (SysLoggerMain_body o s) in
     syslogFile s' = syslogFile s
     \/
     (value_of (SysLoggerMain_rotation_requested o s) = true /\
      exists n, o_fopen o = fopen_ok n /\
        In (EvFclose (syslogFile s)) (events_of (SysLoggerMain_body o s)) /\
        syslogFile s' =
          mkFILE n
            (logfile_getname
               (state_of (SysLoggerMain_rotation_requested o s))
               (o_time_rotate o)))).
Proof.
  split; [|split; [|split; [|split]]].
  - intros. subst s'. rewrite write_syslogger_file_state. auto.
  - reflexivity.
  - intros o s. rewrite rotation_requested_state.
    pose proof (reload_frame o s) as R. cbv zeta in R. tauto.
  - intros o s. pose proof (wait_frame o s) as W. cbv zeta in W. tauto.
  - intros o s s'. subst s'.
    destruct (body_file o s) as [[Hf _] | (Hrq & n & Ho & Hf & _)].
    + left. exact Hf.
    + right. split; [exact Hrq|]. exists n. split; [exact Ho|].
      split; [|exact Hf].
      rewrite body_events. cbv zeta.
      rewrite Hrq, Ho, logfile_rotate_ok. cbn [events_of snd].
      pose proof (reload_frame o s) as R. cbv zeta in R.
      rewrite <- rotation_requested_state in R.
      destruct R as (-> & _).
      apply in_or_app. right. apply in_or_app. left.
      simpl. tauto.
Qed.

End FileFacts.

(** ** End of file on the pipe *)

Section EofFacts.

Context `{P : Platform}.

Lemma reload_events o s :
  events_of (SysLoggerMain_reload o s) =
  if got_SIGHUP s then [EvProcessConfigFile (o_config o)] else [].
Proof.
  destruct (got_SIGHUP s) eqn:H.
  - rewrite reload_serviced by assumption.
    destruct (strncmp _ _ _ =? 0); reflexivity.
  - rewrite reload_idle by assumption. reflexivity.
Qed.

Lemma age_check_events o rq s :
  events_of (SysLoggerMain_age_check o rq s) =
  if negb rq && negb (last_rotation_time s =? 0) && (Log_RotationAge s >? 0)
  then [EvTime (o_time_check o)] else [].
Proof.
  unfold SysLoggerMain_age_check. run.
  destruct (negb rq && _ && _); [|reflexivity].
  destruct (_ >=? _); reflexivity.
Qed.

Lemma size_check_events o rq s :
  events_of (SysLoggerMain_size_check o rq s) =
  if negb rq && (Log_RotationSize s >? 0)
  then [EvFtell (syslogFile s) (o_ftell o)] else [].
Proof.
  unfold SysLoggerMain_size_check. run.
  destruct (negb rq && _); [|reflexivity].
  destruct (_ >=? _); reflexivity.
Qed.

Lemma rotation_requested_events o s :
  let r1 := SysLoggerMain_reload o s in
  let r2 := SysLoggerMain_age_check o (value_of r1) (state_of r1) in
  events_of (SysLoggerMain_rotation_requested o s) =
  (events_of r1 ++ events_of r2 ++
   events_of (SysLoggerMain_size_check o (value_of r2) (state_of r1)))%list.
Proof.
  cbv zeta. unfold SysLoggerMain_rotation_requested.
  rewrite !bind_events, age_check_state. reflexivity.
Qed.

Lemma no_read_before_wait o s n :
  let r1 := SysLoggerMain_rotation_requested o s in
  ~ In (EvPipeRead n)
      (events_of r1 ++
       (if value_of r1
        then events_of (logfile_rotate (o_time_rotate o) (o_fopen o)
                          (state_of r1))
        else []))%list.
Proof.
  cbv zeta. intros H. apply in_app_or in H. destruct H as [H|H].
  - rewrite rotation_requested_events in H. cbv zeta in H.
    rewrite reload_events, age_check_events, size_check_events in H.
    apply in_app_or in H. destruct H as [H|H].
    { destruct (got_SIGHUP s); revert H; not_in. }
    apply in_app_or in H. destruct H as [H|H].
    { destruct (_ && _ && _); revert H; not_in. }
    destruct (_ && _); revert H; not_in.
  - destruct (value_of _); [|exact H].
    destruct (o_fopen o) as [m|e].
    + rewrite logfile_rotate_ok in H. revert H. not_in.
    + unfold logfile_rotate in H. run_in H.
      destruct (negb (e =? ENFILE) && negb (e =? EMFILE));
        revert H; not_in.
Qed.

Lemma before_wait_keeps_latch o s :
  let r1 := SysLoggerMain_rotation_requested o s in
  pipe_eof_seen
    (if value_of r1
     then state_of (logfile_rotate (o_time_rotate o) (o_fopen o)
                      (state_of r1))
     else state_of r1) = pipe_eof_seen s.
Proof.
  cbv zeta.
  pose proof (reload_frame o s) as R. cbv zeta in R.
  rewrite <- rotation_requested_state in R.
  destruct R as (_ & _ & Re & _).
  destruct (value_of _); [|exact Re].
  destruct (o_fopen o) as [m|e].
  - rewrite logfile_rotate_ok. cbn. exact Re.
  - pose proof (logfile_rotate_fail_frame (o_time_rotate o) e
                  (state_of (SysLoggerMain_rotation_requested o s))) as F.
    cbv zeta in F. destruct F as (_ & _ & _ & _ & _ & _ & _ & -> & _).
    exact Re.
Qed.

Lemma body_eof o s :
  pipe_eof_seen s = false ->
  let r := SysLoggerMain_body o s in
  (value_of r = Continue /\ pipe_eof_seen (state_of r) = false /\
   ~ In (EvPipeRead 0) (events_of r))
  \/
  (value_of r = ProcExit 0 /\ pipe_eof_seen (state_of r) = true /\
   exists pre,
     events_of r =
       (pre ++ [EvPipeRead 0; EvReport logger_shutting_down;
                EvProcExit 0])%list /\
     ~ In (EvPipeRead 0) pre).
Proof.
  intros Hs. cbv zeta.
  rewrite body_value, body_state, body_events. cbv zeta.
  pose proof (before_wait_keeps_latch o s) as L. cbv zeta in L.
  rewrite Hs in L.
  pose proof (no_read_before_wait o s 0) as N. cbv zeta in N.
  destruct (wait_eof o _ L) as [(Hv & He & Hn) | (Hv & He & Hev)].
  - left. repeat split; try assumption.
    rewrite app_assoc. intros H. apply in_app_or in H. tauto.
  - right. split; [exact Hv|]. split; [exact He|]. rewrite Hev.
    match goal with |- exists pre, (?a ++ ?b ++ _)%list = _ /\ _ =>
      exists (a ++ b ++ [EvSelect (o_select_rc o)])%list end.
    split.
    + rewrite <- !app_assoc. reflexivity.
    + intros H. rewrite app_assoc in H. apply in_app_or in H.
      destruct H as [H|H]; [apply N; exact H|].
      revert H. not_in.
Qed.

Lemma loop_eof os : forall s,
  pipe_eof_seen s = false ->
  let r := SysLoggerMain_loop os s in
  (value_of r = Continue /\ pipe_eof_seen (state_of r) = false /\
   ~ In (EvPipeRead 0) (events_of r))
  \/
  (value_of r = ProcExit 0 /\ pipe_eof_seen (state_of r) = true /\
   exists pre,
     events_of r =
       (pre ++ [EvPipeRead 0; EvReport logger_shutting_down;
                EvProcExit 0])%list /\
     ~ In (EvPipeRead 0) pre).
Proof.
  induction os as [|o os IH]; intros s Hs; cbv zeta.
  - left. cbn. auto.
  - cbn [SysLoggerMain_loop].
    rewrite bind_value, bind_state, bind_events.
    destruct (body_eof o s Hs) as [(Hv & He & Hn) | (Hv & He & pre & Hev & Hn)].
    + rewrite Hv.
      destruct (IH _ He) as [(Hv' & He' & Hn') | (Hv' & He' & pre' & Hev' & Hn')].
      * left. repeat split; try assumption.
        intros H. apply in_app_or in H. tauto.
      * right. repeat split; try assumption.
        exists (events_of (SysLoggerMain_body o s) ++ pre')%list. split.
        -- rewrite Hev', app_assoc. reflexivity.
        -- intros H. apply in_app_or in H. tauto.
    + rewrite Hv. right. cbn [value_of state_of events_of ret fst snd].
      repeat split; try assumption.
      exists pre. rewrite app_nil_r. auto.
Qed.

(** A pass whose [select] announces data and whose read returns zero
    bytes. *)
Lemma body_zero_read o s :
  o_select_rc o > 0 -> o_select_isset o = true -> o_bytesRead o = 0 ->
  let r := SysLoggerMain_body o s in
  value_of r = ProcExit 0 /\ pipe_eof_seen (state_of r) = true /\
  exists pre,
    events_of r =
      (pre ++ [EvPipeRead 0; EvReport logger_shutting_down;
               EvProcExit 0])%list.
Proof.
  intros Hrc Hset Hn. cbv zeta.
  rewrite body_value, body_state, body_events. cbv zeta.
  rewrite !wait_eq. cbv zeta. rewrite Hset, Hn.
  destruct (Z.ltb_spec (o_select_rc o) 0); [lia|].
  destruct (Z.gtb_spec (o_select_rc o) 0); [|lia].
  cbn [value_of state_of events_of fst snd pipe_eof_seen set_pipe_eof_seen].
  split; [reflexivity|]. split; [reflexivity|].
  match goal with |- exists pre, (?a ++ ?b ++ _)%list = _ =>
    exists (a ++ b ++ [EvSelect (o_select_rc o)])%list end.
  rewrite <- !app_assoc. reflexivity.
Qed.

Lemma loop_stops_at_exit os1 o os2 : forall s,
  (forall s', exists c, value_of (SysLoggerMain_body o s') = ProcExit c) ->
  SysLoggerMain_loop (os1 ++ o :: os2) s =
  SysLoggerMain_loop (os1 ++ [o]) s.
Proof.
  intros s Ho. revert s.
  induction os1 as [|o1 os1 IH]; intros s; simpl.
  - unfold bind. destruct (Ho s) as [c Hc]. unfold value_of in Hc.
    destruct (SysLoggerMain_body o s) as [[v s1] e1]. cbn in Hc. subst v.
    reflexivity.
  - unfold bind. destruct (SysLoggerMain_body o1 s) as [[v s1] e1].
    destruct v; [rewrite IH|]; reflexivity.
Qed.

(** C4: a zero-length read that follows a readable indication sets
    [pipe_eof_seen], and the same pass reports "logger shutting down"
    and calls [proc_exit(0)]; the loop runs no pass after it.  In any
    run that starts with the latch clear, the latch is clear for as
    long as the loop goes on, and what follows the zero-length read is
    the report and the exit with code 0 and nothing else, in
    particular no read. *)
Theorem pipe_eof_shuts_down :
  (forall o s,
     o_select_rc o > 0 -> o_select_isset o = true -> o_bytesRead o = 0 ->
     let r := SysLoggerMain_body o s in
     value_of r = ProcExit 0 /\ pipe_eof_seen (state_of r) = true /\
     exists pre,
       events_of r =
         (pre ++ [EvPipeRead 0; EvReport logger_shutting_down;
                  EvProcExit 0])%list)
  /\
  (forall os1 o os2 s,
     o_select_rc o > 0 -> o_select_isset o = true -> o_bytesRead o = 0 ->
     SysLoggerMain_loop (os1 ++ o :: os2) s =
     SysLoggerMain_loop (os1 ++ [o]) s)
  /\
  (forall os s,
     pipe_eof_seen s = false ->
     let r := SysLoggerMain_loop os s in
     (value_of r = Continue /\ pipe_eof_seen (state_of r) = false /\
      ~ In (EvPipeRead 0) (events_of r))
     \/
     (value_of r = ProcExit 0 /\ pipe_eof_seen (state_of r) = true /\
      exists pre,
        events_of r =
          (pre ++ [EvPipeRead 0; EvReport logger_shutting_down;
                   EvProcExit 0])%list /\
        ~ In (EvPipeRead 0) pre)).
Proof.
  split; [|split].
  - intros o s H1 H2 H3. apply body_zero_read; assumption.
  - intros os1 o os2 s H1 H2 H3. apply loop_stops_at_exit.
    intros s'. exists 0. apply (body_zero_read o s' H1 H2 H3).
  - intros os s Hs. apply loop_eof. exact Hs.
Qed.

End EofFacts.

(** ** Errors of select and of the pipe read *)

Section ErrorFacts.

Context `{P : Platform}.

(** C7: when [select] or the pipe read fails, the pass goes on from
    the point and in the state in which a pass whose [select] timed
    out goes on: nothing is written to the logfile and
    [pipe_eof_seen] is not touched.  With EINTR nothing is reported;
    with any other error one report is made and the rest is the
    same. *)
Theorem wait_error_like_timeout o s :
  let s' := if o_sighup_in_select o then sigHupHandler s else s in
  let after := SysLoggerMain_eof_check s' in
  let rc := o_select_rc o in
  let n := o_bytesRead o in
  let r := SysLoggerMain_wait o s in
  let goes_on_after (ev : list Event) :=
    r = (value_of after, s', (ev ++ events_of after)%list) in
  (rc = 0 -> goes_on_after [EvSelect 0]) /\
  (rc < 0 -> o_select_errno o = EINTR -> goes_on_after [EvSelect rc]) /\
  (rc < 0 -> o_select_errno o <> EINTR ->
     goes_on_after
       [EvSelect rc; EvReport (select_failed (o_select_errno o))]) /\
  (rc > 0 -> o_select_isset o = true -> n < 0 ->
     o_read_errno o = EINTR ->
     goes_on_after [EvSelect rc; EvPipeRead n]) /\
  (rc > 0 -> o_select_isset o = true -> n < 0 ->
     o_read_errno o <> EINTR ->
     goes_on_after
       [EvSelect rc; EvPipeRead n;
        EvReport (could_not_read_from_logger_pipe (o_read_errno o))]) /\
  pipe_eof_seen s' = pipe_eof_seen s /\
  (pipe_eof_seen s = false -> after = (Continue, s', [])).
Proof.
  cbv zeta. rewrite wait_eq, eof_check_eq. cbv zeta.
  assert (E : pipe_eof_seen
                (if o_sighup_in_select o then sigHupHandler s else s)
              = pipe_eof_seen s)
    by (destruct (o_sighup_in_select o); reflexivity).
  rewrite E.
  repeat match goal with |- _ /\ _ => split end.
  - intros ->. cbn. destruct (pipe_eof_seen s); reflexivity.
  - intros Hrc He. destruct (Z.ltb_spec (o_select_rc o) 0); [|lia].
    rewrite He, Z.eqb_refl. destruct (pipe_eof_seen s); reflexivity.
  - intros Hrc He. destruct (Z.ltb_spec (o_select_rc o) 0); [|lia].
    destruct (Z.eqb_spec (o_select_errno o) EINTR); [contradiction|].
    destruct (pipe_eof_seen s); reflexivity.
  - intros Hrc Hset Hn He.
    destruct (Z.ltb_spec (o_select_rc o) 0); [lia|].
    destruct (Z.gtb_spec (o_select_rc o) 0); [|lia].
    rewrite Hset. cbn [andb].
    destruct (Z.ltb_spec (o_bytesRead o) 0); [|lia].
    rewrite He, Z.eqb_refl. destruct (pipe_eof_seen s); reflexivity.
  - intros Hrc Hset Hn He.
    destruct (Z.ltb_spec (o_select_rc o) 0); [lia|].
    destruct (Z.gtb_spec (o_select_rc o) 0); [|lia].
    rewrite Hset. cbn [andb].
    destruct (Z.ltb_spec (o_bytesRead o) 0); [|lia].
    destruct (Z.eqb_spec (o_read_errno o) EINTR); [contradiction|].
    destruct (pipe_eof_seen s); reflexivity.
  - reflexivity.
  - intros ->. reflexivity.
Qed.

End ErrorFacts.

(** ** Reload *)

Section ReloadFacts.

Context `{P : Platform}.

(** C6, as the code has it: the handler sets [got_SIGHUP] and changes
    nothing else.  A pass that finds the flag set clears it, has the
    configuration reread, and asks for a rotation exactly when the
    configured directory and [currentLogDir] differ within their first
    [MAXPGPATH] bytes, the bound of the [strncmp] at line 246; it then
    overwrites [currentLogDir] with the first [MAXPGPATH] bytes of the
    configured directory.  When both fit in [MAXPGPATH] bytes this is:
    exactly when they differ, and [currentLogDir] becomes the configured
    directory.  A pass that finds the flag clear does none of this. *)
Theorem reload_requests_rotation_on_directory_change o s :
  let r := SysLoggerMain_reload o s in
  let new_dir := guc_log_directory (o_config o) in
  sigHupHandler s =
    mkState (Log_RotationAge s) (Log_RotationSize s) (Log_directory s)
      (Log_filename_prefix s) (DataDir s) (PostmasterPid s)
      (last_rotation_time s) (pipe_eof_seen s) (syslogFile s) true
      (currentLogDir s) /\
  (got_SIGHUP s = true ->
     events_of r = [EvProcessConfigFile (o_config o)] /\
     got_SIGHUP (state_of r) = false /\
     Log_directory (state_of r) = new_dir /\
     Log_filename_prefix (state_of r) =
       guc_log_filename_prefix (o_config o) /\
     Log_RotationAge (state_of r) = guc_log_rotation_age (o_config o) /\
     Log_RotationSize (state_of r) = guc_log_rotation_size (o_config o) /\
     (value_of r = true <->
        take MAXPGPATH new_dir <> take MAXPGPATH (currentLogDir s)) /\
     (value_of r = true ->
        currentLogDir (state_of r) = take MAXPGPATH new_dir) /\
     (value_of r = false ->
        currentLogDir (state_of r) = currentLogDir s) /\
     ((String.length new_dir <= MAXPGPATH)%nat ->
      (String.length (currentLogDir s) <= MAXPGPATH)%nat ->
      (value_of r = true <-> new_dir <> currentLogDir s) /\
      (new_dir <> currentLogDir s -> currentLogDir (state_of r) = new_dir) /\
      (new_dir = currentLogDir s ->
         currentLogDir (state_of r) = currentLogDir s))) /\
  (got_SIGHUP s = false -> r = (false, s, [])).
Proof.
  cbv zeta. split; [reflexivity|]. split.
  - intros Hh. rewrite reload_serviced by assumption. cbv zeta.
    cbn [Log_directory currentLogDir set_guc set_got_SIGHUP].
    pose proof (CFacts.strncmp_take (guc_log_directory (o_config o))
                  (currentLogDir s) MAXPGPATH) as T.
    assert (F : (String.length (guc_log_directory (o_config o))
                 <= MAXPGPATH)%nat ->
                (String.length (currentLogDir s) <= MAXPGPATH)%nat ->
                (strncmp (guc_log_directory (o_config o)) (currentLogDir s)
                   MAXPGPATH = 0 <->
                 guc_log_directory (o_config o) = currentLogDir s))
      by (intros Hn Hc; apply CFacts.strncmp_fit; assumption).
    destruct (Z.eqb_spec
                (strncmp (guc_log_directory (o_config o))
                   (currentLogDir s) MAXPGPATH) 0) as [E|E];
      cbn [value_of state_of events_of fst snd negb
           got_SIGHUP Log_directory Log_filename_prefix Log_RotationAge
           Log_RotationSize currentLogDir set_currentLogDir set_guc
           set_got_SIGHUP].
    + do 6 (split; [reflexivity|]).
      split; [split; [discriminate | intros H; contradiction H; apply T, E]|].
      split; [discriminate|]. split; [reflexivity|].
      intros Hn Hc. apply (F Hn Hc) in E.
      split; [split; [discriminate | intros H; contradiction]|].
      split; [intros H; contradiction | reflexivity].
    + do 6 (split; [reflexivity|]).
      split; [split; [intros _ H; apply E, T, H | reflexivity]|].
      split; [reflexivity|]. split; [discriminate|].
      intros Hn Hc.
      split; [split; [intros _ H; apply E, (F Hn Hc), H | reflexivity]|].
      split.
      * intros _. unfold strncpy. apply CFacts.take_all. exact Hn.
      * intros H. apply (F Hn Hc) in H. contradiction.
  - intros Hh. apply reload_idle. exact Hh.
Qed.

End ReloadFacts.

(** ** When a rotation is requested *)

Section DecisionFacts.

Context `{P : Platform}.

Lemma reload_value o s :
  value_of (SysLoggerMain_reload o s) =
  got_SIGHUP s &&
  negb (strncmp (guc_log_directory (o_config o)) (currentLogDir s)
          MAXPGPATH =? 0).
Proof.
  destruct (got_SIGHUP s) eqn:H.
  - rewrite reload_serviced by assumption. cbn.
    destruct (strncmp _ _ _ =? 0); reflexivity.
  - rewrite reload_idle by assumption. reflexivity.
Qed.

Lemma age_check_value o rq s :
  value_of (SysLoggerMain_age_check o rq s) =
  rq || (negb (last_rotation_time s =? 0) && (Log_RotationAge s >? 0)
         && (to_int (o_time_check o - last_rotation_time s)
             >=? to_int (Log_RotationAge s * 60))).
Proof.
  unfold SysLoggerMain_age_check. run.
  destruct rq; [reflexivity|]. cbn [negb andb orb].
  destruct (negb (last_rotation_time s =? 0) && (Log_RotationAge s >? 0));
    [|reflexivity].
  cbn [andb]. destruct (_ >=? _); reflexivity.
Qed.

Lemma size_check_value o rq s :
  value_of (SysLoggerMain_size_check o rq s) =
  rq || ((Log_RotationSize s >? 0)
         && (o_ftell o >=? wrap LONG_BITS (Log_RotationSize s * 1024))).
Proof.
  unfold SysLoggerMain_size_check. run.
  destruct rq; [reflexivity|]. cbn [negb andb orb].
  destruct (Log_RotationSize s >? 0); [|reflexivity].
  cbn [andb]. destruct (_ >=? _); reflexivity.
Qed.

Lemma rotation_requested_value o s :
  let s1 := state_of (SysLoggerMain_reload o s) in
  value_of (SysLoggerMain_rotation_requested o s) =
  value_of (SysLoggerMain_reload o s)
  || (negb (last_rotation_time s1 =? 0) && (Log_RotationAge s1 >? 0)
      && (to_int (o_time_check o - last_rotation_time s1)
          >=? to_int (Log_RotationAge s1 * 60)))
  || ((Log_RotationSize s1 >? 0)
      && (o_ftell o >=? wrap LONG_BITS (Log_RotationSize s1 * 1024))).
Proof.
  cbv zeta. unfold SysLoggerMain_rotation_requested.
  rewrite ?bind_value, ?bind_state, ?age_check_state.
  rewrite size_check_value, age_check_value. reflexivity.
Qed.

(** The events of the decision, with the tests that were made. *)
Lemma rotation_requested_events_eq o s :
  let r0 := SysLoggerMain_reload o s in
  let s1 := state_of r0 in
  let aged :=
    negb (last_rotation_time s1 =? 0) && (Log_RotationAge s1 >? 0) in
  events_of (SysLoggerMain_rotation_requested o s) =
  (events_of r0 ++
   (if negb (value_of r0) && aged then [EvTime (o_time_check o)] else []) ++
   (if negb (value_of r0
             || aged && (to_int (o_time_check o - last_rotation_time s1)
                         >=? to_int (Log_RotationAge s1 * 60)))
       && (Log_RotationSize s1 >? 0)
    then [EvFtell (syslogFile s1) (o_ftell o)] else []))%list.
Proof.
  cbv zeta. rewrite rotation_requested_events. cbv zeta.
  rewrite age_check_events, size_check_events, age_check_value.
  rewrite <- !andb_assoc. reflexivity.
Qed.

End DecisionFacts.

Section PolicyFacts.

Context `{P : Platform}.

(** C2, as the code has it: the age test is made only when
    [last_rotation_time] is not zero.  With that, and as long as the
    elapsed seconds and [Log_RotationAge * 60] fit in an [int] and
    [Log_RotationSize * 1024] fits in a [long], a pass requests a
    rotation exactly when (1) the reload found another directory, or
    (2) the age limit is positive and reached, or (3) the size limit is
    positive and reached; a test is made only if the ones before it
    did not succeed, and the same call of [logfile_rotate] follows
    whichever of them succeeded. *)
Theorem rotation_requested_policy o s :
  let r0 := SysLoggerMain_reload o s in
  let s1 := state_of r0 in
  let r := SysLoggerMain_rotation_requested o s in
  let now := o_time_check o in
  let dir_changed :=
    got_SIGHUP s = true /\
    strncmp (guc_log_directory (o_config o)) (currentLogDir s) MAXPGPATH
      <> 0 in
  let too_old :=
    last_rotation_time s <> 0 /\ Log_RotationAge s1 > 0 /\
    now - last_rotation_time s >= Log_RotationAge s1 * 60 in
  let too_big :=
    Log_RotationSize s1 > 0 /\ o_ftell o >= Log_RotationSize s1 * 1024 in
  0 < LONG_BITS ->
  int_range (now - last_rotation_time s) ->
  int_range (Log_RotationAge s1 * 60) ->
  in_range LONG_BITS (Log_RotationSize s1 * 1024) ->
  (value_of r = true <-> dir_changed \/ too_old \/ too_big) /\
  (dir_changed -> events_of r = events_of r0) /\
  (~ dir_changed -> too_old ->
     events_of r = (events_of r0 ++ [EvTime now])%list) /\
  (~ dir_changed -> ~ too_old -> Log_RotationSize s1 > 0 ->
     exists ev,
       events_of r =
         (events_of r0 ++ ev ++ [EvFtell (syslogFile s) (o_ftell o)])%list /\
       (ev = [] \/ ev = [EvTime now])) /\
  (~ dir_changed -> ~ too_old -> ~ Log_RotationSize s1 > 0 ->
     exists ev,
       events_of r = (events_of r0 ++ ev)%list /\
       (ev = [] \/ ev = [EvTime now])) /\
  events_of (SysLoggerMain_body o s) =
    (events_of r ++
     (if value_of r
      then events_of (logfile_rotate (o_time_rotate o) (o_fopen o) s1)
      else []) ++
     events_of
       (SysLoggerMain_wait o
          (if value_of r
           then state_of (logfile_rotate (o_time_rotate o) (o_fopen o) s1)
           else s1)))%list.
Proof.
  cbv zeta. intros HL Hel Hage Hsize.
  pose proof (reload_frame o s) as R. cbv zeta in R.
  destruct R as (Rf & Rt & _).
  assert (Last :
    events_of (SysLoggerMain_body o s) =
    (events_of (SysLoggerMain_rotation_requested o s) ++
     (if value_of (SysLoggerMain_rotation_requested o s)
      then events_of (logfile_rotate (o_time_rotate o) (o_fopen o)
                        (state_of (SysLoggerMain_reload o s)))
      else []) ++
     events_of
       (SysLoggerMain_wait o
          (if value_of (SysLoggerMain_rotation_requested o s)
           then state_of (logfile_rotate (o_time_rotate o) (o_fopen o)
                            (state_of (SysLoggerMain_reload o s)))
           else state_of (SysLoggerMain_reload o s))))%list).
  { rewrite body_events. cbv zeta. rewrite rotation_requested_state.
    reflexivity. }
  revert Last.
  rewrite rotation_requested_events_eq, rotation_requested_value.
  cbv zeta. rewrite reload_value, Rt, Rf.
  rewrite (CFacts.to_int_small _ Hel), (CFacts.to_int_small _ Hage).
  rewrite (CFacts.wrap_small _ _ HL Hsize).
  set (A := Log_RotationAge (state_of (SysLoggerMain_reload o s))) in *.
  set (Sz := Log_RotationSize (state_of (SysLoggerMain_reload o s))) in *.
  set (L := last_rotation_time s) in *.
  set (c := strncmp (guc_log_directory (o_config o)) (currentLogDir s)
              MAXPGPATH) in *.
  set (e0 := events_of (SysLoggerMain_reload o s)) in *.
  intros Last.
  split; [|split; [|split; [|split; [|split]]]].
  - rewrite !orb_true_iff, !andb_true_iff, !negb_true_iff, !Z.eqb_neq,
      !Z.gtb_lt, !Z.geb_le.
    intuition lia.
  - intros [Hh Hc]. rewrite Hh.
    destruct (Z.eqb_spec c 0); [contradiction|].
    cbn. rewrite app_nil_r. reflexivity.
  - intros Hd (H1 & H2 & H3).
    assert (E : got_SIGHUP s && negb (c =? 0) = false).
    { destruct (got_SIGHUP s); [|reflexivity].
      destruct (Z.eqb_spec c 0); [reflexivity|]. exfalso. apply Hd. auto. }
    rewrite E. destruct (Z.eqb_spec L 0); [contradiction|].
    destruct (Z.gtb_spec A 0); [|lia].
    destruct (Z.geb_spec (o_time_check o - L) (A * 60)); [|lia].
    reflexivity.
  - intros Hd Ho Hs.
    assert (E : got_SIGHUP s && negb (c =? 0) = false).
    { destruct (got_SIGHUP s); [|reflexivity].
      destruct (Z.eqb_spec c 0); [reflexivity|]. exfalso. apply Hd. auto. }
    rewrite E. destruct (Z.gtb_spec Sz 0); [|lia].
    destruct (Z.eqb_spec L 0), (Z.gtb_spec A 0),
      (Z.geb_spec (o_time_check o - L) (A * 60)); cbn;
      try (exfalso; apply Ho; repeat split; solve [assumption | lia]);
      first [ exists []; split; [reflexivity | left; reflexivity]
            | exists [EvTime (o_time_check o)];
              split; [reflexivity | right; reflexivity] ].
  - intros Hd Ho Hs.
    assert (E : got_SIGHUP s && negb (c =? 0) = false).
    { destruct (got_SIGHUP s); [|reflexivity].
      destruct (Z.eqb_spec c 0); [reflexivity|]. exfalso. apply Hd. auto. }
    rewrite E. destruct (Z.gtb_spec Sz 0); [lia|].
    rewrite andb_false_r, app_nil_r.
    destruct (Z.eqb_spec L 0), (Z.gtb_spec A 0); cbn;
      first [ exists []; split; [reflexivity | left; reflexivity]
            | exists [EvTime (o_time_check o)];
              split; [reflexivity | right; reflexivity] ].
  - exact Last.
Qed.

End PolicyFacts.

(** ** logfile_getname *)

Module NameFacts.

Lemma append_assoc (a b c : string) : (a ++ b) ++ c = a ++ b ++ c.
Proof. induction a as [|x a IH]; simpl; [reflexivity | now rewrite IH]. Qed.

Lemma uint_of_zeros k text :
  option_map N.of_uint (NilEmpty.uint_of_string (zeros k ++ text)) =
  option_map N.of_uint (NilEmpty.uint_of_string text).
Proof.
  induction k as [|k IH]; simpl; [reflexivity|].
  rewrite <- IH.
  destruct (NilEmpty.uint_of_string (zeros k ++ text)); reflexivity.
Qed.

Lemma decimal_value_zeros k text :
  decimal_value (zeros k ++ text) = decimal_value text.
Proof.
  unfold decimal_value.
  pose proof (uint_of_zeros k text) as H.
  destruct (NilEmpty.uint_of_string (zeros k ++ text)),
    (NilEmpty.uint_of_string text); simpl in *; congruence.
Qed.

Lemma decimal_value_of_uint d :
  decimal_value (NilZero.string_of_uint d) = Some (Z.of_N (N.of_uint d)).
Proof.
  unfold decimal_value.
  destruct d; unfold NilZero.string_of_uint;
    rewrite ?NilEmpty.usu; reflexivity.
Qed.

Lemma decimal_value_fmt_u n : 0 <= n -> decimal_value (fmt_u n) = Some n.
Proof.
  intros Hn. unfold fmt_u.
  rewrite decimal_value_of_uint, DecimalN.Unsigned.of_to, Z2N.id by lia.
  reflexivity.
Qed.

Lemma decimal_value_fmt_05u n :
  0 <= n -> decimal_value (fmt_05u n) = Some n.
Proof.
  intros Hn. unfold fmt_05u. cbv zeta.
  rewrite decimal_value_zeros. now apply decimal_value_fmt_u.
Qed.

Lemma width_at_most_spec width count : forall from n,
  width_at_most width count from = true ->
  from <= n < from + Z.of_nat count ->
  (String.length (fmt_u n) <= width)%nat.
Proof.
  induction count as [|count IH]; intros from n H Hn; [lia|].
  cbn [width_at_most] in H. apply andb_prop in H. destruct H as [H0 H].
  destruct (Z.eq_dec n from) as [->|Hne].
  - now apply Nat.leb_le.
  - apply (IH (from + 1)); [exact H | lia].
Qed.

(** Numbers below 100000 have at most five digits: checked on all of
    them. *)
Lemma fmt_u_five_digits n :
  0 <= n < 100000 -> (String.length (fmt_u n) <= 5)%nat.
Proof.
  intros Hn.
  apply (width_at_most_spec 5 (Z.to_nat 100000) 0).
  - vm_compute. reflexivity.
  - rewrite Z2Nat.id; lia.
Qed.

Lemma fmt_05u_five n :
  0 <= n < 100000 -> String.length (fmt_05u n) = 5%nat.
Proof.
  intros Hn. rewrite CFacts.fmt_05u_length.
  pose proof (fmt_u_five_digits n Hn). lia.
Qed.

Lemma of_lu_bound d :
  (DecimalPos.Unsigned.of_lu d < 10 ^ N.of_nat (nb_digits d))%N.
Proof.
  induction d; cbn [nb_digits DecimalPos.Unsigned.of_lu];
    rewrite ?Nat2N.inj_succ, ?N.pow_succ_r'; lia.
Qed.

Lemma string_of_uint_length d :
  String.length (NilEmpty.string_of_uint d) = nb_digits d.
Proof. induction d; simpl; congruence. Qed.

(** A number printed with [k] digits is below [10 ^ k]. *)
Lemma fmt_u_bound n :
  0 <= n -> n < 10 ^ Z.of_nat (String.length (fmt_u n)).
Proof.
  intros Hn. unfold fmt_u.
  pose proof (DecimalN.Unsigned.of_to (Z.to_N n)) as E.
  set (d := N.to_uint (Z.to_N n)) in *.
  assert (B : (Z.to_N n < 10 ^ N.of_nat (nb_digits d))%N).
  { rewrite <- E. unfold N.of_uint.
    rewrite DecimalPos.Unsigned.of_uint_alt.
    rewrite <- (DecimalFacts.nb_digits_rev d). apply of_lu_bound. }
  assert (L : (nb_digits d <= String.length (NilZero.string_of_uint d))%nat).
  { destruct d; cbn [NilZero.string_of_uint];
      rewrite ?string_of_uint_length; simpl; lia. }
  apply N2Z.inj_lt in B.
  rewrite Z2N.id, N2Z.inj_pow, nat_N_Z in B by lia.
  change (Z.of_N 10) with 10 in B.
  eapply Z.lt_le_trans; [exact B|].
  apply Z.pow_le_mono_r; lia.
Qed.

Lemma fmt_05u_five_only n :
  0 <= n -> String.length (fmt_05u n) = 5%nat -> n < 100000.
Proof.
  intros Hn H5. rewrite CFacts.fmt_05u_length in H5.
  pose proof (fmt_u_bound n Hn) as B.
  eapply Z.lt_le_trans; [exact B|].
  change 100000 with (10 ^ 5). apply Z.pow_le_mono_r; lia.
Qed.

End NameFacts.

Section GetnameFacts.

Context `{P : Platform}.

(** C3, as the code has it: [%05u] pads the pid to at least five
    digits and prints a longer pid in full, and the name is cut to fit
    a buffer of [MAXPGPATH] bytes.  For a pid that is a non-negative
    [int] and a name shorter than [MAXPGPATH], [logfile_getname]
    returns directory (after [DataDir] when it is relative), slash,
    prefix, the pid in decimal with leading zeros up to five digits, an
    underscore, the local time of the timestamp printed with
    [%Y-%m-%d_%H%M%S], and ".log"; the pid field has five digits
    exactly when the pid is below 100000; and the name depends on
    directory, prefix, data directory, pid and timestamp only. *)
Theorem logfile_getname_format s timestamp :
  let stamptext :=
    pg_strftime 128 "%Y-%m-%d_%H%M%S" (pg_localtime timestamp) in
  let pid := PostmasterPid s in
  let pidtext := fmt_05u pid in
  let directory :=
    if is_absolute_path (Log_directory s)
    then Log_directory s
    else DataDir s ++ "/" ++ Log_directory s in
  let name :=
    directory ++ "/" ++ Log_filename_prefix s ++ pidtext ++ "_" ++
    stamptext ++ ".log" in
  0 <= pid < 2 ^ 31 ->
  (String.length name < MAXPGPATH)%nat ->
  logfile_getname s timestamp = name /\
  decimal_value pidtext = Some pid /\
  (5 <= String.length pidtext)%nat /\
  (String.length pidtext = 5%nat <-> pid < 100000) /\
  (forall s',
     Log_directory s' = Log_directory s ->
     Log_filename_prefix s' = Log_filename_prefix s ->
     DataDir s' = DataDir s ->
     PostmasterPid s' = PostmasterPid s ->
     logfile_getname s' timestamp = logfile_getname s timestamp).
Proof.
  cbv zeta. intros Hpid Hfit.
  split; [|split; [|split; [|split]]].
  - unfold logfile_getname. rewrite CFacts.to_uint_small by lia.
    unfold snprintf.
    destruct (is_absolute_path (Log_directory s)).
    + apply CFacts.take_all. lia.
    + rewrite !NameFacts.append_assoc in Hfit |- *.
      apply CFacts.take_all. simpl in Hfit |- *. lia.
  - apply NameFacts.decimal_value_fmt_05u. lia.
  - rewrite CFacts.fmt_05u_length. lia.
  - split.
    + intros H5. destruct (Z_lt_ge_dec (PostmasterPid s) 100000) as [|Hge];
        [assumption|].
      exfalso.
      pose proof (NameFacts.fmt_05u_five_only _ (proj1 Hpid) H5). lia.
    + intros Hlt. apply NameFacts.fmt_05u_five. lia.
  - intros s' H1 H2 H3 H4. now apply logfile_getname_ext.
Qed.

End GetnameFacts.

(** ** Rotation when no file descriptor is free *)

Section ExhaustionFacts.

Context `{P : Platform}.

Lemma body_state_after_failed_rotation o s e :
  o_fopen o = fopen_NULL e -> e = ENFILE \/ e = EMFILE ->
  state_of (SysLoggerMain_body o s) =
  state_of (SysLoggerMain_wait o (state_of (SysLoggerMain_reload o s))).
Proof.
  intros Ho He. rewrite body_state. cbv zeta.
  rewrite Ho, (logfile_rotate_keep _ e _ He), rotation_requested_state.
  cbn [state_of fst snd].
  destruct (value_of (SysLoggerMain_rotation_requested o s)); reflexivity.
Qed.

(** C5, as the code has it: with ENFILE or EMFILE [logfile_rotate]
    reports the failure and returns the state it was given, so the next
    write goes to the file that was open before.  A rotation that the
    age or the size test had asked for is asked for again by the next
    pass, provided no reload comes in between, the clock and the file
    position have not gone back, and the elapsed seconds fit in an
    [int]. *)
Theorem logfile_rotate_fd_exhaustion e :
  e = ENFILE \/ e = EMFILE ->
  (forall now s,
     let r := logfile_rotate now (fopen_NULL e) s in
     state_of r = s /\
     events_of r =
       [EvTime now; EvFopen (logfile_getname s now) (fopen_NULL e);
        EvReport (could_not_open_new_logfile (logfile_getname s now) e)] /\
     forall buffer count written errno,
       hd_error
         (events_of
            (write_syslogger_file buffer count written errno (state_of r))) =
       Some (EvFwrite (syslogFile s) (firstn (Z.to_nat count) buffer)
               count written))
  /\
  (forall o o' s,
     o_fopen o = fopen_NULL e ->
     value_of (SysLoggerMain_reload o s) = false ->
     value_of (SysLoggerMain_rotation_requested o s) = true ->
     let s1 := state_of (SysLoggerMain_body o s) in
     got_SIGHUP s1 = false ->
     o_time_check o <= o_time_check o' ->
     o_ftell o <= o_ftell o' ->
     int_range (o_time_check o - last_rotation_time s) ->
     int_range (o_time_check o' - last_rotation_time s) ->
     value_of (SysLoggerMain_rotation_requested o' s1) = true).
Proof.
  intros He. split.
  - intros now s r. subst r. rewrite (logfile_rotate_keep now e s He).
    cbn [state_of events_of fst snd]. repeat split.
    intros. rewrite write_syslogger_file_eq. reflexivity.
  - intros o o' s Ho Hv0 Hv s1 Hh Ht Hp Hr Hr'. subst s1.
    rewrite (body_state_after_failed_rotation o s e Ho He) in *.
    pose proof (reload_frame o s) as R. cbv zeta in R.
    destruct R as (_ & Rt & _).
    pose proof (wait_frame o (state_of (SysLoggerMain_reload o s))) as W.
    cbv zeta in W. destruct W as (Wa & Ws & _ & _ & _ & _ & Wt & _).
    rewrite rotation_requested_value in Hv |- *. cbv zeta in Hv |- *.
    rewrite Hv0 in Hv. cbn [orb] in Hv.
    rewrite (reload_idle o' _ Hh). cbn [value_of state_of fst snd orb].
    rewrite Wa, Ws, Wt, Rt. rewrite Rt in Hv.
    rewrite (CFacts.to_int_small _ Hr) in Hv.
    rewrite (CFacts.to_int_small _ Hr').
    apply orb_true_iff in Hv. apply orb_true_iff.
    destruct Hv as [Hv|Hv]; [left|right].
    + rewrite !andb_true_iff in Hv |- *.
      destruct Hv as [[H1 H2] H3]. repeat split; try assumption.
      rewrite Z.geb_le in H3 |- *. lia.
    + rewrite !andb_true_iff in Hv |- *.
      destruct Hv as [H1 H2]. split; [assumption|].
      rewrite Z.geb_le in H2 |- *. lia.
Qed.

End ExhaustionFacts.

(** ** Whole runs of the loop *)

Section RunFacts.

Context `{P : Platform}.

Lemma written_app a b : written (a ++ b)%list = (written a ++ written b)%list.
Proof.
  induction a as [|e a IH]; [reflexivity|].
  destruct e; simpl; rewrite IH; reflexivity.
Qed.

Lemma count_app p a b : count p (a ++ b)%list = (count p a + count p b)%nat.
Proof. unfold count. rewrite filter_app, length_app. reflexivity. Qed.

Lemma discipline_app d a b :
  discipline d (a ++ b)%list = discipline (discipline d a) b.
Proof. apply fold_left_app. Qed.

Lemma FILE_eqb_refl f : FILE_eqb f f = true.
Proof. unfold FILE_eqb. rewrite Z.eqb_refl, String.eqb_refl. reflexivity. Qed.

Ltac observe :=
  cbn;
  repeat (cbv [discipline fold_left discipline_step];
          rewrite ?FILE_eqb_refl; cbn [fold_left]);
  cbn.

(** The events of a rotation, case by case. *)
Lemma logfile_rotate_events now r s :
  events_of (logfile_rotate now r s) =
  match r with
  | fopen_ok n =>
      [EvTime now; EvFopen (logfile_getname s now) (fopen_ok n);
       EvSetvbuf (mkFILE n (logfile_getname s now)); EvFclose (syslogFile s)]
  | fopen_NULL e =>
      (EvTime now :: EvFopen (logfile_getname s now) (fopen_NULL e)
       :: EvReport (could_not_open_new_logfile (logfile_getname s now) e)
       :: (if negb (e =? ENFILE) && negb (e =? EMFILE)
           then [EvReport disabling_auto_rotation] else []))
  end.
Proof.
  destruct r as [n|e]; [reflexivity|].
  unfold logfile_rotate. run.
  destruct (negb (e =? ENFILE) && negb (e =? EMFILE)); reflexivity.
Qed.

(** The three stages of a pass, seen by each reading of the events. *)
Lemma decide_observed o s :
  let ev := events_of (SysLoggerMain_rotation_requested o s) in
  written ev = [] /\
  discipline (Steady (syslogFile s)) ev = Steady (syslogFile s) /\
  count is_select ev = 0%nat /\ count is_pipe_read ev = 0%nat /\
  count is_fwrite ev = 0%nat /\ count is_fopen ev = 0%nat.
Proof.
  cbv zeta. rewrite rotation_requested_events_eq. cbv zeta.
  rewrite reload_events.
  pose proof (reload_frame o s) as R. cbv zeta in R.
  destruct R as (-> & _).
  destruct (got_SIGHUP s), (negb _ && _), (negb _ && (_ >? 0));
    observe; repeat split.
Qed.

Lemma rotate_observed now r s :
  let res := logfile_rotate now r s in
  written (events_of res) = [] /\
  discipline (Steady (syslogFile s)) (events_of res) =
    Steady (syslogFile (state_of res)) /\
  count is_select (events_of res) = 0%nat /\
  count is_pipe_read (events_of res) = 0%nat /\
  count is_fwrite (events_of res) = 0%nat /\
  count is_fopen (events_of res) = 1%nat.
Proof.
  cbv zeta. rewrite logfile_rotate_events. destruct r as [n|e].
  - rewrite logfile_rotate_ok. observe. repeat split.
  - pose proof (logfile_rotate_fail_frame now e s) as F. cbv zeta in F.
    destruct F as (-> & _).
    destruct (negb (e =? ENFILE) && negb (e =? EMFILE)); observe; repeat split.
Qed.

Lemma wait_observed o s :
  let ev := events_of (SysLoggerMain_wait o s) in
  written ev = match delivery o with Chunk bytes => [bytes] | _ => [] end /\
  discipline (Steady (syslogFile s)) ev = Steady (syslogFile s) /\
  count is_select ev = 1%nat /\
  count is_pipe_read ev =
    (if negb (o_select_rc o <? 0) && (o_select_rc o >? 0) && o_select_isset o
     then 1%nat else 0%nat) /\
  count is_fwrite ev =
    match delivery o with Chunk _ => 1%nat | _ => 0%nat end /\
  count is_fopen ev = 0%nat /\
  count is_rotation_work ev = 0%nat.
Proof.
  cbv zeta. rewrite wait_eq. cbv zeta. unfold delivery.
  rewrite write_syslogger_file_eq.
  assert (F : syslogFile (if o_sighup_in_select o then sigHupHandler s else s)
              = syslogFile s) by (destruct (o_sighup_in_select o); reflexivity).
  rewrite F.
  destruct (o_select_rc o <? 0).
  { destruct (_ =? EINTR), (pipe_eof_seen _); observe; repeat split. }
  destruct ((o_select_rc o >? 0) && o_select_isset o) eqn:E; cbn [negb andb].
  2:{ assert (E' : true && (o_select_rc o >? 0) && o_select_isset o = false)
        by exact E.
      destruct (pipe_eof_seen _); observe; rewrite ?E; repeat split. }
  cbn [andb] in E. rewrite E.
  destruct (o_bytesRead o <? 0).
  { destruct (_ =? EINTR), (pipe_eof_seen _); observe; repeat split. }
  destruct (o_bytesRead o >? 0).
  - destruct (to_int _ =? _); observe; repeat split.
  - observe. repeat split.
Qed.

(** Whether a pass goes on is decided by what the pipe gives. *)
Lemma wait_outcome o s :
  pipe_eof_seen s = false ->
  let r := SysLoggerMain_wait o s in
  value_of r =
    match delivery o with EndOfPipe => ProcExit 0 | _ => Continue end /\
  (delivery o <> EndOfPipe -> pipe_eof_seen (state_of r) = false).
Proof.
  intros Hs. cbv zeta. rewrite wait_eq. cbv zeta. unfold delivery.
  assert (E : pipe_eof_seen
                (if o_sighup_in_select o then sigHupHandler s else s) = false)
    by (destruct (o_sighup_in_select o); exact Hs).
  rewrite E.
  destruct (o_select_rc o <? 0); [cbn; auto|].
  destruct ((o_select_rc o >? 0) && o_select_isset o); [|cbn; auto].
  destruct (o_bytesRead o <? 0); [cbn; auto|].
  destruct (o_bytesRead o >? 0); cbn; [auto|].
  split; [reflexivity|]. intros H. contradiction H. reflexivity.
Qed.

Lemma body_observed o s :
  let r := SysLoggerMain_body o s in
  written (events_of r) =
    match delivery o with Chunk bytes => [bytes] | _ => [] end /\
  discipline (Steady (syslogFile s)) (events_of r) =
    Steady (syslogFile (state_of r)) /\
  count is_select (events_of r) = 1%nat /\
  (count is_pipe_read (events_of r) <= 1)%nat /\
  (count is_fwrite (events_of r) <= count is_pipe_read (events_of r))%nat /\
  (count is_fopen (events_of r) <= 1)%nat.
Proof.
  cbv zeta. rewrite body_events, body_state. cbv zeta.
  set (rq := SysLoggerMain_rotation_requested o s).
  pose proof (decide_observed o s) as D. cbv zeta in D. fold rq in D.
  destruct D as (D1 & D2 & D3 & D4 & D5 & D6).
  assert (Fr : syslogFile (state_of rq) = syslogFile s).
  { unfold rq. rewrite rotation_requested_state.
    pose proof (reload_frame o s) as R. cbv zeta in R. tauto. }
  pose proof (rotate_observed (o_time_rotate o) (o_fopen o) (state_of rq)) as T.
  cbv zeta in T. rewrite Fr in T.
  destruct T as (T1 & T2 & T3 & T4 & T5 & T6).
  set (s2 := if value_of rq
             then state_of (logfile_rotate (o_time_rotate o) (o_fopen o)
                              (state_of rq))
             else state_of rq).
  pose proof (wait_observed o s2) as W. cbv zeta in W.
  destruct W as (W1 & W2 & W3 & W4 & W5 & W6 & _).
  pose proof (wait_frame o s2) as WF. cbv zeta in WF.
  destruct WF as (_ & _ & _ & _ & _ & _ & _ & WF & _).
  rewrite !written_app, !discipline_app, !count_app, D1, D2, D3, D4, D5, D6.
  rewrite W1, W3, W4, W5, W6, WF.
  assert (Mid :
    discipline (Steady (syslogFile s))
      (if value_of rq
       then events_of (logfile_rotate (o_time_rotate o) (o_fopen o)
                         (state_of rq))
       else []) = Steady (syslogFile s2)).
  { unfold s2. destruct (value_of rq); [exact T2 | cbn; now rewrite Fr]. }
  rewrite Mid, W2.
  destruct (value_of rq); rewrite ?T1, ?T3, ?T4, ?T5, ?T6; cbn [written count filter List.length app plus];
    (split; [reflexivity|]); (split; [reflexivity|]);
    (split; [reflexivity|]);
    unfold delivery;
    destruct (o_select_rc o <? 0), ((o_select_rc o >? 0) && o_select_isset o)
      eqn:E, (o_bytesRead o <? 0), (o_bytesRead o >? 0);
    cbn [negb andb] in *; rewrite ?E; cbn; repeat split; lia.
Qed.

Lemma body_outcome o s :
  pipe_eof_seen s = false ->
  let r := SysLoggerMain_body o s in
  value_of r =
    match delivery o with EndOfPipe => ProcExit 0 | _ => Continue end /\
  (delivery o <> EndOfPipe -> pipe_eof_seen (state_of r) = false).
Proof.
  intros Hs. cbv zeta. rewrite body_value, body_state. cbv zeta.
  apply wait_outcome.
  pose proof (before_wait_keeps_latch o s) as L. cbv zeta in L.
  rewrite L. exact Hs.
Qed.

(** The calls the loop itself makes at line 325 carry what the pipe
    gave. *)
Lemma loop_own_writes os : forall s,
  pipe_eof_seen s = false ->
  written (events_of (SysLoggerMain_loop os s)) = delivered os.
Proof.
  induction os as [|o os IH]; intros s Hs; [reflexivity|].
  cbn [SysLoggerMain_loop delivered]. rewrite bind_events, written_app.
  pose proof (body_observed o s) as B. cbv zeta in B.
  destruct B as (-> & _).
  destruct (body_outcome o s Hs) as [Hv Hl]. rewrite Hv.
  destruct (delivery o) eqn:D.
  - rewrite IH; [reflexivity | apply Hl; discriminate].
  - rewrite IH; [reflexivity | apply Hl; discriminate].
  - reflexivity.
Qed.

Lemma loop_discipline os : forall s,
  discipline (Steady (syslogFile s)) (events_of (SysLoggerMain_loop os s)) =
  Steady (syslogFile (state_of (SysLoggerMain_loop os s))).
Proof.
  induction os as [|o os IH]; intros s; [reflexivity|].
  cbn [SysLoggerMain_loop]. rewrite bind_events, bind_state, discipline_app.
  pose proof (body_observed o s) as B. cbv zeta in B.
  destruct B as (_ & -> & _).
  destruct (value_of (SysLoggerMain_body o s)); [apply IH | reflexivity].
Qed.

(** *** With the collector's own messages *)

Lemma discipline_astray ev : discipline Astray ev = Astray.
Proof. induction ev as [|e ev IH]; [reflexivity|]. destruct e; exact IH. Qed.

Lemma report_keeps_steady d m :
  discipline_step d (EvReport m) <> Astray ->
  exists cur, d = Steady cur /\ discipline_step d (EvReport m) = Steady cur.
Proof.
  destruct d as [cur| | |]; cbn; intros H; try (contradiction H; reflexivity).
  exists cur. split; reflexivity.
Qed.

Lemma written_elog_calls f ws : written (elog_calls f ws) = map fst ws.
Proof.
  induction ws as [|w ws IH]; [reflexivity|]. cbn. rewrite <- IH. reflexivity.
Qed.

Lemma discipline_elog_calls f ws :
  discipline (Steady f) (elog_calls f ws) = Steady f.
Proof.
  induction ws as [|w ws IH]; [reflexivity|].
  cbn. rewrite FILE_eqb_refl. exact IH.
Qed.

Lemma count_elog_calls p f ws :
  (forall g b c w, p (EvFwrite g b c w) = false) ->
  count p (elog_calls f ws) = 0%nat.
Proof.
  intros Hp. unfold count, elog_calls.
  induction ws as [|w ws IH]; [reflexivity|].
  cbn [map filter]. rewrite Hp. exact IH.
Qed.

Lemma fwrite_elog_calls f ws :
  count is_fwrite (elog_calls f ws) = List.length ws.
Proof.
  unfold count, elog_calls. induction ws as [|w ws IH]; [reflexivity|].
  cbn [map filter is_fwrite List.length]. rewrite IH. reflexivity.
Qed.

Lemma own_messages_report elog m ev :
  own_messages elog (EvReport m :: ev) =
  (map fst (hd [] elog) ++ own_messages (tl elog) ev)%list.
Proof.
  unfold own_messages, count. cbn [filter is_report List.length].
  destruct elog as [|ws more]; cbn [firstn hd tl List.concat].
  - rewrite firstn_nil. reflexivity.
  - rewrite map_app. reflexivity.
Qed.

Lemma own_messages_other elog e ev :
  is_report e = false -> own_messages elog (e :: ev) = own_messages elog ev.
Proof.
  intros H. unfold own_messages, count. cbn [filter]. rewrite H. reflexivity.
Qed.

Lemma interleaved_right_all {A} (b : list A) : forall a c b',
  Interleaved a b' c -> Interleaved a (b ++ b') (b ++ c).
Proof.
  induction b as [|x b IH]; intros a c b' H; [exact H|].
  cbn. apply interleaved_right. apply IH. exact H.
Qed.

Lemma interleaved_alone {A} (a c : list A) : Interleaved a [] c -> c = a.
Proof.
  intros H. remember [] as b eqn:Hb.
  induction H as [|x a b c H IH|x a b c H IH];
    [reflexivity | rewrite (IH Hb); reflexivity | discriminate Hb].
Qed.

(** What putting in the collector's own messages does to a trace that
    keeps the file discipline. *)
Lemma collector_trace_facts ev : forall elog d,
  discipline d ev <> Astray ->
  let tr := collector_trace elog d ev in
  Interleaved (written ev) (own_messages elog ev) (written tr) /\
  discipline d tr = discipline d ev /\
  count is_fwrite tr =
    (count is_fwrite ev + List.length (own_messages elog ev))%nat /\
  (forall p, (forall g b c w, p (EvFwrite g b c w) = false) ->
     count p tr = count p ev).
Proof.
  induction ev as [|e ev IH]; intros elog d Hd; cbv zeta.
  - repeat split; constructor.
  - cbn [collector_trace]. change (discipline d (e :: ev))
      with (discipline (discipline_step d e) ev) in Hd |- *.
    destruct (is_report e) eqn:Hr.
    + destruct e; try discriminate Hr.
      assert (Hs : discipline_step d (EvReport d0) <> Astray).
      { intros E. rewrite E, discipline_astray in Hd.
        contradiction Hd. reflexivity. }
      destruct (report_keeps_steady d d0 Hs) as (cur & -> & E).
      rewrite E in Hd |- *.
      destruct (IH (tl elog) (Steady cur) Hd) as (I1 & I2 & I3 & I4).
      rewrite own_messages_report.
      change (written (EvReport d0 :: ?l)) with (written l).
      change (discipline (Steady cur) (EvReport d0 :: ?l))
        with (discipline (Steady cur) l).
      rewrite written_app, written_elog_calls, discipline_app,
        discipline_elog_calls.
      split; [apply interleaved_right_all; exact I1|].
      split; [exact I2|]. split.
      * change (EvReport d0 :: ?l)%list with ([EvReport d0] ++ l)%list.
        rewrite !count_app, I3, fwrite_elog_calls, length_app, !length_map.
        cbn. lia.
      * intros p Hp.
        change (EvReport d0 :: ?l)%list with ([EvReport d0] ++ l)%list.
        rewrite !count_app, (count_elog_calls p _ _ Hp), (I4 p Hp).
        reflexivity.
    + destruct (IH elog (discipline_step d e) Hd) as (I1 & I2 & I3 & I4).
      rewrite (own_messages_other elog e ev Hr).
      change (discipline d (e :: ?l)) with (discipline (discipline_step d e) l).
      split; [|split; [exact I2|split]].
      * destruct e; try exact I1; try discriminate Hr.
        simpl. apply interleaved_left. exact I1.
      * change (e :: ?l)%list with ([e] ++ l)%list.
        rewrite !count_app, I3. lia.
      * intros p Hp. change (e :: ?l)%list with ([e] ++ l)%list.
        rewrite !count_app, (I4 p Hp). reflexivity.
Qed.

(** X1: what [fwrite] receives in a run of the collector is what the
    pipe gave, mixed with the collector's own messages and with nothing
    else.  In every run that starts with the EOF latch clear, the buffers
    handed to [fwrite] are an interleaving of the chunks the pipe
    delivered before its end (each one once, unchanged, in the order
    read) and of the buffers elog.c writes for the reports of the run;
    where the run has no message of its own to write, they are the
    delivered chunks and no more.  Each of these calls is made on the
    logfile that is open at that moment. *)
Theorem loop_writes_what_it_reads os elog : forall s,
  pipe_eof_seen s = false ->
  let r := SysLoggerMain_loop os s in
  let tr := collector_trace elog (Steady (syslogFile s)) (events_of r) in
  Interleaved (delivered os) (own_messages elog (events_of r)) (written tr) /\
  (own_messages elog (events_of r) = [] -> written tr = delivered os) /\
  discipline (Steady (syslogFile s)) tr = Steady (syslogFile (state_of r)).
Proof.
  intros s Hs. cbv zeta.
  assert (Hd : discipline (Steady (syslogFile s))
                 (events_of (SysLoggerMain_loop os s)) <> Astray)
    by (rewrite loop_discipline; discriminate).
  destruct (collector_trace_facts _ elog _ Hd) as (I1 & I2 & _).
  rewrite (loop_own_writes os s Hs) in I1.
  split; [exact I1|]. split.
  - intros E. rewrite E in I1. apply interleaved_alone. exact I1.
  - rewrite I2. apply loop_discipline.
Qed.

(** X2: over every run the stdio calls keep to one open logfile: a
    write or an [ftell] goes to the file that is installed at that
    moment, a file is closed only as the installed one, directly after
    the [fopen] and [setvbuf] of its successor, and the run ends with the
    last file opened successfully (or the first one) installed. *)
Theorem loop_keeps_file_discipline os : forall s,
  discipline (Steady (syslogFile s)) (events_of (SysLoggerMain_loop os s)) =
  Steady (syslogFile (state_of (SysLoggerMain_loop os s))).
Proof.
  induction os as [|o os IH]; intros s; [reflexivity|].
  cbn [SysLoggerMain_loop]. rewrite bind_events, bind_state, discipline_app.
  pose proof (body_observed o s) as B. cbv zeta in B.
  destruct B as (_ & -> & _).
  destruct (value_of (SysLoggerMain_body o s)); [apply IH | reflexivity].
Qed.

Lemma body_fwrite_count o s :
  count is_fwrite (events_of (SysLoggerMain_body o s)) =
  match delivery o with Chunk _ => 1%nat | _ => 0%nat end.
Proof.
  rewrite body_events. cbv zeta. rewrite !count_app.
  pose proof (decide_observed o s) as D. cbv zeta in D.
  destruct D as (_ & _ & _ & _ & -> & _).
  match goal with |- context [SysLoggerMain_wait o ?s2] =>
    pose proof (wait_observed o s2) as W end.
  cbv zeta in W. destruct W as (_ & _ & _ & _ & -> & _).
  destruct (value_of (SysLoggerMain_rotation_requested o s)); [|reflexivity].
  pose proof (rotate_observed (o_time_rotate o) (o_fopen o)
                (state_of (SysLoggerMain_rotation_requested o s))) as T.
  cbv zeta in T. destruct T as (_ & _ & _ & _ & -> & _). reflexivity.
Qed.

(** X3: the work of one pass is bounded.  Counted on the events of the
    collector with the writes of its own messages put in, a pass waits in
    [select] exactly once, reads the pipe at most once and tries at most
    one [fopen]; its calls of [fwrite] are one for the chunk the pipe
    delivered, if it delivered one, and those elog.c makes for the
    reports of the pass, and no other. *)
Theorem body_does_bounded_work o elog s :
  let ev := events_of (SysLoggerMain_body o s) in
  let tr := collector_trace elog (Steady (syslogFile s)) ev in
  count is_select tr = 1%nat /\
  (count is_pipe_read tr <= 1)%nat /\
  (count is_fopen tr <= 1)%nat /\
  count is_fwrite tr =
    (match delivery o with Chunk _ => 1 | _ => 0 end +
     List.length (own_messages elog ev))%nat.
Proof.
  cbv zeta.
  pose proof (body_observed o s) as B. cbv zeta in B.
  destruct B as (_ & B2 & B3 & B4 & _ & B6).
  assert (Hd : discipline (Steady (syslogFile s))
                 (events_of (SysLoggerMain_body o s)) <> Astray)
    by (rewrite B2; discriminate).
  destruct (collector_trace_facts _ elog _ Hd) as (_ & _ & I3 & I4).
  rewrite !I4 by reflexivity. rewrite I3, body_fwrite_count.
  repeat split; assumption.
Qed.

End RunFacts.

(** ** Rotation that is switched off, reloads, and fresh files *)

Section QuietFacts.

Context `{P : Platform}.

Lemma wait_sighup o s :
  got_SIGHUP (state_of (SysLoggerMain_wait o s)) =
  got_SIGHUP s || o_sighup_in_select o.
Proof.
  rewrite wait_eq. cbv zeta.
  destruct (o_sighup_in_select o); cbn [sigHupHandler set_got_SIGHUP pipe_eof_seen];
    destruct (o_select_rc o <? 0),
      ((o_select_rc o >? 0) && o_select_isset o),
      (o_bytesRead o <? 0), (o_bytesRead o >? 0), (pipe_eof_seen s);
    cbn; rewrite ?orb_true_r, ?orb_false_r; reflexivity.
Qed.

Lemma body_quiet o s :
  got_SIGHUP s = false ->
  Log_RotationAge s = 0 -> Log_RotationSize s = 0 ->
  o_sighup_in_select o = false ->
  let r := SysLoggerMain_body o s in
  count is_rotation_work (events_of r) = 0%nat /\
  got_SIGHUP (state_of r) = false /\
  Log_RotationAge (state_of r) = 0 /\ Log_RotationSize (state_of r) = 0 /\
  syslogFile (state_of r) = syslogFile s.
Proof.
  intros Hh Ha Hs Ho. cbv zeta.
  rewrite body_events, body_state. cbv zeta.
  rewrite rotation_requested_disabled by assumption.
  cbn [value_of state_of events_of fst snd List.app].
  pose proof (wait_observed o s) as W. cbv zeta in W.
  destruct W as (_ & _ & _ & _ & _ & _ & ->).
  pose proof (wait_frame o s) as F. cbv zeta in F.
  destruct F as (-> & -> & _ & _ & _ & _ & _ & -> & _).
  rewrite wait_sighup, Hh, Ho. auto.
Qed.

(** X4: once both limits are zero, and for as long as no SIGHUP comes
    in, the loop makes no call that serves rotation: it does not read
    the clock, does not ask for the file position, opens and closes no
    file, and stays with the logfile it has. *)
Theorem loop_without_limits_never_rotates os : forall s,
  got_SIGHUP s = false ->
  Log_RotationAge s = 0 -> Log_RotationSize s = 0 ->
  forallb (fun o => negb (o_sighup_in_select o)) os = true ->
  let r := SysLoggerMain_loop os s in
  count is_rotation_work (events_of r) = 0%nat /\
  syslogFile (state_of r) = syslogFile s.
Proof.
  induction os as [|o os IH]; intros s Hh Ha Hs Hos; cbv zeta.
  - split; reflexivity.
  - cbn [forallb] in Hos. apply andb_prop in Hos. destruct Hos as [Ho Hos].
    apply negb_true_iff in Ho.
    destruct (body_quiet o s Hh Ha Hs Ho) as (Bc & Bh & Ba & Bs & Bf).
    cbn [SysLoggerMain_loop]. rewrite bind_events, bind_state, count_app, Bc.
    destruct (value_of (SysLoggerMain_body o s)).
    + destruct (IH _ Bh Ba Bs Hos) as [Ic If]. rewrite Ic, If. auto.
    + cbn. auto.
Qed.

Lemma take_take n s : take n (take n s) = take n s.
Proof. apply CFacts.take_all, CFacts.take_length. Qed.

(** After a reload was serviced, [currentLogDir] and the configured
    directory agree on their first [MAXPGPATH] bytes. *)
Lemma reload_snapshot o s :
  got_SIGHUP s = true ->
  take MAXPGPATH (currentLogDir (state_of (SysLoggerMain_reload o s))) =
  take MAXPGPATH (guc_log_directory (o_config o)).
Proof.
  intros Hh. rewrite reload_serviced by assumption. cbv zeta.
  cbn [Log_directory currentLogDir set_guc set_got_SIGHUP].
  destruct (Z.eqb_spec
              (strncmp (guc_log_directory (o_config o)) (currentLogDir s)
                 MAXPGPATH) 0) as [E|E]; cbn.
  - symmetry. now apply CFacts.strncmp_take.
  - apply take_take.
Qed.

(** X5: the directory snapshot is compared the way it is taken.  A
    reload that rereads the directory the previous reload saw, or the
    one the collector started with, requests no rotation, however long
    the name is; so one change of directory forces one rotation, not one
    at every later SIGHUP. *)
Theorem reload_same_directory_requests_nothing o' :
  (forall o s,
     got_SIGHUP s = true ->
     guc_log_directory (o_config o') = guc_log_directory (o_config o) ->
     value_of
       (SysLoggerMain_reload o'
          (sigHupHandler (state_of (SysLoggerMain_reload o s)))) = false)
  /\
  (forall t s,
     guc_log_directory (o_config o') = Log_directory s ->
     value_of
       (SysLoggerMain_reload o'
          (sigHupHandler (state_of (SysLoggerMain_init t s)))) = false).
Proof.
  split.
  - intros o s Hh Hd. rewrite reload_value. cbn [got_SIGHUP sigHupHandler set_got_SIGHUP currentLogDir andb].
    apply negb_false_iff, Z.eqb_eq, CFacts.strncmp_take.
    rewrite Hd. symmetry. now apply reload_snapshot.
  - intros t s Hd. rewrite reload_value. cbn.
    apply negb_false_iff, Z.eqb_eq, CFacts.strncmp_take.
    rewrite Hd. unfold strncpy. symmetry. apply take_take.
Qed.

(** X6: a file that has just been taken into use is left alone.  In the
    pass after the start of the loop at [t], or after a successful
    rotation at [t], no rotation is requested while no reload is
    pending, fewer than [Log_RotationAge * 60] seconds have passed and
    the position is below [Log_RotationSize * 1024] (these two products
    and the elapsed seconds fitting their C types). *)
Theorem fresh_file_is_not_rotated t o s :
  let fresh s' :=
    value_of (SysLoggerMain_rotation_requested o s') = false in
  got_SIGHUP s = false ->
  0 < LONG_BITS ->
  int_range (o_time_check o - t) ->
  int_range (Log_RotationAge s * 60) ->
  in_range LONG_BITS (Log_RotationSize s * 1024) ->
  o_time_check o - t < Log_RotationAge s * 60 ->
  o_ftell o < Log_RotationSize s * 1024 ->
  fresh (state_of (SysLoggerMain_init t s)) /\
  (forall n, fresh (state_of (logfile_rotate t (fopen_ok n) s))).
Proof.
  cbv zeta. intros Hh HL Hel Ha Hs Hage Hsize.
  assert (G : forall s',
            got_SIGHUP s' = false -> last_rotation_time s' = t ->
            Log_RotationAge s' = Log_RotationAge s ->
            Log_RotationSize s' = Log_RotationSize s ->
            value_of (SysLoggerMain_rotation_requested o s') = false).
  { intros s' Hh' Ht' Ha' Hs'. rewrite rotation_requested_value. cbv zeta.
    rewrite (reload_idle o s' Hh'). cbn [value_of state_of fst snd orb].
    rewrite Ht', Ha', Hs'.
    rewrite (CFacts.to_int_small _ Hel), (CFacts.to_int_small _ Ha).
    rewrite (CFacts.wrap_small _ _ HL Hs).
    destruct (Z.geb_spec (o_time_check o - t) (Log_RotationAge s * 60));
      [lia|].
    destruct (Z.geb_spec (o_ftell o) (Log_RotationSize s * 1024)); [lia|].
    rewrite !andb_false_r. reflexivity. }
  split.
  - apply G; reflexivity || exact Hh.
  - intros n. rewrite logfile_rotate_ok. apply G; reflexivity || exact Hh.
Qed.

End QuietFacts.

(** ** Names of logfiles *)

Module AppendFacts.

Lemma append_cancel_l a x y : a ++ x = a ++ y -> x = y.
Proof. induction a as [|c a IH]; simpl; [auto | intros [= H]; auto]. Qed.

Lemma append_cancel_r b : forall x y, x ++ b = y ++ b -> x = y.
Proof.
  intros x y H.
  assert (L : String.length x = String.length y).
  { apply (f_equal String.length) in H.
    rewrite !CFacts.append_length in H. lia. }
  revert y H L. induction x as [|c x IH]; intros [|d y] H L;
    try discriminate L; [reflexivity|].
  simpl in H. injection H as -> H. f_equal. apply IH; [exact H|].
  simpl in L. lia.
Qed.

End AppendFacts.

Section NameUniqueness.

Context `{P : Platform}.

(** X7: for names that fit in [MAXPGPATH], two timestamps give the same
    logfile name exactly when they are printed alike by
    [%Y-%m-%d_%H%M%S]; directory, prefix and pid being those of one
    collector, the stamp alone tells its files apart.  (Two moments are
    printed alike when they lie in the same second, and also where local
    time shows the same hour twice.) *)
Theorem logfile_getname_same_name_same_stamp s t1 t2 :
  let stamp t := pg_strftime 128 "%Y-%m-%d_%H%M%S" (pg_localtime t) in
  let full t :=
    (if is_absolute_path (Log_directory s)
     then Log_directory s
     else DataDir s ++ "/" ++ Log_directory s) ++
    "/" ++ Log_filename_prefix s ++ fmt_05u (to_uint (PostmasterPid s)) ++
    "_" ++ stamp t ++ ".log" in
  (String.length (full t1) < MAXPGPATH)%nat ->
  (String.length (full t2) < MAXPGPATH)%nat ->
  (logfile_getname s t1 = logfile_getname s t2 <-> stamp t1 = stamp t2).
Proof.
  cbv zeta. intros H1 H2.
  assert (E : forall t,
    (String.length
       ((if is_absolute_path (Log_directory s)
         then Log_directory s
         else DataDir s ++ "/" ++ Log_directory s) ++
        "/" ++ Log_filename_prefix s ++ fmt_05u (to_uint (PostmasterPid s)) ++
        "_" ++ pg_strftime 128 "%Y-%m-%d_%H%M%S" (pg_localtime t) ++ ".log")
     < MAXPGPATH)%nat ->
    logfile_getname s t =
    (if is_absolute_path (Log_directory s)
     then Log_directory s
     else DataDir s ++ "/" ++ Log_directory s) ++
    "/" ++ Log_filename_prefix s ++ fmt_05u (to_uint (PostmasterPid s)) ++
    "_" ++ pg_strftime 128 "%Y-%m-%d_%H%M%S" (pg_localtime t) ++ ".log").
  { intros t Ht. unfold logfile_getname, snprintf.
    destruct (is_absolute_path (Log_directory s)).
    - apply CFacts.take_all. lia.
    - rewrite !NameFacts.append_assoc in Ht |- *.
      apply CFacts.take_all. simpl in Ht |- *. lia. }
  rewrite (E t1 H1), (E t2 H2). split.
  - intros H.
    repeat (apply AppendFacts.append_cancel_l in H).
    now apply AppendFacts.append_cancel_r in H.
  - intros ->. reflexivity.
Qed.

End NameUniqueness.
(** ** Starting the collector *)

Section StartFacts.

Context `{P : Platform}.

Ltac start_cases :=
  unfold SysLogger_Start, SysLogger_Start_steps;
  cbv [bindS retS getsS modifyS emitS leave whenS ereport_at finish];
  repeat (cbn [fst snd];
          match goal with
          | |- context [if ?c then _ else _] => destruct c eqn:?
          | |- context [match so_fopen ?o with _ => _ end] =>
              destruct (so_fopen o) eqn:?
          end);
  cbn [fst snd List.app];
  repeat match goal with
         | H : (_ <? _) = true |- _ => apply Z.ltb_lt in H
         | H : (_ <? _) = false |- _ => apply Z.ltb_ge in H
         | H : (_ =? _) = true |- _ => apply Z.eqb_eq in H
         | H : (_ =? _) = false |- _ => apply Z.eqb_neq in H
         end.

(** X8: once the pipe is set up and the postmaster's output redirected,
    every later call of [SysLogger_Start], however it ends, leaves this
    so, keeps the read end it has, and neither creates a pipe nor
    duplicates or closes a descriptor: a restarted collector gets the
    pipe the writers already use. *)
Theorem SysLogger_Start_reuses_the_pipe o p :
  settled p ->
  let res := SysLogger_Start o p in
  settled (snd (fst res)) /\
  syslogPipe0 (snd (fst res)) = syslogPipe0 p /\
  forallb (fun e => negb (is_descriptor_work e)) (snd res) = true.
Proof.
  intros (Hd & H0 & H1). cbv zeta. unfold settled.
  start_cases; cbn in *; rewrite ?Hd, ?H1 in *;
    try discriminate; try lia; repeat split; auto; lia.
Qed.

(** X9: a call that gives the postmaster a process id (a value other
    than 0) has opened the first logfile under the name [logfile_getname]
    gives, has forked, and after the fork has done exactly this: unless
    its output was redirected already, it has flushed standard output
    and duplicated the write end of the pipe onto it, the same for
    standard error, both [dup2] calls having succeeded, and has closed
    the write end; then it has closed the logfile, as the last thing it
    does.  Before the fork it has duplicated and closed nothing.  It
    leaves the postmaster with the pipe set up, the output redirected,
    [syslogPipe[1]] at -1 and [syslogFile] at NULL.  (A pipe that
    [pgpipe] reports as created is taken to have a valid read end, and
    a process that has redirected its output to have the pipe.) *)
Theorem SysLogger_Start_hands_over_the_logfile o p v :
  let res := SysLogger_Start o p in
  fst (fst res) = Returns v -> v <> 0 ->
  (syslogPipe0 p < 0 -> 0 <= fst (so_pgpipe_fds o)) ->
  (redirection_done p = true -> settled p) ->
  settled (snd (fst res)) /\
  proc_syslogFile (snd (fst res)) = None /\
  exists n pre,
    so_fopen o = fopen_ok n /\
    let f := mkFILE n (proc_logfile_getname p (so_time o)) in
    let write_end :=
      if syslogPipe0 p <? 0 then snd (so_pgpipe_fds o) else syslogPipe1 p in
    snd res =
      (pre ++ SeFork (so_fork o) ::
       (if redirection_done p then []
        else [SeFflush STDOUT_FILENO; SeDup2 write_end STDOUT_FILENO;
              SeFflush STDERR_FILENO; SeDup2 write_end STDERR_FILENO;
              SeClose write_end]) ++
       [SeLoop (EvFclose f)])%list /\
    In (SeLoop (EvFopen (proc_logfile_getname p (so_time o)) (fopen_ok n)))
      pre /\
    forallb (fun e => negb (is_fclose e || is_redirect_work e || is_fork e))
      pre = true /\
    (redirection_done p = false ->
     0 <= so_dup2_stdout o /\ 0 <= so_dup2_stderr o).
Proof.
  cbv zeta. unfold settled. revert v.
  start_cases; cbn in *; intros v Hr Hv Hfd Hset; try discriminate Hr;
    try (injection Hr as <-; contradiction Hv; reflexivity).
  all: try congruence.
  all: try match goal with H : redirection_done _ = true |- _ =>
             destruct (Hset H) as (? & ? & ?) end.
  all: try lia.
  all: repeat match goal with |- _ /\ _ => split end;
    try reflexivity; try assumption; try lia.
  all: match goal with H : so_fopen _ = fopen_ok ?n |- _ => exists n end;
    match goal with |- exists pre, _ /\ ?ev = _ /\ _ =>
      first [ exists (firstn 6 ev); cbn [firstn List.app];
              split; [reflexivity|]; split; [reflexivity|]
            | exists (firstn 7 ev); cbn [firstn List.app];
              split; [reflexivity|]; split; [reflexivity|] ]
    end;
    (split; [repeat (first [left; reflexivity | right])|]);
    (split; [reflexivity|]);
    intros; try discriminate; split; lia.
Qed.

(** X10: [fork] is called exactly when redirection is switched on, a
    pipe exists or could be created, and the first logfile could be
    opened; a call with redirection switched on that does not reach the
    [fork] ends the postmaster with FATAL. *)
Theorem SysLogger_Start_forks_only_with_a_logfile o p :
  let res := SysLogger_Start o p in
  (existsb is_fork (snd res) = true <->
   Redirect_stderr p = true /\
   (0 <= syslogPipe0 p \/ 0 <= so_pgpipe_rc o) /\
   exists n, so_fopen o = fopen_ok n) /\
  (Redirect_stderr p = true -> existsb is_fork (snd res) = false ->
   fst (fst res) = Aborts).
Proof.
  cbv zeta.
  start_cases; cbn in *; split;
    try (intros; reflexivity); try (intros; discriminate);
    try (split; [discriminate|]);
    try (split; [intros _|reflexivity]);
    try (intros (? & ? & ? & ?)); try discriminate; try lia;
    repeat split; try assumption; try lia; eauto.
Qed.

(** X11: when [fork] fails the call reports it at LOG and returns 0;
    the output is not redirected by this call, and the logfile that was
    opened for the collector stays open in the postmaster: no [fclose]
    is made and [syslogFile] still points to it. *)
Theorem SysLogger_Start_fork_failure o p n :
  Redirect_stderr p = true ->
  (0 <= syslogPipe0 p \/ 0 <= so_pgpipe_rc o) ->
  so_fopen o = fopen_ok n ->
  so_fork o = -1 ->
  let res := SysLogger_Start o p in
  fst (fst res) = Returns 0 /\
  proc_syslogFile (snd (fst res)) =
    Some (mkFILE n (proc_logfile_getname p (so_time o))) /\
  redirection_done (snd (fst res)) = redirection_done p /\
  forallb (fun e => negb (is_fclose e || is_redirect_work e))
    (snd res) = true /\
  last (snd res) SeSetmask =
    SeStartReport LOG (could_not_fork (so_fork_errno o)).
Proof.
  intros Hr Hp Hf Hk. cbv zeta.
  unfold SysLogger_Start, SysLogger_Start_steps;
    cbv [bindS retS getsS modifyS emitS leave whenS ereport_at finish].
  rewrite Hr, Hf, Hk. cbn [fst snd].
  destruct (Z.ltb_spec (syslogPipe0 p) 0) as [Hlt|Hge]; cbn [fst snd].
  - destruct (Z.ltb_spec (so_pgpipe_rc o) 0); [lia|].
    cbn. repeat split.
  - cbn. repeat split.
Qed.

(** [SysLoggerMain] in a process whose [syslogFile] is not NULL. *)
Lemma SysLoggerMain_eq mypid nullfd t os p f :
  proc_syslogFile p = Some f ->
  let s0 := state_of (SysLoggerMain_init t (loop_state p f)) in
  let run := SysLoggerMain_loop os s0 in
  SysLoggerMain mypid nullfd t os p =
  Some (value_of run, state_of run,
        (snd (SysLoggerMain_entry mypid nullfd p) ++
         map SeLoop (EvTime t :: events_of run))%list).
Proof.
  intros Hf. cbv zeta. unfold SysLoggerMain, loop_state.
  cbn. rewrite Hf. cbn.
  match goal with |- context [SysLoggerMain_loop os ?s] =>
    destruct (SysLoggerMain_loop os s) as [[b s2] e2] end.
  reflexivity.
Qed.

(** The process in which the child of the fork enters [SysLoggerMain]. *)
Lemma SysLogger_Start_child o p :
  let res := SysLogger_Start o p in
  fst (fst res) = EntersSysLoggerMain ->
  exists n,
    so_fopen o = fopen_ok n /\
    proc_syslogFile (snd (fst res)) =
      Some (mkFILE n (proc_logfile_getname p (so_time o))) /\
    loop_state (snd (fst res)) = loop_state p /\
    redirection_done (snd (fst res)) = redirection_done p.
Proof.
  cbv zeta.
  start_cases; cbn in *; intros Hr; try discriminate Hr;
  match goal with H : so_fopen _ = fopen_ok ?n |- _ => exists n end;
    repeat split.
Qed.

(** X12: the child of the fork enters [SysLoggerMain] with the logfile
    the postmaster has just opened, so [SysLoggerMain] reaches its loop,
    and the loop starts on that file, which is named after the
    postmaster's reading of the clock, with its rotation time set to the
    collector's own reading [t], the EOF latch and the reload flag
    clear, and [currentLogDir] holding the configured directory; when
    the two readings agree the file is named after the rotation time
    from the start. *)
Theorem collector_takes_over_the_logfile o p mypid nullfd t os :
  let res := SysLogger_Start o p in
  fst (fst res) = EntersSysLoggerMain ->
  exists n,
    so_fopen o = fopen_ok n /\
    let f := mkFILE n (proc_logfile_getname p (so_time o)) in
    let s0 := state_of (SysLoggerMain_init t (loop_state p f)) in
    let run := SysLoggerMain_loop os s0 in
    SysLoggerMain mypid nullfd t os (snd (fst res)) =
      Some (value_of run, state_of run,
            (snd (SysLoggerMain_entry mypid nullfd (snd (fst res))) ++
             map SeLoop (EvTime t :: events_of run))%list) /\
    syslogFile s0 = f /\
    path f = logfile_getname s0 (so_time o) /\
    last_rotation_time s0 = t /\
    pipe_eof_seen s0 = false /\ got_SIGHUP s0 = false /\
    currentLogDir s0 = take MAXPGPATH (guc_log_directory (proc_guc p)) /\
    (t = so_time o -> named_after_rotation_time s0).
Proof.
  cbv zeta. intros Hr.
  destruct (SysLogger_Start_child o p Hr) as (n & Ho & Hf & Hl & _).
  exists n. split; [exact Ho|].
  split.
  - rewrite (SysLoggerMain_eq mypid nullfd t os _ _ Hf). cbv zeta.
    rewrite Hl. reflexivity.
  - repeat (split; [reflexivity|]).
    intros ->. exists (proc_guc p). reflexivity.
Qed.

(** X13: on its way to the loop [SysLoggerMain] closes every descriptor
    under which the process holds the write end of the pipe, also when
    the null device cannot be opened, and it closes nothing but these
    and the descriptor of the null device; afterwards [syslogPipe[1]] is
    -1, and the read end and the logfile are the ones it came with. *)
Theorem SysLoggerMain_entry_closes_the_write_end mypid nullfd p :
  let res := SysLoggerMain_entry mypid nullfd p in
  (forall fd, In fd (write_end_holders p) -> In (SeClose fd) (snd res)) /\
  (forall fd, In (SeClose fd) (snd res) ->
     In fd (write_end_holders p) \/ (redirection_done p = true /\ fd = nullfd)) /\
  syslogPipe1 (fst res) = -1 /\
  syslogPipe0 (fst res) = syslogPipe0 p /\
  proc_syslogFile (fst res) = proc_syslogFile p /\
  am_syslogger (fst res) = true.
Proof.
  cbv zeta. unfold SysLoggerMain_entry, write_end_holders. cbn.
  destruct (redirection_done p), (syslogPipe1 p >=? 0); cbn;
    repeat split; intros fd H;
    repeat match goal with
           | H : _ \/ _ |- _ => destruct H as [H|H]
           | H : False |- _ => destruct H
           | H : SeClose _ = SeClose _ |- _ => injection H as H
           | H : _ = SeClose _ |- _ => discriminate H
           end; subst; auto 20.
Qed.

End StartFacts.
Section DirectoryFacts.

Context `{P : Platform}.

Ltac start_cases :=
  unfold SysLogger_Start, SysLogger_Start_steps;
  cbv [bindS retS getsS modifyS emitS leave whenS ereport_at finish];
  repeat (cbn [fst snd];
          match goal with
          | |- context [if ?c then _ else _] => destruct c eqn:?
          | |- context [match so_fopen ?o with _ => _ end] =>
              destruct (so_fopen o) eqn:?
          end);
  cbn [fst snd List.app].

(** The name of the logfile continues the path of the directory. *)
Lemma logfile_name_in_directory p now :
  let g := proc_guc p in
  let rest :=
    guc_log_filename_prefix g ++ fmt_05u (to_uint (proc_PostmasterPid p)) ++
    "_" ++ pg_strftime 128 "%Y-%m-%d_%H%M%S" (pg_localtime now) ++ ".log" in
  (String.length
     ((if is_absolute_path (guc_log_directory g)
       then guc_log_directory g
       else proc_DataDir p ++ "/" ++ guc_log_directory g) ++ "/" ++ rest)
   < MAXPGPATH)%nat ->
  proc_logfile_getname p now = log_directory_path p ++ "/" ++ rest.
Proof.
  cbv zeta. unfold proc_logfile_getname, logfile_getname_for,
    log_directory_path, snprintf.
  destruct (is_absolute_path (guc_log_directory (proc_guc p))); intros H.
  - apply CFacts.take_all. lia.
  - rewrite !NameFacts.append_assoc in H.
    rewrite !CFacts.append_length in H. cbn [String.length] in H.
    rewrite (CFacts.take_all (MAXPGPATH - 1)
               (proc_DataDir p ++ "/" ++ guc_log_directory (proc_guc p))).
    + rewrite !NameFacts.append_assoc. apply CFacts.take_all.
      rewrite !CFacts.append_length. cbn [String.length]. lia.
    + rewrite !CFacts.append_length. cbn [String.length]. lia.
Qed.

(** X14: the directory [SysLogger_Start] creates, with mode 0700, is
    the one it opens the first logfile in: for a name that fits in
    [MAXPGPATH] the path given to [fopen] is the path given to [mkdir],
    a slash, the prefix, the pid, an underscore, the time stamp and
    ".log". *)
Theorem SysLogger_Start_opens_in_the_created_directory o p d mode name r :
  let ev := snd (SysLogger_Start o p) in
  let g := proc_guc p in
  let rest :=
    guc_log_filename_prefix g ++ fmt_05u (to_uint (proc_PostmasterPid p)) ++
    "_" ++ pg_strftime 128 "%Y-%m-%d_%H%M%S" (pg_localtime (so_time o)) ++
    ".log" in
  In (SeMkdir d mode) ev ->
  In (SeLoop (EvFopen name r)) ev ->
  (String.length
     ((if is_absolute_path (guc_log_directory g)
       then guc_log_directory g
       else proc_DataDir p ++ "/" ++ guc_log_directory g) ++ "/" ++ rest)
   < MAXPGPATH)%nat ->
  mode = 448 /\ r = so_fopen o /\ name = d ++ "/" ++ rest.
Proof.
  cbv zeta. intros Hd Hn Hfit.
  pose proof (logfile_name_in_directory p (so_time o) Hfit) as E.
  cbv zeta in E.
  assert (D : d = log_directory_path p /\ mode = 448).
  { revert Hd. clear. start_cases; cbn; intros H;
      repeat (destruct H as [H|H]; [try discriminate H|]);
      try contradiction; injection H as <- <-; split; reflexivity. }
  assert (N : name = proc_logfile_getname p (so_time o) /\ r = so_fopen o).
  { revert Hn. clear. start_cases; cbn; intros H;
      repeat (destruct H as [H|H]; [try discriminate H|]);
      try contradiction; injection H as <- <-;
      split; solve [reflexivity | congruence]. }
  destruct D as [-> ->]. destruct N as [-> ->].
  repeat split. exact E.
Qed.

End DirectoryFacts.
(** ** The argument list of the exec'ed collector *)

Module ArgFacts.

Lemma digits_value_acc d : forall p,
  digits_value (NilEmpty.string_of_uint d) (Z.pos p) =
  Z.pos (Pos.of_uint_acc d p).
Proof.
  induction d; intros p; cbn [NilEmpty.string_of_uint digits_value Pos.of_uint_acc];
    [reflexivity|..];
    (change (is_digit _) with true; cbv iota;
     match goal with |- context [char_code ?c - 48] =>
       let v := eval vm_compute in (char_code c - 48) in
       change (char_code c - 48) with v end;
     match goal with |- digits_value _ ?a = _ =>
       match goal with |- _ = Z.pos (Pos.of_uint_acc _ ?q) =>
         replace a with (Z.pos q) by lia end end;
     apply IHd).
Qed.

Lemma digits_value_of_uint d :
  digits_value (NilEmpty.string_of_uint d) 0 = Z.of_N (N.of_uint d).
Proof.
  induction d; cbn [NilEmpty.string_of_uint digits_value];
    [reflexivity|..];
    change (is_digit _) with true; cbv iota;
    match goal with |- context [char_code ?c - 48] =>
      let v := eval vm_compute in (10 * 0 + (char_code c - 48)) in
      change (10 * 0 + (char_code c - 48)) with v end.
  - exact IHd.
  - apply (digits_value_acc d 1).
  - apply (digits_value_acc d 2).
  - apply (digits_value_acc d 3).
  - apply (digits_value_acc d 4).
  - apply (digits_value_acc d 5).
  - apply (digits_value_acc d 6).
  - apply (digits_value_acc d 7).
  - apply (digits_value_acc d 8).
  - apply (digits_value_acc d 9).
Qed.

Lemma digits_value_fmt_u n : 0 <= n -> digits_value (fmt_u n) 0 = n.
Proof.
  intros Hn. unfold fmt_u.
  pose proof (DecimalN.Unsigned.of_to (Z.to_N n)) as E.
  destruct (N.to_uint (Z.to_N n)) eqn:D;
    try (unfold NilZero.string_of_uint; rewrite digits_value_of_uint, E;
         apply Z2N.id; exact Hn).
  cbn in E. cbn. lia.
Qed.

(** [%u] starts with a digit. *)
Lemma fmt_u_head n :
  exists c r, fmt_u n = String c r /\ is_digit c = true.
Proof.
  unfold fmt_u. destruct (N.to_uint (Z.to_N n)); cbn;
    eexists; eexists; split; reflexivity.
Qed.

Lemma digit_is_plain c :
  is_digit c = true ->
  is_space c = false /\ Ascii.eqb c "-" = false /\ Ascii.eqb c "+" = false.
Proof.
  unfold is_digit, is_space. intros H.
  apply andb_prop in H. destruct H as [H1 H2].
  apply Z.leb_le in H1. apply Z.leb_le in H2.
  repeat split.
  - apply orb_false_iff. split.
    + apply Z.eqb_neq. lia.
    + apply andb_false_iff. right. apply Z.leb_gt. lia.
  - apply Ascii.eqb_neq. intros ->. cbn in H1. lia.
  - apply Ascii.eqb_neq. intros ->. cbn in H1. lia.
Qed.

Lemma atoi_fmt_d n : int_range n -> atoi (fmt_d n) = n.
Proof.
  intros Hn. unfold fmt_d. destruct (Z.ltb_spec n 0) as [Hneg|Hpos].
  - unfold atoi. cbn [skip_spaces]. change (is_space "-") with false.
    cbv iota. change (Ascii.eqb "-" "-") with true. cbv iota.
    rewrite digits_value_fmt_u by lia.
    rewrite Z.opp_involutive. now apply CFacts.to_int_small.
  - destruct (fmt_u_head n) as (c & r & E & Hc).
    destruct (digit_is_plain c Hc) as (Hs & Hm & Hp).
    unfold atoi. rewrite E. cbn [skip_spaces]. rewrite Hs, Hm, Hp.
    rewrite <- E, digits_value_fmt_u by lia.
    now apply CFacts.to_int_small.
Qed.

(** A number with a digit other than 0 in front is at least the power
    of ten of the digits behind it. *)
Lemma of_uint_acc_lower d : forall p,
  Z.pos p * 10 ^ Z.of_nat (nb_digits d) <= Z.pos (Pos.of_uint_acc d p).
Proof.
  induction d; intros p; cbn [nb_digits Pos.of_uint_acc]; [lia|..];
    rewrite Nat2Z.inj_succ, Z.pow_succ_r by lia;
    (eapply Z.le_trans; [|apply IHd]);
    assert (0 <= 10 ^ Z.of_nat (nb_digits d)) by (apply Z.pow_nonneg; lia);
    nia.
Qed.

Lemma to_uint_normal n : unorm (N.to_uint n) = N.to_uint n.
Proof.
  rewrite <- (DecimalN.Unsigned.to_of (N.to_uint n)).
  now rewrite DecimalN.Unsigned.of_to.
Qed.

(** A number below [10 ^ k] is printed with at most [k] digits. *)
Lemma fmt_u_length n k :
  (1 <= k)%nat -> 0 <= n < 10 ^ Z.of_nat k ->
  (String.length (fmt_u n) <= k)%nat.
Proof.
  intros Hk Hn. unfold fmt_u.
  pose proof (DecimalN.Unsigned.of_to (Z.to_N n)) as E.
  pose proof (to_uint_normal (Z.to_N n)) as U.
  assert (V : forall l q,
            N.of_uint (N.to_uint (Z.to_N n)) = N.pos (Pos.of_uint_acc l q) ->
            (S (nb_digits l) <= k)%nat).
  { intros l q Hv. rewrite E in Hv.
    pose proof (of_uint_acc_lower l q) as L.
    assert (Hz : n = Z.pos (Pos.of_uint_acc l q)).
    { rewrite <- (Z2N.id n) by lia. rewrite Hv. reflexivity. }
    assert (10 ^ Z.of_nat (nb_digits l) < 10 ^ Z.of_nat k).
    { assert (0 <= 10 ^ Z.of_nat (nb_digits l)) by (apply Z.pow_nonneg; lia).
      nia. }
    apply Z.pow_lt_mono_r_iff in H; lia. }
  destruct (N.to_uint (Z.to_N n)) as [|l|l|l|l|l|l|l|l|l|l] eqn:D;
    cbn [NilZero.string_of_uint NilEmpty.string_of_uint String.length];
    rewrite ?NameFacts.string_of_uint_length;
    try (apply (V l _ eq_refl)).
  - lia.
  - rewrite DecimalFacts.unorm_D0 in U.
    destruct (Decimal.uint_eq_dec (nzhead l) Nil) as [Hz|Hz].
    + unfold unorm in U. rewrite Hz in U. injection U as <-. cbn. lia.
    + rewrite (DecimalFacts.unorm_nzhead l Hz) in U.
      exfalso. exact (DecimalFacts.nzhead_nonzero l l U).
Qed.

Lemma fmt_d_fits n : int_range n -> (String.length (fmt_d n) <= 31)%nat.
Proof.
  unfold int_range, in_range, INT_BITS. cbn. intros Hn.
  unfold fmt_d. destruct (Z.ltb_spec n 0).
  - cbn [String.length].
    pose proof (fmt_u_length (- n) 10) as L.
    assert ((String.length (fmt_u (- n)) <= 10)%nat)
      by (apply L; [lia | cbn; lia]).
    lia.
  - pose proof (fmt_u_length n 10) as L.
    assert ((String.length (fmt_u n) <= 10)%nat)
      by (apply L; [lia | cbn; lia]).
    lia.
Qed.

Lemma atoi_numbuf n : int_range n -> atoi (snprintf 32 (fmt_d n)) = n.
Proof.
  intros Hn. unfold snprintf.
  rewrite CFacts.take_all by (apply fmt_d_fits; exact Hn).
  now apply atoi_fmt_d.
Qed.

End ArgFacts.

(** X15: what [syslogger_forkexec] writes into the argument list,
    [syslogger_parseArgs] reads back.  For a process whose logfile, if
    it has one, has a descriptor that is a non-negative [int] and that
    the exec'ed process inherits, the exec'ed process ends up with a
    stream on that descriptor (or with none, as the parent) and with
    the parent's [redirection_done]; the list has the five entries the
    assertion asks for, whatever is put into the third. *)
Theorem logfile_survives_exec p slot open_paths p0 :
  (forall f, proc_syslogFile p = Some f ->
     0 <= fileno f < 2 ^ 31 /\ open_paths (fileno f) = Some (path f)) ->
  syslogger_parseArgs open_paths
    (exec_argv slot (syslogger_forkexec_av p)) p0 =
  Some
    match proc_syslogFile p with
    | Some f =>
        (set_redirection_done (redirection_done p)
           (set_proc_syslogFile (Some f) p0),
         [SeFdopen (fileno f); SeLoop (EvSetvbuf f)])
    | None => (set_redirection_done (redirection_done p) p0, [])
    end.
Proof.
  intros H.
  assert (B : to_bool (atoi (snprintf 32 (fmt_d (of_bool (redirection_done p)))))
              = redirection_done p)
    by (destruct (redirection_done p); reflexivity).
  unfold syslogger_parseArgs, syslogger_forkexec_av, exec_argv.
  cbn [map]. rewrite B.
  destruct (proc_syslogFile p) as [f|] eqn:Hf.
  - destruct (H f eq_refl) as [Hr Ho].
    rewrite ArgFacts.atoi_numbuf
      by (unfold int_range, in_range, INT_BITS; cbn; lia).
    destruct (Z.eqb_spec (fileno f) (-1)) as [E|_]; [lia|].
    rewrite Ho. destruct f as [fd name]. reflexivity.
  - reflexivity.
Qed.
Section ReloadRotationFacts.

Context `{P : Platform}.


(** X16: rotation that a failed [fopen] has switched off comes back with
    the next SIGHUP.  After [logfile_rotate] has failed with an errno other
    than ENFILE and EMFILE, a pass without a pending SIGHUP requests no
    rotation; once the signal has arrived, the pass takes both limits from
    the configuration file again, and if the file already holds
    [Log_RotationSize] kilobytes or more it requests the rotation at once. *)
Theorem sighup_reenables_rotation now e o s :
  e <> ENFILE -> e <> EMFILE ->
  0 < LONG_BITS ->
  0 < guc_log_rotation_size (o_config o) ->
  in_range LONG_BITS (guc_log_rotation_size (o_config o) * 1024) ->
  guc_log_rotation_size (o_config o) * 1024 <= o_ftell o ->
  let disabled := state_of (logfile_rotate now (fopen_NULL e) s) in
  let r := SysLoggerMain_rotation_requested o (sigHupHandler disabled) in
  (got_SIGHUP s = false ->
   value_of (SysLoggerMain_rotation_requested o disabled) = false) /\
  Log_RotationAge (state_of r) = guc_log_rotation_age (o_config o) /\
  Log_RotationSize (state_of r) = guc_log_rotation_size (o_config o) /\
  value_of r = true.
Proof.
  intros H1 H2 HL Hpos Hrange Hfull. cbv zeta.
  rewrite (logfile_rotate_disable now e s H1 H2).
  cbn [state_of fst snd].
  set (d := set_Log_RotationSize 0 (set_Log_RotationAge 0 s)).
  assert (G : got_SIGHUP (sigHupHandler d) = true) by reflexivity.
  assert (St : Log_RotationAge
                 (state_of (SysLoggerMain_reload o (sigHupHandler d))) =
               guc_log_rotation_age (o_config o) /\
               Log_RotationSize
                 (state_of (SysLoggerMain_reload o (sigHupHandler d))) =
               guc_log_rotation_size (o_config o)).
  { rewrite (reload_serviced o _ G). cbv zeta.
    destruct (strncmp _ _ _ =? 0); split; reflexivity. }
  destruct St as (Sa & Ss).
  split; [|split; [|split]].
  - intros Hg.
    rewrite (rotation_requested_disabled o d); [reflexivity|exact Hg| |];
      reflexivity.
  - rewrite rotation_requested_state. exact Sa.
  - rewrite rotation_requested_state. exact Ss.
  - rewrite rotation_requested_value. cbv zeta. rewrite Ss.
    rewrite (CFacts.wrap_small _ _ HL Hrange).
    destruct (Z.gtb_spec (guc_log_rotation_size (o_config o)) 0); [|lia].
    destruct (Z.geb_spec (o_ftell o)
                (guc_log_rotation_size (o_config o) * 1024)); [|lia].
    cbn [andb]. apply orb_true_r.
Qed.


End ReloadRotationFacts.

(** ** The theorems at work

    The collector of [Posix.collector] on a POSIX platform, run on
    concrete answers of the environment. *)

Import Posix.

Lemma write_syslogger_file_short_write_witness :
  int_range 6 /\ 0 <= 2 <= 6 /\
  let r := write_syslogger_file hello 6 2 28 collector in
  state_of r = collector /\
  events_of r =
    [EvFwrite first_file hello 6 2; EvReport (could_not_write_to_logfile 28)].
Proof.
  assert (H1 : int_range 6)
    by (unfold int_range, in_range, INT_BITS; simpl; lia).
  assert (H2 : 0 <= 2 <= 6) by lia.
  split; [exact H1|]. split; [exact H2|].
  destruct (write_syslogger_file_short_write hello 6 2 28
              collector H1 H2) as (Hs & Hshort & _).
  split; [exact Hs|]. apply Hshort. lia.
Defined.

Lemma logfile_rotate_failure_disables_rotation_witness :
  13 <> @ENFILE platform /\ 13 <> @EMFILE platform /\
  let r := @logfile_rotate platform (t0 + 86400) (fopen_NULL 13) collector in
  let later :=
    @run platform [Pass (idle (t0 + 86401)); Sighup] (state_of r) in
  Log_RotationAge (state_of r) = 0 /\
  Log_RotationSize (state_of r) = 0 /\
  syslogFile (state_of r) = first_file /\
  Log_RotationAge later = 0 /\ Log_RotationSize later = 0.
Proof.
  assert (H1 : 13 <> @ENFILE platform) by discriminate.
  assert (H2 : 13 <> @EMFILE platform) by discriminate.
  split; [exact H1|]. split; [exact H2|].
  destruct (@logfile_rotate_failure_disables_rotation platform (t0 + 86400)
              13 collector H1 H2) as (Ha & Hs & Hf & _ & _ & Hrun).
  split; [exact Ha|]. split; [exact Hs|]. split; [exact Hf|].
  apply (Hrun [Pass (idle (t0 + 86401)); Sighup]). reflexivity.
Defined.

Lemma rotation_requested_policy_witness :
  let o := idle (t0 + 86400) in
  0 < @LONG_BITS platform /\
  int_range (o_time_check o - last_rotation_time collector) /\
  int_range (Log_RotationAge collector * 60) /\
  in_range (@LONG_BITS platform) (Log_RotationSize collector * 1024) /\
  value_of (@SysLoggerMain_rotation_requested platform o collector) = true /\
  events_of (@SysLoggerMain_rotation_requested platform o collector) =
    [EvTime (t0 + 86400)].
Proof.
  cbv zeta.
  assert (H1 : 0 < @LONG_BITS platform) by reflexivity.
  assert (H2 : int_range
                 (o_time_check (idle (t0 + 86400)) - last_rotation_time collector))
    by (unfold int_range, in_range, INT_BITS; simpl; lia).
  assert (H3 : int_range (Log_RotationAge collector * 60))
    by (unfold int_range, in_range, INT_BITS; simpl; lia).
  assert (H4 : in_range (@LONG_BITS platform) (Log_RotationSize collector * 1024))
    by (unfold in_range; simpl; lia).
  repeat (split; [assumption|]).
  destruct (@rotation_requested_policy platform (idle (t0 + 86400)) collector
              H1 H2 H3 H4) as (Hiff & _ & Hold & _).
  assert (Hnot : ~ (got_SIGHUP collector = true /\
                    strncmp (guc_log_directory (o_config (idle (t0 + 86400))))
                      (currentLogDir collector) (@MAXPGPATH platform) <> 0))
    by (intros [H _]; discriminate H).
  assert (Hage : last_rotation_time collector <> 0 /\
                 Log_RotationAge collector > 0 /\
                 o_time_check (idle (t0 + 86400)) - last_rotation_time collector
                 >= Log_RotationAge collector * 60)
    by (split; [discriminate | split; [reflexivity | unfold t0; simpl; lia]]).
  split.
  - apply Hiff. right. left. exact Hage.
  - exact (Hold Hnot Hage).
Defined.

Lemma logfile_getname_format_witness :
  0 <= PostmasterPid collector < 2 ^ 31 /\
  (String.length
     "/usr/local/pgsql/data/pg_log/postgresql-04711_2004-08-05_120000.log"
   < @MAXPGPATH platform)%nat /\
  @logfile_getname platform collector t0 =
    "/usr/local/pgsql/data/pg_log/postgresql-04711_2004-08-05_120000.log" /\
  decimal_value "04711" = Some 4711.
Proof.
  assert (H1 : 0 <= PostmasterPid collector < 2 ^ 31) by (simpl; lia).
  assert (H2 : (String.length
                  "/usr/local/pgsql/data/pg_log/postgresql-04711_2004-08-05_120000.log"
                < @MAXPGPATH platform)%nat)
    by (apply Nat.ltb_lt; vm_compute; reflexivity).
  split; [exact H1|]. split; [exact H2|].
  destruct (@logfile_getname_format platform collector t0 H1 H2)
    as (Hname & Hval & _).
  split; [exact Hname | exact Hval].
Defined.

Lemma pipe_eof_shuts_down_witness :
  o_select_rc (eof (t0 + 3)) > 0 /\
  o_select_isset (eof (t0 + 3)) = true /\
  o_bytesRead (eof (t0 + 3)) = 0 /\
  @SysLoggerMain_loop platform
    ([idle (t0 + 1); data (t0 + 2) hello] ++
     eof (t0 + 3) :: [idle (t0 + 4); data (t0 + 5) hello]) collector =
  @SysLoggerMain_loop platform
    ([idle (t0 + 1); data (t0 + 2) hello] ++ [eof (t0 + 3)]) collector.
Proof.
  assert (H1 : o_select_rc (eof (t0 + 3)) > 0) by reflexivity.
  assert (H2 : o_select_isset (eof (t0 + 3)) = true) by reflexivity.
  assert (H3 : o_bytesRead (eof (t0 + 3)) = 0) by reflexivity.
  repeat (split; [assumption|]).
  destruct (@pipe_eof_shuts_down platform) as (_ & Hstop & _).
  exact (Hstop [idle (t0 + 1); data (t0 + 2) hello] (eof (t0 + 3))
           [idle (t0 + 4); data (t0 + 5) hello] collector H1 H2 H3).
Defined.

Lemma logfile_rotate_fd_exhaustion_witness :
  let o := with_fopen (fopen_NULL 24) (idle (t0 + 86400)) in
  let o' := with_fopen (fopen_ok 4) (idle (t0 + 86401)) in
  (24 = @ENFILE platform \/ 24 = @EMFILE platform) /\
  state_of (@logfile_rotate platform (t0 + 86400) (fopen_NULL 24) collector) =
    collector /\
  value_of
    (@SysLoggerMain_rotation_requested platform o'
       (state_of (@SysLoggerMain_body platform o collector))) = true.
Proof.
  cbv zeta.
  assert (H : 24 = @ENFILE platform \/ 24 = @EMFILE platform)
    by (right; reflexivity).
  split; [exact H|].
  destruct (@logfile_rotate_fd_exhaustion platform 24 H) as (Hkeep & Hretry).
  split.
  - exact (proj1 (Hkeep (t0 + 86400) collector)).
  - apply (Hretry (with_fopen (fopen_NULL 24) (idle (t0 + 86400)))
             (with_fopen (fopen_ok 4) (idle (t0 + 86401))) collector);
      try reflexivity;
      try (unfold int_range, in_range, INT_BITS; simpl; lia);
      simpl; unfold t0; lia.
Defined.

Lemma reload_requests_rotation_witness :
  let o := with_config (mkGuc 60 1024 "/var/log/pg" "pg-") (idle (t0 + 5)) in
  let s := sigHupHandler collector in
  got_SIGHUP s = true /\
  (String.length (guc_log_directory (o_config o)) <= @MAXPGPATH platform)%nat /\
  (String.length (currentLogDir s) <= @MAXPGPATH platform)%nat /\
  value_of (@SysLoggerMain_reload platform o s) = true /\
  currentLogDir (state_of (@SysLoggerMain_reload platform o s)) = "/var/log/pg".
Proof.
  cbv zeta.
  set (o := with_config (mkGuc 60 1024 "/var/log/pg" "pg-") (idle (t0 + 5))).
  set (s := sigHupHandler collector).
  assert (H0 : got_SIGHUP s = true) by reflexivity.
  assert (H1 : (String.length (guc_log_directory (o_config o))
                <= @MAXPGPATH platform)%nat)
    by (apply Nat.leb_le; vm_compute; reflexivity).
  assert (H2 : (String.length (currentLogDir s) <= @MAXPGPATH platform)%nat)
    by (apply Nat.leb_le; vm_compute; reflexivity).
  split; [exact H0|]. split; [exact H1|]. split; [exact H2|].
  destruct (@reload_requests_rotation_on_directory_change platform o s)
    as (_ & Hset & _).
  destruct (Hset H0) as (_ & _ & _ & _ & _ & _ & _ & _ & _ & Hfit).
  destruct (Hfit H1 H2) as (Hiff & Hnew & _).
  assert (Hne : guc_log_directory (o_config o) <> currentLogDir s)
    by discriminate.
  split; [apply Hiff; exact Hne | exact (Hnew Hne)].
Defined.

Lemma wait_error_like_timeout_witness :
  let o := with_select (-1) 4 false (idle (t0 + 7)) in
  o_select_rc o < 0 /\ o_select_errno o = @EINTR platform /\
  pipe_eof_seen collector = false /\
  @SysLoggerMain_wait platform o collector =
    (Continue, collector, [EvSelect (-1)]).
Proof.
  cbv zeta.
  set (o := with_select (-1) 4 false (idle (t0 + 7))).
  assert (H1 : o_select_rc o < 0) by reflexivity.
  assert (H2 : o_select_errno o = @EINTR platform) by reflexivity.
  assert (H3 : pipe_eof_seen collector = false) by reflexivity.
  repeat (split; [assumption|]).
  destruct (@wait_error_like_timeout platform o collector)
    as (_ & Hintr & _ & _ & _ & _ & Hclear).
  pose proof (Hintr H1 H2) as E. rewrite (Hclear H3) in E. exact E.
Defined.

(** Counterexample to C2 as stated: the collector started at the epoch,
    so that [last_rotation_time] is 0; a day later the age limit of 1440
    minutes is reached, yet the pass requests no rotation. *)
Lemma rotation_requested_epoch_counterexample :
  let s := state_of
             (@SysLoggerMain_init platform 0
                (default_state 4711 "/usr/local/pgsql/data"
                   (mkFILE 3 "/usr/local/pgsql/data/pg_log/postgresql-04711_1970-01-01_000000.log"))) in
  let o := idle 86400 in
  let r0 := @SysLoggerMain_reload platform o s in
  Log_RotationAge (state_of r0) > 0 /\
  o_time_check o - last_rotation_time s >= Log_RotationAge (state_of r0) * 60 /\
  spec_rotation_requested (value_of r0) (o_time_check o) (o_ftell o)
    (state_of r0) = true /\
  value_of (@SysLoggerMain_rotation_requested platform o s) = false.
Proof. cbv zeta. repeat split; vm_compute; congruence. Qed.

(** Counterexample to C3 as stated: the pid 123456 is printed with six
    digits, so the name is not of the form with a five-digit field. *)
Lemma logfile_getname_pid_counterexample :
  let s := default_state 123456 "/usr/local/pgsql/data" first_file in
  @logfile_getname platform s t0 =
    "/usr/local/pgsql/data/pg_log/postgresql-123456_2004-08-05_120000.log" /\
  ~ @spec_logfile_name platform s t0 (@logfile_getname platform s t0).
Proof.
  cbv zeta. split; [vm_compute; reflexivity|].
  intros (pid5 & H5 & _ & Hname).
  destruct pid5 as [|c1 [|c2 [|c3 [|c4 [|c5 [|c6 r]]]]]];
    try discriminate H5.
  vm_compute in Hname. congruence.
Qed.

(** Counterexample to C5 as stated: a rotation asked for because the
    directory changed fails with EMFILE; neither the next pass nor
    another SIGHUP with the same configuration asks for it again, while
    the collector goes on writing to the file in the old directory. *)
Lemma fd_exhaustion_directory_counterexample :
  let g := mkGuc 1440 10240 "/var/log/pg" "postgresql-" in
  let o := with_fopen (fopen_NULL 24) (with_config g (idle (t0 + 10))) in
  let o' := with_fopen (fopen_ok 4) (with_config g (idle (t0 + 11))) in
  let s := sigHupHandler collector in
  let s1 := state_of (@SysLoggerMain_body platform o s) in
  value_of (@SysLoggerMain_rotation_requested platform o s) = true /\
  value_of (@SysLoggerMain_body platform o s) = Continue /\
  syslogFile s1 = first_file /\
  Log_directory s1 = "/var/log/pg" /\
  value_of (@SysLoggerMain_rotation_requested platform o' s1) = false /\
  value_of (@SysLoggerMain_rotation_requested platform o' (sigHupHandler s1))
    = false.
Proof. cbv zeta. repeat split; vm_compute; reflexivity. Qed.

(** Counterexample to C6 as stated: [log_directory] is set to a name of
    1025 bytes, and at a later reload to another name of 1025 bytes that
    differs from it in the last byte only.  The configured directory
    differs from the snapshot, which holds the first 1024 bytes of the
    first name, and from the directory configured before; yet the second
    reload requests no rotation and leaves the snapshot as it was. *)
Lemma reload_long_directory_counterexample :
  let a := "/" ++ zeros 1023 ++ "a" in
  let b := "/" ++ zeros 1023 ++ "b" in
  let o := with_config (mkGuc 1440 10240 a "postgresql-") (idle (t0 + 10)) in
  let o' := with_config (mkGuc 1440 10240 b "postgresql-") (idle (t0 + 20)) in
  let s := sigHupHandler
             (state_of (@SysLoggerMain_reload platform o
                          (sigHupHandler collector))) in
  let r := @SysLoggerMain_reload platform o' s in
  got_SIGHUP s = true /\
  String.eqb (guc_log_directory (o_config o')) (currentLogDir s) = false /\
  String.eqb (guc_log_directory (o_config o')) (Log_directory s) = false /\
  Log_directory (state_of r) = b /\
  value_of r = false /\
  currentLogDir (state_of r) = currentLogDir s.
Proof. cbv zeta. repeat split; vm_compute; reflexivity. Qed.

(** ** The further theorems at work *)

Import PosixStart.

Lemma loop_writes_what_it_reads_witness :
  let os := [data (t0 + 1) hello; idle (t0 + 2); data (t0 + 3) hello;
             eof (t0 + 4); data (t0 + 5) hello] in
  let goodbye := "LOG:  logger shutting down" in
  let r := @SysLoggerMain_loop platform os collector in
  pipe_eof_seen collector = false /\
  written
    (collector_trace [one_line goodbye] (Steady first_file) (events_of r)) =
    [hello; hello; list_byte_of_string goodbye] /\
  Interleaved [hello; hello] [list_byte_of_string goodbye]
    [hello; hello; list_byte_of_string goodbye].
Proof.
  cbv zeta.
  assert (H : pipe_eof_seen collector = false) by reflexivity.
  split; [exact H|]. split; [reflexivity|].
  exact (proj1 (@loop_writes_what_it_reads platform
                  [data (t0 + 1) hello; idle (t0 + 2); data (t0 + 3) hello;
                   eof (t0 + 4); data (t0 + 5) hello]
                  [one_line "LOG:  logger shutting down"] collector H)).
Defined.

Lemma loop_without_limits_never_rotates_witness :
  let s := set_Log_RotationSize 0 (set_Log_RotationAge 0 collector) in
  let os := [idle (t0 + 86400); data (t0 + 86401) hello] in
  got_SIGHUP s = false /\ Log_RotationAge s = 0 /\ Log_RotationSize s = 0 /\
  forallb (fun o => negb (o_sighup_in_select o)) os = true /\
  count is_rotation_work (events_of (@SysLoggerMain_loop platform os s)) = 0%nat.
Proof.
  cbv zeta.
  set (s := set_Log_RotationSize 0 (set_Log_RotationAge 0 collector)).
  set (os := [idle (t0 + 86400); data (t0 + 86401) hello]).
  assert (H1 : got_SIGHUP s = false) by reflexivity.
  assert (H2 : Log_RotationAge s = 0) by reflexivity.
  assert (H3 : Log_RotationSize s = 0) by reflexivity.
  assert (H4 : forallb (fun o => negb (o_sighup_in_select o)) os = true)
    by reflexivity.
  repeat (split; [assumption|]).
  exact (proj1 (@loop_without_limits_never_rotates platform os s H1 H2 H3 H4)).
Defined.

Lemma reload_same_directory_requests_nothing_witness :
  let g := mkGuc 60 1024 "/var/log/pg" "pg-" in
  let o := with_config g (idle (t0 + 5)) in
  let o' := with_config g (idle (t0 + 9)) in
  got_SIGHUP (sigHupHandler collector) = true /\
  guc_log_directory (o_config o') = guc_log_directory (o_config o) /\
  value_of
    (@SysLoggerMain_reload platform o'
       (sigHupHandler
          (state_of (@SysLoggerMain_reload platform o
                       (sigHupHandler collector))))) = false.
Proof.
  cbv zeta.
  set (g := mkGuc 60 1024 "/var/log/pg" "pg-").
  assert (H1 : got_SIGHUP (sigHupHandler collector) = true) by reflexivity.
  assert (H2 : guc_log_directory (o_config (with_config g (idle (t0 + 9)))) =
               guc_log_directory (o_config (with_config g (idle (t0 + 5)))))
    by reflexivity.
  split; [exact H1|]. split; [exact H2|].
  exact (proj1 (@reload_same_directory_requests_nothing platform
                  (with_config g (idle (t0 + 9))))
           (with_config g (idle (t0 + 5))) (sigHupHandler collector) H1 H2).
Defined.

Lemma fresh_file_is_not_rotated_witness :
  let o := with_ftell 100 (idle (t0 + 60)) in
  let s := default_state 4711 "/usr/local/pgsql/data" first_file in
  got_SIGHUP s = false /\
  0 < @LONG_BITS platform /\
  int_range (o_time_check o - t0) /\
  int_range (Log_RotationAge s * 60) /\
  in_range (@LONG_BITS platform) (Log_RotationSize s * 1024) /\
  o_time_check o - t0 < Log_RotationAge s * 60 /\
  o_ftell o < Log_RotationSize s * 1024 /\
  value_of (@SysLoggerMain_rotation_requested platform o collector) = false.
Proof.
  cbv zeta.
  set (o := with_ftell 100 (idle (t0 + 60))).
  set (s := default_state 4711 "/usr/local/pgsql/data" first_file).
  assert (H1 : got_SIGHUP s = false) by reflexivity.
  assert (H2 : 0 < @LONG_BITS platform) by reflexivity.
  assert (H3 : int_range (o_time_check o - t0))
    by (unfold int_range, in_range, INT_BITS; cbn; lia).
  assert (H4 : int_range (Log_RotationAge s * 60))
    by (unfold int_range, in_range, INT_BITS; cbn; lia).
  assert (H5 : in_range (@LONG_BITS platform) (Log_RotationSize s * 1024))
    by (unfold in_range; cbn; lia).
  assert (H6 : o_time_check o - t0 < Log_RotationAge s * 60) by reflexivity.
  assert (H7 : o_ftell o < Log_RotationSize s * 1024) by reflexivity.
  repeat (split; [assumption|]).
  exact (proj1 (@fresh_file_is_not_rotated platform t0 o s
                  H1 H2 H3 H4 H5 H6 H7)).
Defined.

Lemma logfile_getname_same_name_same_stamp_witness :
  (String.length
     "/usr/local/pgsql/data/pg_log/postgresql-04711_2004-08-05_120000.log"
   < @MAXPGPATH platform)%nat /\
  (String.length
     "/usr/local/pgsql/data/pg_log/postgresql-04711_2004-08-05_120001.log"
   < @MAXPGPATH platform)%nat /\
  @logfile_getname platform collector t0 <>
  @logfile_getname platform collector (t0 + 1).
Proof.
  assert (H1 : (String.length
                  "/usr/local/pgsql/data/pg_log/postgresql-04711_2004-08-05_120000.log"
                < @MAXPGPATH platform)%nat)
    by (apply Nat.ltb_lt; vm_compute; reflexivity).
  assert (H2 : (String.length
                  "/usr/local/pgsql/data/pg_log/postgresql-04711_2004-08-05_120001.log"
                < @MAXPGPATH platform)%nat)
    by (apply Nat.ltb_lt; vm_compute; reflexivity).
  split; [exact H1|]. split; [exact H2|].
  intros E.
  apply (proj1 (@logfile_getname_same_name_same_stamp platform collector
                  t0 (t0 + 1) H1 H2)) in E.
  vm_compute in E. discriminate E.
Defined.

Lemma SysLogger_Start_reuses_the_pipe_witness :
  settled running /\
  syslogPipe0
    (snd (fst (@SysLogger_Start platform (forks 4713) running))) = 5 /\
  forallb (fun e => negb (is_descriptor_work e))
    (snd (@SysLogger_Start platform (forks 4713) running)) = true.
Proof.
  assert (H : settled running)
    by (unfold settled; cbn; repeat split; lia).
  split; [exact H|].
  exact (proj2 (@SysLogger_Start_reuses_the_pipe platform (forks 4713)
                  running H)).
Defined.

Lemma SysLogger_Start_hands_over_the_logfile_witness :
  fst (fst (@SysLogger_Start platform (forks 4712) postmaster)) =
    Returns 4712 /\
  4712 <> 0 /\
  (syslogPipe0 postmaster < 0 -> 0 <= fst (so_pgpipe_fds (forks 4712))) /\
  (redirection_done postmaster = true -> settled postmaster) /\
  settled running /\ proc_syslogFile running = None /\
  exists pre,
    snd (@SysLogger_Start platform (forks 4712) postmaster) =
    (pre ++
     [SeFork 4712;
      SeFflush 1; SeDup2 6 1; SeFflush 2; SeDup2 6 2; SeClose 6;
      SeLoop (EvFclose (mkFILE 7 (path first_file)))])%list.
Proof.
  assert (H1 : fst (fst (@SysLogger_Start platform (forks 4712) postmaster)) =
               Returns 4712) by reflexivity.
  assert (H2 : 4712 <> 0) by discriminate.
  assert (H3 : syslogPipe0 postmaster < 0 ->
               0 <= fst (so_pgpipe_fds (forks 4712))) by (intros _; cbn; lia).
  assert (H4 : redirection_done postmaster = true -> settled postmaster)
    by (intros H; discriminate H).
  repeat (split; [assumption|]).
  destruct (@SysLogger_Start_hands_over_the_logfile platform (forks 4712)
              postmaster 4712 H1 H2 H3 H4) as (Hs & Hf & n & pre & Hn & He & _).
  split; [exact Hs|]. split; [exact Hf|].
  injection Hn as <-. exists pre. exact He.
Defined.

Lemma SysLogger_Start_forks_only_with_a_logfile_witness :
  let o := mkStartOracle 0 (5, 6) 0 t0 (fopen_NULL 13) 4712 0 1 2 0 in
  Redirect_stderr postmaster = true /\
  existsb is_fork (snd (@SysLogger_Start platform o postmaster)) = false /\
  fst (fst (@SysLogger_Start platform o postmaster)) = Aborts.
Proof.
  cbv zeta.
  set (o := mkStartOracle 0 (5, 6) 0 t0 (fopen_NULL 13) 4712 0 1 2 0).
  assert (H1 : Redirect_stderr postmaster = true) by reflexivity.
  assert (H2 : existsb is_fork (snd (@SysLogger_Start platform o postmaster))
               = false) by reflexivity.
  split; [exact H1|]. split; [exact H2|].
  exact (proj2 (@SysLogger_Start_forks_only_with_a_logfile platform o
                  postmaster) H1 H2).
Defined.

Lemma SysLogger_Start_fork_failure_witness :
  Redirect_stderr postmaster = true /\
  (0 <= syslogPipe0 postmaster \/ 0 <= so_pgpipe_rc (forks (-1))) /\
  so_fopen (forks (-1)) = fopen_ok 7 /\
  so_fork (forks (-1)) = -1 /\
  fst (fst (@SysLogger_Start platform (forks (-1)) postmaster)) = Returns 0 /\
  proc_syslogFile
    (snd (fst (@SysLogger_Start platform (forks (-1)) postmaster))) =
    Some (mkFILE 7 (path first_file)).
Proof.
  assert (H1 : Redirect_stderr postmaster = true) by reflexivity.
  assert (H2 : 0 <= syslogPipe0 postmaster \/ 0 <= so_pgpipe_rc (forks (-1)))
    by (right; cbn; lia).
  assert (H3 : so_fopen (forks (-1)) = fopen_ok 7) by reflexivity.
  assert (H4 : so_fork (forks (-1)) = -1) by reflexivity.
  repeat (split; [assumption|]).
  destruct (@SysLogger_Start_fork_failure platform (forks (-1)) postmaster 7
              H1 H2 H3 H4) as (Hr & Hf & _).
  split; [exact Hr | exact Hf].
Defined.

Lemma collector_takes_over_the_logfile_witness :
  fst (fst (@SysLogger_Start platform (forks 0) postmaster)) =
    EntersSysLoggerMain /\
  exists r ev,
    @SysLoggerMain platform 4712 3 t0 [eof (t0 + 1)]
      (snd (fst (@SysLogger_Start platform (forks 0) postmaster))) =
    Some (ProcExit 0, r, ev).
Proof.
  assert (H : fst (fst (@SysLogger_Start platform (forks 0) postmaster)) =
              EntersSysLoggerMain) by reflexivity.
  split; [exact H|].
  destruct (@collector_takes_over_the_logfile platform (forks 0) postmaster
              4712 3 t0 [eof (t0 + 1)] H) as (n & _ & Hm & _).
  eexists. eexists. exact Hm.
Defined.

Lemma SysLoggerMain_entry_closes_the_write_end_witness :
  In 6 (write_end_holders
          (snd (fst (@SysLogger_Start platform (forks 0) postmaster)))) /\
  In (SeClose 6)
    (snd (SysLoggerMain_entry 4712 3
            (snd (fst (@SysLogger_Start platform (forks 0) postmaster))))).
Proof.
  assert (H : In 6 (write_end_holders
                      (snd (fst (@SysLogger_Start platform (forks 0)
                                   postmaster)))))
    by (left; reflexivity).
  split; [exact H|].
  exact (proj1 (SysLoggerMain_entry_closes_the_write_end 4712 3 _) 6 H).
Defined.

Lemma SysLogger_Start_opens_in_the_created_directory_witness :
  let ev := snd (@SysLogger_Start platform (forks 4712) postmaster) in
  In (SeMkdir "/usr/local/pgsql/data/pg_log" 448) ev /\
  In (SeLoop (EvFopen (path first_file) (fopen_ok 7))) ev /\
  (String.length (path first_file) < @MAXPGPATH platform)%nat /\
  path first_file =
    "/usr/local/pgsql/data/pg_log" ++ "/" ++
    "postgresql-" ++ "04711" ++ "_" ++ "2004-08-05_120000" ++ ".log".
Proof.
  cbv zeta.
  assert (H1 : In (SeMkdir "/usr/local/pgsql/data/pg_log" 448)
                 (snd (@SysLogger_Start platform (forks 4712) postmaster)))
    by (right; left; reflexivity).
  assert (H2 : In (SeLoop (EvFopen (path first_file) (fopen_ok 7)))
                 (snd (@SysLogger_Start platform (forks 4712) postmaster)))
    by (right; right; right; left; reflexivity).
  assert (H3 : (String.length (path first_file) < @MAXPGPATH platform)%nat)
    by (apply Nat.ltb_lt; vm_compute; reflexivity).
  repeat (split; [assumption|]).
  exact (proj2 (proj2 (@SysLogger_Start_opens_in_the_created_directory
                         platform (forks 4712) postmaster _ _ _ _ H1 H2 H3))).
Defined.

Lemma logfile_survives_exec_witness :
  let p := set_proc_syslogFile (Some first_file)
             (set_syslogPipe 5 (-1) (set_redirection_done true postmaster)) in
  (forall f, proc_syslogFile p = Some f ->
     0 <= fileno f < 2 ^ 31 /\ inherited (fileno f) = Some (path f)) /\
  syslogger_parseArgs inherited
    (exec_argv "12345" (syslogger_forkexec_av p)) postmaster =
  Some (set_redirection_done true
          (set_proc_syslogFile (Some first_file) postmaster),
        [SeFdopen 3; SeLoop (EvSetvbuf first_file)]).
Proof.
  cbv zeta.
  set (p := set_proc_syslogFile (Some first_file)
              (set_syslogPipe 5 (-1) (set_redirection_done true postmaster))).
  assert (H : forall f, proc_syslogFile p = Some f ->
                0 <= fileno f < 2 ^ 31 /\
                inherited (fileno f) = Some (path f)).
  { intros f Hf. injection Hf as <-. split; [cbn; lia | reflexivity]. }
  split; [exact H|].
  exact (logfile_survives_exec p "12345" inherited postmaster H).
Defined.

Lemma sighup_reenables_rotation_witness :
  let o := with_ftell (10 * 1024 * 1024) (idle (t0 + 5)) in
  13 <> @ENFILE platform /\ 13 <> @EMFILE platform /\
  0 < @LONG_BITS platform /\
  0 < guc_log_rotation_size (o_config o) /\
  in_range (@LONG_BITS platform)
    (guc_log_rotation_size (o_config o) * 1024) /\
  guc_log_rotation_size (o_config o) * 1024 <= o_ftell o /\
  value_of
    (@SysLoggerMain_rotation_requested platform o
       (sigHupHandler
          (state_of (@logfile_rotate platform t0 (fopen_NULL 13) collector))))
  = true.
Proof.
  cbv zeta.
  set (o := with_ftell (10 * 1024 * 1024) (idle (t0 + 5))).
  assert (H1 : 13 <> @ENFILE platform) by discriminate.
  assert (H2 : 13 <> @EMFILE platform) by discriminate.
  assert (H3 : 0 < @LONG_BITS platform) by reflexivity.
  assert (H4 : 0 < guc_log_rotation_size (o_config o)) by reflexivity.
  assert (H5 : in_range (@LONG_BITS platform)
                 (guc_log_rotation_size (o_config o) * 1024))
    by (unfold in_range; cbn; lia).
  assert (H6 : guc_log_rotation_size (o_config o) * 1024 <= o_ftell o)
    by discriminate.
  repeat (split; [assumption|]).
  exact (proj2 (proj2 (proj2
           (@sighup_reenables_rotation platform t0 13 o collector
              H1 H2 H3 H4 H5 H6)))).
Defined.

